(** * VideoRecorder: the asynchronous recording engine of VideoRecorder.cpp

    A shallow embedding of [CVideoRecorder]: the pacing arithmetic and the
    submission functions that run on the calling thread ([SampleFrame],
    [StartRecordImpl], [StopRecord], [Screenshot]), the three task kinds
    that run on the worker thread, the worker loop [Process], and the
    frame handle operations [Ready] and [Cancel].

    Conventions.
    - Integers are [Z]; where the source stores a value in a narrower
      machine type the conversion is written out, and the arithmetic of
      the steady clock wraps around at 64 bits.
    - The results of the collaborators that are not part of the
      repository (FFmpeg, DirectXTex, the allocator, the steady clock,
      the producer's callback) are read from an environment record, one
      per invocation.
    - Everything written to [wcerr]/[wclog] and every call that touches
      the encoder or a file is appended to a trace.
    - The [assert]s of the source are compiled out (NDEBUG); the code
      after each of them is what handles the failure.
    - The caller's functions are split at the points where they touch
      the queue, so that the worker can run in between; what they
      compute on their own fields does not depend on the worker.
    - The worker loop comes at two grains.  [Process] makes one loop
      iteration in one step, the pop together with the invocation of the
      popped task.  [Process_pop] and [Process_invoke] are the two halves
      of that iteration, the first under the mutex and the second after
      [lck.unlock()], with the task in flight kept in [running]; the
      other threads can act between them, when the queue is already
      empty and the task has not run yet.  A task itself runs in one
      step at either grain: what the calling thread does to the worker's
      fields while a task is running ([Error] under [CLEAN]) is not
      ordered by the source and is left out where it matters. *)

From Stdlib Require Import ZArith QArith Qround Lia Ascii String.
From stdpp Require Import base option list sorting strings gmap.

Local Open Scope Z_scope.

(** ** Enumerations *)

Inductive Status := OK | RETRY | CLEAN.
Inductive RecordMode := STOPPED | LOW_FPS | HIGH_FPS.

(** [Codec] and [Preset] are declared in a header that is newer than the
    one shipped; the constructors follow their uses in VideoRecorder.cpp:
    [FindEncoder] knows H264 and HEVC and throws on anything else,
    [EncodePreset_2_Str] maps the named presets to their names and
    anything else to [nullptr]. *)
Inductive Codec := H264 | HEVC | CodecOther.
Inductive Preset := Default | PresetNamed (name : string) | PresetOther.

Inductive Format := B8G8R8A8 | R10G10B10A2.

#[global] Instance Status_eq_dec : EqDecision Status.
Proof. solve_decision. Defined.
#[global] Instance RecordMode_eq_dec : EqDecision RecordMode.
Proof. solve_decision. Defined.
#[global] Instance Codec_eq_dec : EqDecision Codec.
Proof. solve_decision. Defined.
#[global] Instance Preset_eq_dec : EqDecision Preset.
Proof. solve_decision. Defined.
#[global] Instance Format_eq_dec : EqDecision Format.
Proof. solve_decision. Defined.

Definition lowFPS : Z := 30.
Definition highFPS : Z := 60.

(** [highFPS ? ::highFPS : ::lowFPS], the denominator of the encoder's
    time base. *)
Definition time_base_den (high : bool) : Z := if high then highFPS else lowFPS.

(** ** Frame handles and tasks *)

(** [CFrame::FrameData]; [pixels] is [None] for a null pointer. *)
Record FrameData := {
  format : Format;
  width : Z;
  height : Z;
  stride : Z;
  pixels : option N
}.

(** The private part of [CFrame], filled by its constructor from the
    opaque tuple, together with what the producer's [GetFrameData]
    override answers for this handle. *)
Record CFrame := {
  frame_screenshotPaths : list string;
  frame_videoPendingFrames : Z;
  frame_ready : bool;
  frame_data : FrameData
}.

(** [ITask] and its three final subclasses.  A [CFrameTask] holds the
    shared pointer [srcFrame]; handles are identified by address. *)
Inductive ITask :=
| CFrameTask (srcFrame : nat)
| CStartVideoRecordRequest
    (filename : string) (width height : Z) (_10bit highFPS : bool)
    (codecID : Codec) (crf : Z) (preset : Preset) (matchedStop : bool)
| CStopVideoRecordRequest (matchedStart : bool).

#[global] Instance ITask_eq_dec : EqDecision ITask.
Proof. solve_decision. Defined.

(** ** The clock's representation *)

(** [clock::rep], the count of a [steady_clock] duration or time point
    and the type of [videoPendingFrames], is a signed 64-bit integer.
    Its arithmetic wraps around (two's complement), which is what the
    compiled code does when a result leaves the range. *)
Definition wrap64 (z : Z) : Z := (z + 2 ^ 63) mod 2 ^ 64 - 2 ^ 63.

(** Whether [z] is a value of [clock::rep]. *)
Definition fits_rep (z : Z) : bool := (- 2 ^ 63 <=? z) && (z <? 2 ^ 63).

Lemma wrap64_range (z : Z) : fits_rep (wrap64 z) = true.
Proof.
  unfold fits_rep, wrap64.
  pose proof (Z.mod_pos_bound (z + 2 ^ 63) (2 ^ 64) ltac:(lia)).
  apply andb_true_iff. split; [apply Z.leb_le|apply Z.ltb_lt]; lia.
Qed.

(** A proof that a boolean holds, in the form that evaluates on a closed
    one. *)
Definition evaluated {b : bool} (H : b = true) : b = true :=
  match b as b' return b' = true -> b' = true with
  | true => fun _ => eq_refl
  | false => fun H' => H'
  end H.

(** ** State touched on the calling thread *)

Record CallerState := {
  nextFrame : Z;                    (* clock::time_point, in clock ticks *)
  screenshotPaths : list string;    (* std::queue, front first *)
  status : Status;
  recordMode : RecordMode;
  nextFrame_fits : fits_rep nextFrame = true
                                    (* a time_point holds a clock::rep *)
}.

(** A store to [nextFrame] is a store of 64 bits. *)
Definition set_nextFrame (t : Z) (s : CallerState) : CallerState :=
  {| nextFrame := wrap64 t; screenshotPaths := screenshotPaths s;
     status := status s; recordMode := recordMode s;
     nextFrame_fits := evaluated (wrap64_range t) |}.
Definition set_screenshotPaths (q : list string) (s : CallerState) : CallerState :=
  {| nextFrame := nextFrame s; screenshotPaths := q;
     status := status s; recordMode := recordMode s;
     nextFrame_fits := nextFrame_fits s |}.
Definition set_status (st : Status) (s : CallerState) : CallerState :=
  {| nextFrame := nextFrame s; screenshotPaths := screenshotPaths s;
     status := st; recordMode := recordMode s;
     nextFrame_fits := nextFrame_fits s |}.
Definition set_recordMode (m : RecordMode) (s : CallerState) : CallerState :=
  {| nextFrame := nextFrame s; screenshotPaths := screenshotPaths s;
     status := status s; recordMode := m;
     nextFrame_fits := nextFrame_fits s |}.

(** ** Pacing *)

(** [std::chrono::duration_cast] between two integer durations whose
    periods are [1/from_den] and [1/to_den] of a second.  The library
    reduces the ratio of the two periods to lowest terms
    ([std::ratio_divide]), multiplies the count by its numerator and
    divides by its denominator, truncating toward zero, all in
    [clock::rep]. *)
Definition duration_cast (from_den to_den : Z) (count : Z) : Z :=
  let g := Z.gcd to_den from_den in
  Z.quot (wrap64 (count * (to_den / g))) (from_den / g).

(** [AdvanceFrame<FPS>(now, videoPendingFrames)].  [tps] is the number of
    [steady_clock] ticks per second ([clock::period] is [1/tps]); the
    result is the recorder with [nextFrame] moved and the value written
    to [videoPendingFrames]. *)
Definition AdvanceFrame (tps FPS : Z) (now : Z) (s : CallerState) : CallerState * Z :=
  let delta := wrap64 (duration_cast tps FPS (wrap64 (now - nextFrame s)) + 1) in
  (set_nextFrame (wrap64 (nextFrame s + duration_cast FPS tps delta)) s, delta).

(** ** What a submission function tells the shared part of the recorder *)

Inductive Op := OpSampleFrame | OpStartRecord | OpStopRecord | OpScreenshot.

Inductive Cmd :=
| Enter (op : Op) (st : Status)
    (* the function body is entered with [status = st] *)
| RequestFrame (pending : Z) (paths : list string)
    (* RequestFrameCallback is invoked with the opaque tuple *)
| NewFrame (f : nat) (fr : CFrame)
    (* the callback returned handle [f], constructed from the tuple *)
| PushBack (t : ITask)
    (* taskQueue.push_back under the mutex, then notify_all *)
| ErrorCall (st : Status) (errorMsgPrefix : string).
    (* Error(std::exception, prefix, ...) called with [status = st] *)

#[global] Instance Op_eq_dec : EqDecision Op.
Proof. solve_decision. Defined.

(** The environment of one invocation of a submission function. *)
Record Env := {
  clock_now : Z;             (* what clock::now() returns *)
  callback_throws : bool;    (* RequestFrameCallback throws a std::exception *)
  callback_handle : nat;     (* the handle it returns otherwise *)
  callback_data : FrameData; (* what that handle's GetFrameData answers *)
  alloc_throws : bool;       (* new / make_unique throws std::bad_alloc *)
  lock_throws : bool;        (* the lock_guard throws std::system_error *)
  push_throws : bool;        (* push / push_back throws std::bad_alloc *)
  error_lock_throws : bool   (* the unique_lock or the wait inside
                                Error(const std::exception &, ...) throws
                                std::system_error *)
}.

(** How an attempt ends: nothing is thrown; a [std::exception] is
    caught and [Error(const std::exception &, ...)] has reported it and
    returned; or a [std::system_error] has reached
    [Error(const std::system_error &)]. *)
Inductive Thrown := Nothing | StdException | SystemError.

(** A [std::exception] is handed to [Error], which takes the mutex and
    waits on the condition variable itself (lines 178-179); a
    [std::system_error] thrown there is caught at line 199 and handed to
    [Error(const std::system_error &)]. *)
Definition reported (e : Env) : Thrown :=
  if error_lock_throws e then SystemError else StdException.

(** The end of "allocate, lock, push" with its handlers, after a step
    [pre] that may already have thrown a [std::exception]. *)
Definition submit_outcome (pre : bool) (e : Env) : Thrown :=
  if pre || alloc_throws e then reported e
  else if lock_throws e then SystemError
  else if push_throws e then reported e
  else Nothing.

(** How a call of a submission function ends.  [Aborted] is
    [Error(const std::system_error &)], which calls [abort()];
    [NoResponse] only says that the list of environments handed to the
    model was shorter than the number of invocations. *)
Inductive result (A : Type) :=
| Returned (a : A)
| Aborted
| NoResponse.
Arguments Returned {A} a.
Arguments Aborted {A}.
Arguments NoResponse {A}.

(** The recursive call inside a catch block: run it with [status = st],
    then put [OK] back. *)
Definition retry_with (st : Status) (cmds : list Cmd)
    (again : CallerState -> result (CallerState * list Cmd))
    (s : CallerState) : result (CallerState * list Cmd) :=
  match again (set_status st s) with
  | Returned (s', cmds') => Returned (set_status OK s', cmds ++ cmds')
  | Aborted => Aborted
  | NoResponse => NoResponse
  end.

(** The pacing part of [SampleFrame] (lines 753-771). *)
Definition sample_pacing (tps : Z) (e : Env) (s : CallerState) : CallerState * Z :=
  match recordMode s with
  | STOPPED => (s, 0)
  | mode =>
      let now := clock_now e in
      if nextFrame s <=? now then
        match mode with
        | LOW_FPS => AdvanceFrame tps lowFPS now s
        | HIGH_FPS => AdvanceFrame tps highFPS now s
        | STOPPED => (s, 0)
        end
      else (s, 0)
  end.

(** [SampleFrame].  [std::move(screenshotPaths)] into the tuple leaves
    the member empty; the tuple is built before the callback runs, so
    the paths are gone from the member on every path through the
    [try] block. *)
Fixpoint SampleFrame (tps : Z) (env : list Env) (s : CallerState)
    : result (CallerState * list Cmd) :=
  match env with
  | [] => NoResponse
  | e :: env' =>
      let enter := Enter OpSampleFrame (status s) in
      let nextFrameBackup := nextFrame s in
      let '(s1, videoPendingFrames) := sample_pacing tps e s in
      if negb (videoPendingFrames =? 0) || negb (bool_decide (screenshotPaths s1 = [])) then
        let paths := screenshotPaths s1 in
        let s2 := set_screenshotPaths [] s1 in
        let request := RequestFrame videoPendingFrames paths in
        match submit_outcome (callback_throws e) e with
        | Nothing =>
            let fr := {| frame_screenshotPaths := paths;
                         frame_videoPendingFrames := videoPendingFrames;
                         frame_ready := false;
                         frame_data := callback_data e |} in
            Returned (s2, [enter; request; NewFrame (callback_handle e) fr;
                           PushBack (CFrameTask (callback_handle e))])
        | SystemError => Aborted
        | StdException =>
            let s3 := set_nextFrame nextFrameBackup s2 in
            let cmds := [enter; request; ErrorCall (status s3) "Fail to sample frame"] in
            match status s3 with
            | OK => retry_with RETRY cmds (SampleFrame tps env') s3
            | _ => Returned (s3, cmds)
            end
        end
      else Returned (s1, [enter])
  end.

(** [StartRecordImpl].  [task] is the request handed in, [None] for a
    null pointer.  The constructor of the request moves [filename] out
    of the parameter, which is left empty.  [push_back] takes a
    [unique_ptr<ITask>], so [std::move(task)] is converted into a
    temporary that owns the request; when [push_back] throws, the
    temporary is destroyed and the request with it, and [task] is null
    in the handler.  The recursive call is therefore made with a null
    [task], and with the empty [filename] if this invocation had created
    the request. *)
Fixpoint StartRecordImpl (env : list Env)
    (filename : string) (width height : Z) (_10bit highFPS : bool)
    (codec : Codec) (crf : Z) (preset : Preset) (task : option ITask)
    (s : CallerState) : result (CallerState * list Cmd) :=
  match env with
  | [] => NoResponse
  | e :: env' =>
      let enter := Enter OpStartRecord (status s) in
      let fail (filename' : string) :=
        match reported e with
        | SystemError => Aborted
        | _ =>
            let cmds := [enter; ErrorCall (status s) "Fail to start video record "] in
            match status s with
            | OK => retry_with RETRY cmds
                      (StartRecordImpl env' filename' width height _10bit highFPS
                         codec crf preset None) s
            | _ => Returned (s, cmds)
            end
        end in
      let push (t : ITask) (filename' : string) :=
        if lock_throws e then Aborted
        else if push_throws e then fail filename'
        else
          let s1 := set_recordMode (if highFPS then HIGH_FPS else LOW_FPS) s in
          Returned (set_nextFrame (clock_now e) s1, [enter; PushBack t]) in
      match task with
      | Some t => push t filename
      | None =>
          if alloc_throws e then fail filename
          else push (CStartVideoRecordRequest filename width height _10bit highFPS
                       codec crf preset (bool_decide (recordMode s = STOPPED)))
                 EmptyString
      end
  end.

Definition StartRecord (env : list Env)
    (filename : string) (width height : Z) (_10bit highFPS : bool)
    (codec : Codec) (crf : Z) (preset : Preset)
    (s : CallerState) : result (CallerState * list Cmd) :=
  StartRecordImpl env filename width height _10bit highFPS codec crf preset None s.

(** [StopRecord]; its retry runs with [status = CLEAN]. *)
Fixpoint StopRecord (env : list Env) (s : CallerState)
    : result (CallerState * list Cmd) :=
  match env with
  | [] => NoResponse
  | e :: env' =>
      let enter := Enter OpStopRecord (status s) in
      match submit_outcome false e with
      | Nothing =>
          let task := CStopVideoRecordRequest (negb (bool_decide (recordMode s = STOPPED))) in
          Returned (set_recordMode STOPPED s, [enter; PushBack task])
      | SystemError => Aborted
      | StdException =>
          let cmds := [enter; ErrorCall (status s) "Fail to stop video record"] in
          match status s with
          | OK => retry_with CLEAN cmds (StopRecord env') s
          | _ => Returned (s, cmds)
          end
      end
  end.

Definition screenshotErrorMsgPrefix : string := "Fail to save screenshot ".

(** [Screenshot]: the function takes no lock and only the push can
    throw; the push constructs the queued string after the allocation,
    so a failed push leaves [filename] as it was.  The handler calls
    [Error], which takes the mutex. *)
Fixpoint Screenshot (env : list Env) (filename : string) (s : CallerState)
    : result (CallerState * list Cmd) :=
  match env with
  | [] => NoResponse
  | e :: env' =>
      let enter := Enter OpScreenshot (status s) in
      if push_throws e then
        match reported e with
        | SystemError => Aborted
        | _ =>
            let cmds := [enter; ErrorCall (status s) screenshotErrorMsgPrefix] in
            match status s with
            | OK => retry_with RETRY cmds (Screenshot env' filename) s
            | _ => Returned (s, cmds)
            end
        end
      else
        Returned (set_screenshotPaths (screenshotPaths s ++ [filename]) s, [enter])
  end.

(** ** State touched on the worker thread *)

Inductive AVPixelFormat :=
| AV_PIX_FMT_YUV420P | AV_PIX_FMT_YUV420P10 | AV_PIX_FMT_BGRA | AV_PIX_FMT_RGBA64.

#[global] Instance AVPixelFormat_eq_dec : EqDecision AVPixelFormat.
Proof. solve_decision. Defined.

(** Conversions to the 32-bit C types of the FFmpeg structures:
    [AVCodecContext::width], [height], [thread_count] and
    [AVFrame::width], [height] are [int]; the arguments of
    [StartRecord] are [unsigned int]. *)
Definition to_unsigned (z : Z) : Z := z mod 2 ^ 32.
Definition to_int (z : Z) : Z :=
  let u := z mod 2 ^ 32 in if u <? 2 ^ 31 then u else u - 2 ^ 32.

(** The fields of [AVCodecContext] that the start request sets. *)
Record AVCodecContext := {
  ctx_codec : Codec;
  ctx_width : Z;
  ctx_height : Z;
  ctx_time_base_den : Z;
  ctx_pix_fmt : AVPixelFormat;
  ctx_thread_count : Z
}.

#[global] Instance AVCodecContext_eq_dec : EqDecision AVCodecContext.
Proof. solve_decision. Defined.

Record AVFrame := {
  frm_format : AVPixelFormat;
  frm_width : Z;
  frm_height : Z;
  frm_pts : Z
}.

(** [AVFormatContext]: the file name it was allocated for and whether
    its [pb] (the open file) is non-null. *)
Record AVFormatContext := {
  fmt_filename : string;
  fmt_pb : bool
}.

(** The cached [SwsContext] is determined by the source geometry and
    format it was requested for. *)
Record SwsContext := {
  sws_srcW : Z;
  sws_srcH : Z;
  sws_srcFormat : AVPixelFormat
}.

Inductive WICCodecs :=
| WIC_CODEC_BMP | WIC_CODEC_JPEG | WIC_CODEC_PNG | WIC_CODEC_TIFF
| WIC_CODEC_GIF | WIC_CODEC_WMP | WIC_CODEC_ICO | CODEC_DDS | CODEC_TGA.

(** What the worker writes and which collaborator calls it makes.
    Log lines are shortened to their constant text followed by the
    file name they mention. *)
Inductive Event :=
| Cerr (line : string)
| Clog (line : string)
| EvOpenCodec (c : AVCodecContext)      (* avcodec_open2 *)
| EvAllocOutput (filename : string)     (* videoFile.reset(output) *)
| EvAvioOpen (filename : string)        (* avio_open *)
| EvWriteHeader                         (* avformat_write_header *)
| EvSendFrame (pts : Z)                 (* avcodec_send_frame *)
| EvWritePacket                         (* av_interleaved_write_frame *)
| EvWriteTrailer                        (* av_write_trailer *)
| EvAvioClose                           (* avio_closep *)
| EvFreeOutput                          (* videoFile.reset() on a live file *)
| EvSaveScreenshot (codec : WICCodecs) (path : string). (* SaveTo...File *)

#[global] Instance WICCodecs_eq_dec : EqDecision WICCodecs.
Proof. solve_decision. Defined.
#[global] Instance Event_eq_dec : EqDecision Event.
Proof. solve_decision. Defined.

Record WorkerState := {
  context : option AVCodecContext;
  cvtCtx : option SwsContext;
  dstFrame : option AVFrame;
  videoFile : option AVFormatContext;
  frames : gmap nat CFrame;   (* the CFrame objects alive, by address *)
  trace : list Event
}.

Definition set_context (c : option AVCodecContext) (w : WorkerState) : WorkerState :=
  {| context := c; cvtCtx := cvtCtx w; dstFrame := dstFrame w;
     videoFile := videoFile w; frames := frames w; trace := trace w |}.
Definition set_cvtCtx (c : option SwsContext) (w : WorkerState) : WorkerState :=
  {| context := context w; cvtCtx := c; dstFrame := dstFrame w;
     videoFile := videoFile w; frames := frames w; trace := trace w |}.
Definition set_dstFrame (f : option AVFrame) (w : WorkerState) : WorkerState :=
  {| context := context w; cvtCtx := cvtCtx w; dstFrame := f;
     videoFile := videoFile w; frames := frames w; trace := trace w |}.
Definition set_videoFile (v : option AVFormatContext) (w : WorkerState) : WorkerState :=
  {| context := context w; cvtCtx := cvtCtx w; dstFrame := dstFrame w;
     videoFile := v; frames := frames w; trace := trace w |}.
Definition set_frames (m : gmap nat CFrame) (w : WorkerState) : WorkerState :=
  {| context := context w; cvtCtx := cvtCtx w; dstFrame := dstFrame w;
     videoFile := videoFile w; frames := m; trace := trace w |}.
Definition emit (ev : Event) (w : WorkerState) : WorkerState :=
  {| context := context w; cvtCtx := cvtCtx w; dstFrame := dstFrame w;
     videoFile := videoFile w; frames := frames w; trace := trace w ++ [ev] |}.

(** How a piece of worker code ends: normally, or in a way the source
    gives no meaning to. *)
Inductive Stuck :=
| NullDereference   (* operator-> or operator* on a null smart pointer *)
| Unbounded         (* a loop whose counter never reaches its exit test *)
| Waiting           (* a condition-variable wait whose predicate is false *)
| Terminated.       (* an exception leaves the worker's thread function *)

Inductive outcome (A : Type) :=
| Done (a : A)
| Fails (why : Stuck).
Arguments Done {A} a.
Arguments Fails {A} why.

#[global] Instance outcome_bind : MBind outcome := λ A B k x,
  match x with
  | Done a => k a
  | Fails why => Fails why
  end.

(** ** Collaborator results during one task *)

Inductive ReceiveEnd := RecvEAGAIN | RecvEOF | RecvError.

(** One call of [Encode]: the result of [avcodec_send_frame], the result
    of [av_interleaved_write_frame] for each packet the encoder hands
    out, and what [avcodec_receive_packet] answers when it stops
    returning 0. *)
Record EncodeEnv := {
  send_frame : Z;
  packets : list Z;
  receive_end : ReceiveEnd
}.

Inductive SaveResult := SaveOk | SaveFailedHR | SaveThrew.

Record TaskEnv := {
  find_encoder_null : bool;        (* avcodec_find_encoder returned NULL *)
  alloc_context3_null : bool;      (* avcodec_alloc_context3 returned NULL *)
  default_thread_count : Z;        (* thread_count of a fresh context *)
  hardware_concurrency : Z;        (* std::thread::hardware_concurrency() *)
  opt_set_crf : Z;                 (* av_opt_set_int(..., "crf", ...) *)
  opt_set_preset : Z;              (* av_opt_set(..., "preset", ...) *)
  avcodec_open2 : Z;
  frame_alloc_null : bool;         (* av_frame_alloc returned NULL *)
  frame_get_buffer : Z;
  to_bytes_throws : bool;          (* wstring_convert::to_bytes throws *)
  alloc_output_context2 : Z;
  new_stream_null : bool;          (* avformat_new_stream returned NULL *)
  parameters_from_context : Z;
  avio_open : Z;
  write_header : Z;
  write_trailer : Z;
  avio_closep : Z;
  encode : nat -> EncodeEnv;       (* the i-th call of Encode in the task *)
  path_extension : string -> option string;
                                   (* the extension of the path; None when
                                      building the path or its extension
                                      throws a std::exception *)
  save : string -> SaveResult;     (* SaveToDDSFile / TGA / WIC, by path *)
  convert_failed : bool;           (* DirectX::Convert returned a failure *)
  sws_getCachedContext_null : bool;
  make_writable : nat -> Z         (* av_frame_make_writable, per iteration *)
}.

(** ** Encode, Cleanup *)

(** The receive loop of [Encode]: the flag is [false] after the first
    failed write, which is logged. *)
Fixpoint write_packets (ps : list Z) (w : WorkerState) : WorkerState * bool :=
  match ps with
  | [] => (w, true)
  | r :: ps' =>
      let w1 := emit EvWritePacket w in
      if r <? 0 then (emit (Cerr "Fail to write video data to file") w1, false)
      else write_packets ps' w1
  end.

Definition Encode (e : EncodeEnv) (w : WorkerState) : WorkerState * bool :=
  let w1 := emit (EvSendFrame (from_option frm_pts 0 (dstFrame w))) w in
  if send_frame e <? 0 then
    (emit (Cerr (match dstFrame w with
                 | Some _ => "Fail to send frame to the encoder"
                 | None => "Fail to flush the encoder"
                 end)) w1, false)
  else
    let '(w2, written) := write_packets (packets e) w1 in
    if written then
      match receive_end e with
      | RecvEAGAIN | RecvEOF => (w2, true)
      | RecvError => (emit (Cerr "Fail to receive packet from the encoder") w2, false)
      end
    else (w2, false).

(** [Cleanup] reads [videoFile->pb] without testing [videoFile]. *)
Definition Cleanup (w : WorkerState) : outcome WorkerState :=
  let w1 := set_dstFrame None (set_context None w) in
  match videoFile w1 with
  | None => Fails NullDereference
  | Some vf =>
      let w2 := if fmt_pb vf then emit EvAvioClose w1 else w1 in
      Done (emit EvFreeOutput (set_videoFile None w2))
  end.

(** ** The three tasks *)

Definition deref {A} (p : option A) : outcome A :=
  match p with
  | Some a => Done a
  | None => Fails NullDereference
  end.

Definition unmatched_stop_line : Event :=
  Cerr "Stopping video record without matched start.".

(** [CStopVideoRecordRequest::operator()]. *)
Definition run_CStopVideoRecordRequest (matchedStart : bool)
    (env : TaskEnv) (w : WorkerState) : outcome WorkerState :=
  let w :=
    if matchedStart then w else emit unmatched_stop_line w in
  match videoFile w with
  | None => Done w
  | Some vf =>
      let '(w1, ok) := Encode (encode env 0%nat) w in
      let w2 := emit EvWriteTrailer w1 in
      let '(w3, ok) :=
        if write_trailer env <? 0
        then (emit (Cerr "Fail to write video stream trailer") w2, false)
        else (w2, ok) in
      let w4 := emit EvAvioClose
                  (set_videoFile (Some {| fmt_filename := fmt_filename vf;
                                          fmt_pb := false |}) w3) in
      let '(w5, ok) :=
        if avio_closep env <? 0
        then (emit (Cerr "Fail to flush trailing video data to file") w4, false)
        else (w4, ok) in
      w6 ← Cleanup w5;
      Done (emit (if ok then Clog "Video has been recorded."
                  else Cerr "Fail to record video.") w6)
  end.

Definition EncodePreset_2_Str (preset : Preset) : option string :=
  match preset with
  | PresetNamed name => Some name
  | _ => None
  end.

(** The encoder configuration written at lines 449-455.  [~1] is the
    [int] -2, converted to [unsigned int] for the [&]; the unsigned
    results are converted to the [int] fields they are stored in. *)
Definition codec_context (width height : Z) (highFPS : bool) (codecID : Codec)
    (env : TaskEnv) : AVCodecContext :=
  let availableThreads := to_unsigned (hardware_concurrency env) in
  {| ctx_codec := codecID;
     ctx_width := to_int (Z.land width (to_unsigned (Z.lnot 1)));
     ctx_height := to_int (Z.land height (to_unsigned (Z.lnot 1)));
     ctx_time_base_den := time_base_den highFPS;
     ctx_pix_fmt := AV_PIX_FMT_YUV420P;
     ctx_thread_count :=
       if availableThreads =? 0 then default_thread_count env
       else to_int availableThreads |}.

(** Setting the optional quality and preset (lines 457-476); a failure
    is logged and otherwise ignored. *)
Definition set_options (filename : string) (crf : Z) (preset : Preset)
    (env : TaskEnv) (w : WorkerState) : WorkerState :=
  let w :=
    if crf =? -1 then w
    else if opt_set_crf env <? 0
         then emit (Cerr ("Fail to set crf for video " +:+ filename)) w
         else w in
  match preset with
  | Default => w
  | _ =>
      match EncodePreset_2_Str preset with
      | Some _ =>
          if opt_set_preset env <? 0
          then emit (Cerr ("Fail to set preset preset for video " +:+ filename)) w
          else w
      | None => emit (Cerr ("Invalid encode preset value for video " +:+ filename)) w
      end
  end.

(** The destination frame set up at lines 500-503. *)
Definition destination_frame (_10bit : bool) (ctx : AVCodecContext) : AVFrame :=
  {| frm_format := if _10bit then AV_PIX_FMT_YUV420P10 else AV_PIX_FMT_YUV420P;
     frm_width := ctx_width ctx;
     frm_height := ctx_height ctx;
     frm_pts := 0 |}.

(** [CStartVideoRecordRequest::operator()] from [avcodec_alloc_context3]
    on, for a codec that [FindEncoder] found.  The conversion of the
    file name at line 517 is inside a [try] block whose only handler
    takes [const char []]: what [to_bytes] throws leaves [operator()]
    and the worker's thread function. *)
Definition open_session
    (filename : string) (width height : Z) (_10bit highFPS : bool)
    (codecID : Codec) (crf : Z) (preset : Preset)
    (env : TaskEnv) (w : WorkerState) : outcome WorkerState :=
  if alloc_context3_null env then
    Done (emit (Cerr ("Fail to init codec for video " +:+ filename))
            (set_context None w))
  else
    let ctx := codec_context width height highFPS codecID env in
    let w := set_options filename crf preset env (set_context (Some ctx) w) in
    let w := emit (Clog ("Recording video " +:+ filename)) w in
    let w := emit (EvOpenCodec ctx) w in
    if negb (avcodec_open2 env =? 0) then
      Cleanup (emit (Cerr ("Fail to open codec for video " +:+ filename)) w)
    else if frame_alloc_null env then
      Cleanup (emit (Cerr ("Fail to allocate frame for video " +:+ filename))
                 (set_dstFrame None w))
    else
      let w := set_dstFrame (Some (destination_frame _10bit ctx)) w in
      if frame_get_buffer env <? 0 then
        Cleanup (emit (Cerr ("Fail to allocate frame data for video " +:+ filename)) w)
      else if to_bytes_throws env then Fails Terminated
      else if alloc_output_context2 env <? 0 then
        Cleanup (emit (Cerr ("Fail to init output context for video file " +:+ filename)) w)
      else
        let w := emit (EvAllocOutput filename)
                   (set_videoFile (Some {| fmt_filename := filename;
                                           fmt_pb := false |}) w) in
        if new_stream_null env then
          Cleanup (emit (Cerr ("Fail to add video stream for file " +:+ filename)) w)
        else if parameters_from_context env <? 0 then
          Cleanup (emit (Cerr ("Fail to extract codec parameters for video file "
                               +:+ filename)) w)
        else if avio_open env <? 0 then
          Cleanup (emit (Cerr ("Fail to create video file " +:+ filename)) w)
        else
          let w := emit (EvAvioOpen filename)
                     (set_videoFile (Some {| fmt_filename := filename;
                                             fmt_pb := true |}) w) in
          let w := emit EvWriteHeader w in
          if write_header env <? 0 then
            Cleanup (emit (Cerr ("Fail to write header for video file " +:+ filename)) w)
          else Done w.

(** The [try] block of [CStartVideoRecordRequest::operator()] with its
    handler for the two string literals thrown inside. *)
Definition try_open_session
    (filename : string) (width height : Z) (_10bit highFPS : bool)
    (codecID : Codec) (crf : Z) (preset : Preset)
    (env : TaskEnv) (w : WorkerState) : outcome WorkerState :=
  match codecID with
  | CodecOther => Done (emit (Cerr ("Invalid codec ID for video " +:+ filename)) w)
  | _ =>
      if find_encoder_null env
      then Done (emit (Cerr ("Fail to find codec for video " +:+ filename)) w)
      else open_session filename width height _10bit highFPS codecID crf preset env w
  end.

Definition warn_unmatched_start (matchedStop : bool) (w : WorkerState) : WorkerState :=
  if matchedStop then w
  else emit (Cerr "Starting new video record session without stopping previouse one.") w.

(** [CStartVideoRecordRequest::operator()]. *)
Definition run_CStartVideoRecordRequest
    (filename : string) (width height : Z) (_10bit highFPS : bool)
    (codecID : Codec) (crf : Z) (preset : Preset) (matchedStop : bool)
    (env : TaskEnv) (w : WorkerState) : outcome WorkerState :=
  let w := warn_unmatched_start matchedStop w in
  w ← match videoFile w with
       | Some _ => run_CStopVideoRecordRequest true env w
       | None => Done w
       end;
  try_open_session filename width height _10bit highFPS codecID crf preset env w.

(** ** Screenshots *)

Definition tolower (c : ascii) : ascii :=
  let n := nat_of_ascii c in
  if (65 <=? n)%nat && (n <=? 90)%nat then ascii_of_nat (n + 32) else c.

Fixpoint transform_tolower (s : string) : string :=
  match s with
  | EmptyString => EmptyString
  | String c s' => String (tolower c) (transform_tolower s')
  end.

Definition pictureFormats : list (string * WICCodecs) :=
  [ (".bmp", WIC_CODEC_BMP); (".jpg", WIC_CODEC_JPEG); (".jpeg", WIC_CODEC_JPEG);
    (".png", WIC_CODEC_PNG); (".tif", WIC_CODEC_TIFF); (".tiff", WIC_CODEC_TIFF);
    (".gif", WIC_CODEC_GIF); (".hdp", WIC_CODEC_WMP); (".jxr", WIC_CODEC_WMP);
    (".wdp", WIC_CODEC_WMP); (".ico", WIC_CODEC_ICO); (".dds", CODEC_DDS);
    (".tga", CODEC_TGA) ].

(** [GetScreenshotCodec]: the codec, and whether the fallback warning is
    written. *)
Definition GetScreenshotCodec (ext : string) : WICCodecs * bool :=
  let ext := transform_tolower ext in
  match list_find (λ entry, ext = entry.1) pictureFormats with
  | Some (_, found) => (found.2, false)
  | None => (CODEC_TGA, true)
  end.

(** One iteration of the screenshot loop of [CFrameTask::operator()]
    for the path at the front of the frame's queue.  The [try] block
    starts with the construction of the path object and of its
    extension; a [std::exception] thrown there is caught by the handler
    at line 348 before any image writer is called.  The three
    [SaveTo...File] calls differ only in the codec they are given. *)
Definition save_screenshot (env : TaskEnv) (path : string) (w : WorkerState)
    : WorkerState :=
  let w := emit (Clog ("Saving screenshot " +:+ path)) w in
  match path_extension env path with
  | None => emit (Cerr (screenshotErrorMsgPrefix +:+ path)) w
  | Some ext =>
      let '(screenshotCodec, fallback) := GetScreenshotCodec ext in
      let w :=
        if fallback
        then emit (Cerr ("Unrecognized screenshot format. Using tga as fallback: "
                         +:+ path)) w
        else w in
      let w := emit (EvSaveScreenshot screenshotCodec path) w in
      match save env path with
      | SaveOk => emit (Clog ("Screenshot has been saved: " +:+ path)) w
      | SaveFailedHR => emit (Cerr (screenshotErrorMsgPrefix +:+ path)) w
      | SaveThrew => emit (Cerr (screenshotErrorMsgPrefix +:+ path)) w
      end
  end.

(** [while (!srcFrame->screenshotPaths.empty()) { ...; pop(); }] *)
Fixpoint save_screenshots (env : TaskEnv) (paths : list string) (w : WorkerState)
    : WorkerState :=
  match paths with
  | [] => w
  | path :: rest => save_screenshots env rest (save_screenshot env path w)
  end.

(** ** Encoding a frame *)

Definition set_frame_paths (q : list string) (fr : CFrame) : CFrame :=
  {| frame_screenshotPaths := q;
     frame_videoPendingFrames := frame_videoPendingFrames fr;
     frame_ready := frame_ready fr; frame_data := frame_data fr |}.
Definition set_frame_pending (n : Z) (fr : CFrame) : CFrame :=
  {| frame_screenshotPaths := frame_screenshotPaths fr;
     frame_videoPendingFrames := n;
     frame_ready := frame_ready fr; frame_data := frame_data fr |}.
Definition set_frame_ready (b : bool) (fr : CFrame) : CFrame :=
  {| frame_screenshotPaths := frame_screenshotPaths fr;
     frame_videoPendingFrames := frame_videoPendingFrames fr;
     frame_ready := b; frame_data := frame_data fr |}.

(** The [do ... while (--srcFrame->videoPendingFrames)] loop; [i] counts
    the iterations already made.  [fuel] bounds the unfolding. *)
Fixpoint encode_loop (fuel : nat) (i : nat) (srcFrame : nat)
    (env : TaskEnv) (w : WorkerState) : outcome WorkerState :=
  match fuel with
  | O => Fails Unbounded
  | S fuel' =>
      dst ← deref (dstFrame w);
      if make_writable env i <? 0 then
        Cleanup (emit (Cerr "Fail to prepare video frame for writing") w)
      else
        let '(w1, ok) := Encode (encode env i) w in
        if negb ok then Cleanup w1
        else
          let w2 := set_dstFrame (Some {| frm_format := frm_format dst;
                                          frm_width := frm_width dst;
                                          frm_height := frm_height dst;
                                          frm_pts := frm_pts dst + 1 |}) w1 in
          fr ← deref (frames w2 !! srcFrame);
          let pending := frame_videoPendingFrames fr - 1 in
          let w3 := set_frames (<[srcFrame := set_frame_pending pending fr]> (frames w2)) w2 in
          if pending =? 0 then Done w3
          else encode_loop fuel' (S i) srcFrame env w3
  end.

(** The video half of [CFrameTask::operator()] (lines 357-422). *)
Definition encode_video (srcFrame : nat) (fr : CFrame)
    (env : TaskEnv) (w : WorkerState) : outcome WorkerState :=
  let srcFrameData := frame_data fr in
  ctx ← deref (context w);
  let srcVideoFormat :=
    match format srcFrameData with
    | R10G10B10A2 =>
        if bool_decide (ctx_pix_fmt ctx = AV_PIX_FMT_YUV420P10)
        then AV_PIX_FMT_RGBA64 else AV_PIX_FMT_BGRA
    | B8G8R8A8 => AV_PIX_FMT_BGRA
    end in
  if bool_decide (format srcFrameData = R10G10B10A2) && convert_failed env then
    Cleanup (emit (Cerr "Fail to convert frame for video") w)
  else if sws_getCachedContext_null env then
    Cleanup (emit (Cerr "Fail to convert frame for video") (set_cvtCtx None w))
  else
    let w := set_cvtCtx (Some {| sws_srcW := width srcFrameData;
                                 sws_srcH := height srcFrameData;
                                 sws_srcFormat := srcVideoFormat |}) w in
    _ ← deref (dstFrame w);
    encode_loop (Z.to_nat (frame_videoPendingFrames fr)) 0%nat srcFrame env w.

Definition invalid_frame_line : Event := Cerr "Invalid frame occured. Skipping it.".

(** [CFrameTask::operator()]. *)
Definition run_CFrameTask (srcFrame : nat)
    (env : TaskEnv) (w : WorkerState) : outcome WorkerState :=
  fr ← deref (frames w !! srcFrame);
  let srcFrameData := frame_data fr in
  match pixels srcFrameData with
  | None => Done (emit invalid_frame_line w)
  | Some _ =>
      let w := save_screenshots env (frame_screenshotPaths fr) w in
      let fr := set_frame_paths [] fr in
      let w := set_frames (<[srcFrame := fr]> (frames w)) w in
      match videoFile w with
      | Some _ =>
          if negb (frame_videoPendingFrames fr =? 0)
          then encode_video srcFrame fr env w
          else Done w
      | None => Done w
      end
  end.

(** The virtual [operator()] and [operator bool] of [ITask]. *)
Definition run_task (t : ITask) (env : TaskEnv) (w : WorkerState)
    : outcome WorkerState :=
  match t with
  | CFrameTask srcFrame => run_CFrameTask srcFrame env w
  | CStartVideoRecordRequest filename width height _10bit highFPS codecID crf preset matchedStop =>
      run_CStartVideoRecordRequest filename width height _10bit highFPS
        codecID crf preset matchedStop env w
  | CStopVideoRecordRequest matchedStart =>
      run_CStopVideoRecordRequest matchedStart env w
  end.

Definition task_ready (t : ITask) (w : WorkerState) : outcome bool :=
  match t with
  | CFrameTask srcFrame => fr ← deref (frames w !! srcFrame); Done (frame_ready fr)
  | _ => Done true
  end.

(** ** The recorder as the worker and the frame handles see it *)

(** The task queue, the worker's state and the shutdown flag.  Two
    fields only record history: every queued task carries the number of
    [push_back] calls that preceded its own ([submitted] counts them),
    and [executed] lists the tasks whose [operator()] the worker has
    invoked, oldest first. *)
Record CVideoRecorder := {
  worker : WorkerState;
  taskQueue : list (nat * ITask);
  finish : bool;
  submitted : nat;
  executed : list (nat * ITask)
}.

Definition set_worker (w : WorkerState) (r : CVideoRecorder) : CVideoRecorder :=
  {| worker := w; taskQueue := taskQueue r; finish := finish r;
     submitted := submitted r; executed := executed r |}.
Definition set_taskQueue (q : list (nat * ITask)) (r : CVideoRecorder) : CVideoRecorder :=
  {| worker := worker r; taskQueue := q; finish := finish r;
     submitted := submitted r; executed := executed r |}.

(** The recorder right after its constructor. *)
Definition new_worker : WorkerState :=
  {| context := None; cvtCtx := None; dstFrame := None; videoFile := None;
     frames := ∅; trace := [] |}.
Definition new_recorder : CVideoRecorder :=
  {| worker := new_worker; taskQueue := []; finish := false;
     submitted := 0%nat; executed := [] |}.
Definition new_caller : CallerState :=
  {| nextFrame := 0; screenshotPaths := []; status := OK; recordMode := STOPPED;
     nextFrame_fits := eq_refl |}.

Definition push_back (t : ITask) (r : CVideoRecorder) : CVideoRecorder :=
  {| worker := worker r; taskQueue := taskQueue r ++ [(submitted r, t)];
     finish := finish r; submitted := S (submitted r); executed := executed r |}.

(** [Error(const std::exception &, prefix, filename)] once it holds the
    mutex: it waits until the queue is empty, writes its line and, when
    called with [status == CLEAN] while a file is open, cleans up and
    clears the queue.  Whether taking the mutex or waiting throws is
    part of the environment of the calling function
    ([error_lock_throws]): that call ends in [abort()] and is not
    applied to the recorder. *)
Definition Error (st : Status) (errorMsgPrefix : string) (r : CVideoRecorder)
    : outcome CVideoRecorder :=
  match taskQueue r with
  | _ :: _ => Fails Waiting
  | [] =>
      match st with
      | OK => Done (set_worker (emit (Cerr (errorMsgPrefix +:+ " Try again...")) (worker r)) r)
      | RETRY => Done (set_worker (emit (Cerr errorMsgPrefix) (worker r)) r)
      | CLEAN =>
          let w := emit (Cerr errorMsgPrefix) (worker r) in
          match videoFile w with
          | Some _ => w' ← Cleanup w; Done (set_taskQueue [] (set_worker w' r))
          | None => Done (set_worker w r)
          end
      end
  end.

(** [CFrame::Ready]. *)
Definition Ready (this : nat) (r : CVideoRecorder) : CVideoRecorder :=
  set_worker (set_frames (alter (set_frame_ready true) this (frames (worker r)))
                (worker r)) r.

(** [std::find_if] over the queue, as the index of the element found;
    the length of the list stands for [cend()]. *)
Fixpoint find_if {A} (pred : A -> bool) (l : list A) : nat :=
  match l with
  | [] => 0%nat
  | x :: l' => if pred x then 0%nat else S (find_if pred l')
  end.

(** The predicate of [CFrame::Cancel]: a [CFrameTask] whose [srcFrame]
    is this handle. *)
Definition cancel_pred (this : nat) (task : nat * ITask) : bool :=
  match task.2 with
  | CFrameTask srcFrame => bool_decide (srcFrame = this)
  | _ => false
  end.

(** [CFrame::Cancel] on the queue: erase the element found, if any. *)
Definition Cancel_queue (this : nat) (q : list (nat * ITask)) : list (nat * ITask) :=
  let taskToDelete := find_if (cancel_pred this) q in
  if bool_decide (taskToDelete = length q) then q
  else delete taskToDelete q.

Definition Cancel (this : nat) (r : CVideoRecorder) : CVideoRecorder :=
  set_taskQueue (Cancel_queue this (taskQueue r)) r.

(** One iteration of the [while (!finish)] loop of [Process].  Waiting
    leaves the recorder as it is; otherwise the front task is popped and
    invoked. *)
Definition Process (env : TaskEnv) (r : CVideoRecorder) : outcome CVideoRecorder :=
  if finish r then Done r
  else
    match taskQueue r with
    | [] => Done r
    | (ticket, task) :: rest =>
        ready ← task_ready task (worker r);
        if ready : bool then
          w ← run_task task env (worker r);
          Done {| worker := w; taskQueue := rest; finish := finish r;
                  submitted := submitted r;
                  executed := executed r ++ [(ticket, task)] |}
        else Done r
    end.

(** ** Interleavings *)

Inductive Label :=
| Caller (c : Cmd)          (* the next effect of a submission function *)
| FrameReady (f : nat)      (* the producer calls Ready() on handle f *)
| FrameCancel (f : nat)     (* the producer calls Cancel() on handle f *)
| WorkerTurn (env : TaskEnv).  (* the worker makes one loop iteration *)

Definition apply_cmd (c : Cmd) (r : CVideoRecorder) : outcome CVideoRecorder :=
  match c with
  | Enter _ _ => Done r
  | RequestFrame _ _ => Done r
  | NewFrame f fr =>
      Done (set_worker (set_frames (<[f := fr]> (frames (worker r))) (worker r)) r)
  | PushBack t => Done (push_back t r)
  | ErrorCall st errorMsgPrefix => Error st errorMsgPrefix r
  end.

Definition step (l : Label) (r : CVideoRecorder) : outcome CVideoRecorder :=
  match l with
  | Caller c => apply_cmd c r
  | FrameReady f => Done (Ready f r)
  | FrameCancel f => Done (Cancel f r)
  | WorkerTurn env => Process env r
  end.

Fixpoint run (ls : list Label) (r : CVideoRecorder) : outcome CVideoRecorder :=
  match ls with
  | [] => Done r
  | l :: ls' => r' ← step l r; run ls' r'
  end.

(** The effects of a returned call, as labels. *)
Definition effects (res : result (CallerState * list Cmd)) : list Label :=
  match res with
  | Returned (_, cmds) => Caller <$> cmds
  | _ => []
  end.

(** ** Notions used to state the properties *)

(** The gap that [d] clock ticks stand for, in seconds. *)
Definition seconds (tps d : Z) : Q := (inject_Z d / inject_Z tps)%Q.

(** The number of frame intervals in a gap of [d] ticks at [F] frames
    per second: the product of the gap in seconds and the rate. *)
Definition frames_in_gap (tps F d : Z) : Q := (seconds tps d * inject_Z F)%Q.

(** The frame rate that governs pacing in a recording mode. *)
Definition frame_rate (m : RecordMode) : Z :=
  match m with
  | HIGH_FPS => highFPS
  | _ => lowFPS
  end.

(** [n] rounded down to an even number. *)
Definition round_down_even (n : Z) : Z := 2 * (n / 2).

(** Sessions open after a piece of trace: [videoFile.reset(output)]
    opens one, [videoFile.reset()] on a live file closes one. *)
Fixpoint open_sessions (tr : list Event) : Z :=
  match tr with
  | [] => 0
  | EvAllocOutput _ :: tr' => 1 + open_sessions tr'
  | EvFreeOutput :: tr' => -1 + open_sessions tr'
  | _ :: tr' => open_sessions tr'
  end.

(** Whether a piece of trace that starts with [open] sessions open
    (0 or 1) never opens a second one nor closes a missing one, and how
    many are open at its end. *)
Fixpoint alternates (open : bool) (tr : list Event) : option bool :=
  match tr with
  | [] => Some open
  | EvAllocOutput _ :: tr' => if open then None else alternates true tr'
  | EvFreeOutput :: tr' => if open then alternates false tr' else None
  | _ :: tr' => alternates open tr'
  end.

Definition session_open (w : WorkerState) : bool :=
  match videoFile w with
  | Some _ => true
  | None => false
  end.

(** The paths handed to a [SaveTo...File] call, in trace order. *)
Fixpoint saved_paths (tr : list Event) : list string :=
  match tr with
  | [] => []
  | EvSaveScreenshot _ path :: tr' => path :: saved_paths tr'
  | _ :: tr' => saved_paths tr'
  end.

(** Whether the screenshot loop gets as far as the image writer for a
    path: its path object and extension are built without an exception. *)
Definition reaches_writer (env : TaskEnv) (path : string) : bool :=
  match path_extension env path with
  | Some _ => true
  | None => false
  end.

(** The paths of a list for which it does, in their order. *)
Definition written_paths (env : TaskEnv) (paths : list string) : list string :=
  filter (λ path, reaches_writer env path = true) paths.

(** [w'] is [w] after some more events: the new events hand exactly
    [saves] to the image writers, in this order, and open and close
    sessions in turn, ending with a session open exactly when [w'] has a
    [videoFile]. *)
Definition extends (w w' : WorkerState) (saves : list string) : Prop :=
  ∃ evs, trace w' = trace w ++ evs
         ∧ saved_paths evs = saves
         ∧ alternates (session_open w) evs = Some (session_open w').

(** [w'] differs from [w] in its trace only. *)
Definition only_logs (w w' : WorkerState) : Prop :=
  context w' = context w ∧ cvtCtx w' = cvtCtx w ∧ dstFrame w' = dstFrame w
  ∧ videoFile w' = videoFile w ∧ frames w' = frames w.

(** Events that neither open or close a session nor write an image. *)
Definition benign (ev : Event) : bool :=
  match ev with
  | EvAllocOutput _ | EvFreeOutput | EvSaveScreenshot _ _ => false
  | _ => true
  end.

(** The invocations recorded in the effects of a call. *)
Fixpoint entered (cmds : list Cmd) : list (Op * Status) :=
  match cmds with
  | [] => []
  | Enter op st :: cmds' => (op, st) :: entered cmds'
  | _ :: cmds' => entered cmds'
  end.

(** The tasks pushed by a call, in order. *)
Fixpoint pushed (cmds : list Cmd) : list ITask :=
  match cmds with
  | [] => []
  | PushBack t :: cmds' => t :: pushed cmds'
  | _ :: cmds' => pushed cmds'
  end.



(** A frame of 640x480 BGRA pixels and an environment in which nothing
    fails, for the examples. *)
Definition vga_frame (px : option N) : FrameData :=
  {| format := B8G8R8A8; width := 640; height := 480; stride := 2560; pixels := px |}.

Definition calm (now : Z) (handle : nat) (d : FrameData) : Env :=
  {| clock_now := now; callback_throws := false; callback_handle := handle;
     callback_data := d; alloc_throws := false; lock_throws := false;
     push_throws := false; error_lock_throws := false |}.

(** A caller that records at the low rate with its next frame due at
    [deadline]. *)
Definition recording_at (deadline : Z) : CallerState :=
  set_nextFrame deadline (set_recordMode LOW_FPS new_caller).

(** An invocation in which the push throws [std::bad_alloc]. *)
Definition out_of_memory (now : Z) : Env :=
  {| clock_now := now; callback_throws := false; callback_handle := 0%nat;
     callback_data := vga_frame (Some 1%N); alloc_throws := false;
     lock_throws := false; push_throws := true; error_lock_throws := false |}.

Definition smooth : TaskEnv :=
  {| find_encoder_null := false; alloc_context3_null := false;
     default_thread_count := 1; hardware_concurrency := 8;
     opt_set_crf := 0; opt_set_preset := 0; avcodec_open2 := 0;
     frame_alloc_null := false; frame_get_buffer := 0;
     to_bytes_throws := false;
     alloc_output_context2 := 0; new_stream_null := false;
     parameters_from_context := 0; avio_open := 0; write_header := 0;
     write_trailer := 0; avio_closep := 0;
     encode := λ _, {| send_frame := 0; packets := [0]; receive_end := RecvEAGAIN |};
     path_extension := λ _, Some ".png";
     save := λ _, SaveOk; convert_failed := false;
     sws_getCachedContext_null := false; make_writable := λ _, 0 |}.

(** The same environment with [avcodec_open2] failing. *)
Definition codec_open_fails : TaskEnv :=
  {| find_encoder_null := false; alloc_context3_null := false;
     default_thread_count := 1; hardware_concurrency := 8;
     opt_set_crf := 0; opt_set_preset := 0; avcodec_open2 := -22;
     frame_alloc_null := false; frame_get_buffer := 0;
     to_bytes_throws := false;
     alloc_output_context2 := 0; new_stream_null := false;
     parameters_from_context := 0; avio_open := 0; write_header := 0;
     write_trailer := 0; avio_closep := 0;
     encode := λ _, {| send_frame := 0; packets := [0]; receive_end := RecvEAGAIN |};
     path_extension := λ _, Some ".png";
     save := λ _, SaveOk; convert_failed := false;
     sws_getCachedContext_null := false; make_writable := λ _, 0 |}.

(** The session of section 8 of the description: a start, three
    samples (on the deadline, 40 ms and 150 ms after the start), each
    made ready and executed, and a stop.  The clock counts nanoseconds. *)
Definition three_samples : list Label :=
  match StartRecord [calm 0 0 (vga_frame None)] "a.mp4" 640 480 false false
          H264 (-1) Default new_caller with
  | Returned (c1, k1) =>
      match SampleFrame 1000000000 [calm 0 1 (vga_frame (Some 1%N))] c1 with
      | Returned (c2, k2) =>
          match SampleFrame 1000000000 [calm 40000000 2 (vga_frame (Some 1%N))] c2 with
          | Returned (c3, k3) =>
              match SampleFrame 1000000000 [calm 150000000 3 (vga_frame (Some 1%N))] c3 with
              | Returned (c4, k4) =>
                  (Caller <$> k1) ++ [WorkerTurn smooth]
                  ++ (Caller <$> k2) ++ [FrameReady 1; WorkerTurn smooth]
                  ++ (Caller <$> k3) ++ [FrameReady 2; WorkerTurn smooth]
                  ++ (Caller <$> k4) ++ [FrameReady 3; WorkerTurn smooth]
                  ++ effects (StopRecord [calm 0 0 (vga_frame None)] c4)
                  ++ [WorkerTurn smooth]
              | _ => []
              end
          | _ => []
          end
      | _ => []
      end
  | _ => []
  end.

(** ** The worker loop, pop and invocation apart *)

(** The recorder together with the task that the worker has taken from
    the queue and not finished executing: the local [task] of [Process]
    between [lck.unlock()] and [lck.lock()] (lines 682-686). *)
Record Live := {
  shared : CVideoRecorder;
  running : option (nat * ITask)
}.

Definition idle (r : CVideoRecorder) : Live := {| shared := r; running := None |}.

(** The first half of a loop iteration, under the mutex: wait, or take
    the front task if it is ready. *)
Definition Process_pop (b : Live) : outcome Live :=
  match running b with
  | Some _ => Done b
  | None =>
      let r := shared b in
      if finish r then Done b
      else
        match taskQueue r with
        | [] => Done b
        | (ticket, task) :: rest =>
            ready ← task_ready task (worker r);
            if ready : bool
            then Done {| shared := set_taskQueue rest r; running := Some (ticket, task) |}
            else Done b
        end
  end.

(** The second half, after the unlock: the task taken is invoked. *)
Definition Process_invoke (env : TaskEnv) (b : Live) : outcome Live :=
  match running b with
  | None => Done b
  | Some (ticket, task) =>
      let r := shared b in
      w ← run_task task env (worker r);
      Done {| shared := {| worker := w; taskQueue := taskQueue r; finish := finish r;
                           submitted := submitted r;
                           executed := executed r ++ [(ticket, task)] |};
              running := None |}
  end.

(** What the threads do, one step each: the calling thread and the
    producers of frames act on the shared part under the mutex, whether
    or not the worker is executing a task. *)
Inductive Act :=
| Calls (c : Cmd)            (* the next effect of a submission function *)
| MakesReady (f : nat)       (* the producer calls Ready() on handle f *)
| Cancels (f : nat)          (* the producer calls Cancel() on handle f *)
| Pops                       (* the worker takes a task or waits *)
| Invokes (env : TaskEnv).   (* the worker executes the task it took *)

Definition on_shared (f : CVideoRecorder -> outcome CVideoRecorder) (b : Live)
    : outcome Live :=
  r ← f (shared b); Done {| shared := r; running := running b |}.

Definition act (a : Act) (b : Live) : outcome Live :=
  match a with
  | Calls c => on_shared (apply_cmd c) b
  | MakesReady f => on_shared (λ r, Done (Ready f r)) b
  | Cancels f => on_shared (λ r, Done (Cancel f r)) b
  | Pops => Process_pop b
  | Invokes env => Process_invoke env b
  end.

Fixpoint acts (l : list Act) (b : Live) : outcome Live :=
  match l with
  | [] => Done b
  | a :: l' => b' ← act a b; acts l' b'
  end.

(** A loop iteration of [Process] as the two steps it consists of, and
    an interleaving at the coarse grain as one at the fine grain. *)
Definition as_acts (l : Label) : list Act :=
  match l with
  | Caller c => [Calls c]
  | FrameReady f => [MakesReady f]
  | FrameCancel f => [Cancels f]
  | WorkerTurn env => [Pops; Invokes env]
  end.

Definition fine (ls : list Label) : list Act := ls ≫= as_acts.

(** ** The destructor *)

(** What [~CVideoRecorder] does to the shared part of the recorder, in
    order. *)
Inductive Closing :=
| AwaitEmptyQueue       (* workerEvent.wait(lck, [this] { return taskQueue.empty(); }) *)
| WarnDestroying        (* the wcerr line written when a session is still recorded *)
| Stopping (c : Cmd)    (* an effect of the StopRecord() call *)
| SetFinish             (* finish = true; workerEvent.notify_all() *)
| Join.                 (* worker.join() *)

(** The calls of the destructor that can throw [std::system_error]. *)
Record ClosingEnv := {
  first_lock_throws : bool;    (* the unique_lock taken while still recording *)
  second_lock_throws : bool;   (* the unique_lock taken before finish is set *)
  join_throws : bool           (* worker.join() *)
}.

(** [~CVideoRecorder].  Its handler for [std::system_error] is
    [Error(const std::system_error &)], which aborts. *)
Definition CVideoRecorder_dtor (d : ClosingEnv) (env : list Env) (s : CallerState)
    : result (CallerState * list Closing) :=
  let finishing (s' : CallerState) (before : list Closing) :=
    if second_lock_throws d || join_throws d then Aborted
    else Returned (s', before ++ [AwaitEmptyQueue; SetFinish; Join]) in
  if bool_decide (recordMode s = STOPPED) then finishing s []
  else if first_lock_throws d then Aborted
  else
    match StopRecord env s with
    | Returned (s', cmds) =>
        finishing s' (AwaitEmptyQueue :: WarnDestroying :: (Stopping <$> cmds))
    | Aborted => Aborted
    | NoResponse => NoResponse
    end.

Definition set_finish (b : bool) (r : CVideoRecorder) : CVideoRecorder :=
  {| worker := worker r; taskQueue := taskQueue r; finish := b;
     submitted := submitted r; executed := executed r |}.

Definition destroying_line : Event :=
  Cerr "Destroying video recorder without stopping current record session.".

(** A wait with the predicate "the queue is empty" goes on only when it
    holds, whether or not the worker is still executing the task it took
    last; [join] returns once the loop of [Process] has seen [finish],
    which it tests after the task in flight has returned. *)
Definition apply_closing (c : Closing) (b : Live) : outcome Live :=
  match c with
  | AwaitEmptyQueue =>
      match taskQueue (shared b) with
      | [] => Done b
      | _ :: _ => Fails Waiting
      end
  | WarnDestroying =>
      on_shared (λ r, Done (set_worker (emit destroying_line (worker r)) r)) b
  | Stopping c => on_shared (apply_cmd c) b
  | SetFinish => on_shared (λ r, Done (set_finish true r)) b
  | Join =>
      match running b with
      | None => if finish (shared b) then Done b else Fails Waiting
      | Some _ => Fails Waiting
      end
  end.

(** While the destructor runs, the worker and the producers of frames go
    on. *)
Inductive Moment :=
| Closes (c : Closing)
| Meanwhile (a : Act).

Definition moment (m : Moment) (b : Live) : outcome Live :=
  match m with
  | Closes c => apply_closing c b
  | Meanwhile a => act a b
  end.

Fixpoint shutdown (ms : list Moment) (b : Live) : outcome Live :=
  match ms with
  | [] => Done b
  | m :: ms' => b' ← moment m b; shutdown ms' b'
  end.

(** ** Sequences of calls *)

(** A call of one of the four public functions, with the environments
    of its invocations. *)
Inductive Call :=
| CallSampleFrame (env : list Env)
| CallStartRecord (env : list Env)
    (filename : string) (width height : Z) (_10bit highFPS : bool)
    (codec : Codec) (crf : Z) (preset : Preset)
| CallStopRecord (env : list Env)
| CallScreenshot (env : list Env) (filename : string).

Definition call (tps : Z) (c : Call) (s : CallerState)
    : result (CallerState * list Cmd) :=
  match c with
  | CallSampleFrame env => SampleFrame tps env s
  | CallStartRecord env filename width height _10bit highFPS codec crf preset =>
      StartRecord env filename width height _10bit highFPS codec crf preset s
  | CallStopRecord env => StopRecord env s
  | CallScreenshot env filename => Screenshot env filename s
  end.

(** The calls a thread makes one after the other, with their effects in
    order. *)
Fixpoint calls (tps : Z) (cs : list Call) (s : CallerState)
    : result (CallerState * list Cmd) :=
  match cs with
  | [] => Returned (s, [])
  | c :: cs' =>
      match call tps c s with
      | Returned (s1, cmds1) =>
          match calls tps cs' s1 with
          | Returned (s2, cmds2) => Returned (s2, cmds1 ++ cmds2)
          | Aborted => Aborted
          | NoResponse => NoResponse
          end
      | Aborted => Aborted
      | NoResponse => NoResponse
      end
  end.

(** ** More notions used to state properties *)

(** The steps of an interleaving that come from the caller, and the
    steps of the destructor among the moments of a shutdown. *)
Definition caller_cmds (l : list Act) : list Cmd :=
  omap (λ a, match a with Calls c => Some c | _ => None end) l.

Definition closings (ms : list Moment) : list Closing :=
  omap (λ m, match m with Closes c => Some c | _ => None end) ms.

Definition from_caller (a : Act) : bool :=
  match a with
  | Calls _ => true
  | _ => false
  end.

(** A moment of a shutdown in which no public function is called: a step
    of the destructor, of the worker or of a producer. *)
Definition no_call (m : Moment) : bool :=
  match m with
  | Closes _ => true
  | Meanwhile a => negb (from_caller a)
  end.

(** [Error] called under [CLEAN]: the one place where the calling thread
    reads and releases the worker's encoder context, destination frame
    and output file.  It does so once the queue is empty, which does not
    exclude a task in flight on the worker. *)
Definition cleans (c : Cmd) : bool :=
  match c with
  | ErrorCall CLEAN _ => true
  | _ => false
  end.

Definition act_cleans (a : Act) : bool :=
  match a with
  | Calls c => cleans c
  | _ => false
  end.

Definition closing_cleans (c : Closing) : bool :=
  match c with
  | Stopping c => cleans c
  | _ => false
  end.

(** ** Pacing within the range of the clock *)

(** Whether every intermediate result of [AdvanceFrame<F>] is a value of
    [clock::rep] when the deadline is [next] and the clock reads [now]:
    the gap, its product with the numerator of the reduced ratio, the
    count of frames, its product on the way back to clock ticks, and the
    new deadline. *)
Definition pacing_fits (tps F next now : Z) : bool :=
  let g := Z.gcd F tps in
  let d := now - next in
  let n := (d * (F / g)) `quot` (tps / g) + 1 in
  fits_rep next && fits_rep d && fits_rep (d * (F / g)) && fits_rep n
  && fits_rep (n * (tps / g))
  && fits_rep (next + (n * (tps / g)) `quot` (F / g)).

(** The same for a call of [SampleFrame] that finds the deadline reached
    while recording; it holds of every other call. *)
Definition sample_fits (tps : Z) (s : CallerState) (e : Env) : bool :=
  match recordMode s with
  | STOPPED => true
  | LOW_FPS =>
      negb (nextFrame s <=? clock_now e) || pacing_fits tps lowFPS (nextFrame s) (clock_now e)
  | HIGH_FPS =>
      negb (nextFrame s <=? clock_now e) || pacing_fits tps highFPS (nextFrame s) (clock_now e)
  end.

(** Whether the first attempt of [StartRecord] creates its request and
    then loses it, and the file name with it, in a [push_back] that
    throws. *)
Definition request_lost (env : list Env) : bool :=
  match env with
  | e :: _ => negb (alloc_throws e) && push_throws e
  | [] => false
  end.

(** The record mode that a queued request stands for. *)
Definition mode_after (m : RecordMode) (t : ITask) : RecordMode :=
  match t with
  | CStartVideoRecordRequest _ _ _ _ highFPS _ _ _ _ =>
      if highFPS then HIGH_FPS else LOW_FPS
  | CStopVideoRecordRequest _ => STOPPED
  | CFrameTask _ => m
  end.

(** Whether the [matchedStop]/[matchedStart] flag of a request says what
    the mode was when it was queued. *)
Definition flag_matches (m : RecordMode) (t : ITask) : bool :=
  match t with
  | CStartVideoRecordRequest _ _ _ _ _ _ _ _ matchedStop =>
      bool_decide (matchedStop = bool_decide (m = STOPPED))
  | CStopVideoRecordRequest matchedStart =>
      bool_decide (matchedStart = negb (bool_decide (m = STOPPED)))
  | CFrameTask _ => true
  end.

Fixpoint flags_match (m : RecordMode) (ts : list ITask) : bool :=
  match ts with
  | [] => true
  | t :: ts' => flag_matches m t && flags_match (mode_after m t) ts'
  end.

(** The callback is asked for a frame that has something to do: video
    frames are pending, or screenshots are. *)
Definition worthwhile (c : Cmd) : bool :=
  match c with
  | RequestFrame n paths => (0 <? n) || ((n =? 0) && negb (bool_decide (paths = [])))
  | _ => true
  end.

(** Whether every collaborator call of [Encode] succeeds. *)
Definition encode_succeeds (e : EncodeEnv) : bool :=
  (0 <=? send_frame e) && forallb (λ r, 0 <=? r) (packets e)
  && match receive_end e with
     | RecvEAGAIN | RecvEOF => true
     | RecvError => false
     end.

(** The packets [Encode] hands to [av_interleaved_write_frame]: all of
    them up to the first whose write fails, that one included. *)
Fixpoint packets_written (ps : list Z) : nat :=
  match ps with
  | [] => 0
  | r :: ps' => if r <? 0 then 1 else S (packets_written ps')
  end.

(** Whether every collaborator call of a start request succeeds, for a
    codec that [FindEncoder] knows. *)
Definition start_succeeds (codecID : Codec) (env : TaskEnv) : bool :=
  negb (bool_decide (codecID = CodecOther))
  && negb (find_encoder_null env) && negb (alloc_context3_null env)
  && (avcodec_open2 env =? 0) && negb (frame_alloc_null env)
  && (0 <=? frame_get_buffer env) && negb (to_bytes_throws env)
  && (0 <=? alloc_output_context2 env)
  && negb (new_stream_null env) && (0 <=? parameters_from_context env)
  && (0 <=? avio_open env) && (0 <=? write_header env).

(** Whether a start request gets as far as the conversion of its file
    name, which throws. *)
Definition start_terminates (codecID : Codec) (env : TaskEnv) : bool :=
  negb (bool_decide (codecID = CodecOther))
  && negb (find_encoder_null env) && negb (alloc_context3_null env)
  && (avcodec_open2 env =? 0) && negb (frame_alloc_null env)
  && (0 <=? frame_get_buffer env) && to_bytes_throws env.

(** Whether a start request gets as far as [avcodec_open2] and fails
    there or in one of the next three calls that can return a failure,
    the last one after the file name has been converted; all of them
    come before the output context exists. *)
Definition start_fails_early (codecID : Codec) (env : TaskEnv) : bool :=
  negb (bool_decide (codecID = CodecOther))
  && negb (find_encoder_null env) && negb (alloc_context3_null env)
  && (negb (avcodec_open2 env =? 0) || frame_alloc_null env
      || (frame_get_buffer env <? 0)
      || (negb (to_bytes_throws env) && (alloc_output_context2 env <? 0))).

(** How often an event occurs in a piece of trace. *)
Definition occurrences (ev : Event) (tr : list Event) : nat :=
  length (filter (λ x, x = ev) tr).

(** The presentation time stamps handed to [avcodec_send_frame], in
    trace order. *)
Fixpoint sent_frames (tr : list Event) : list Z :=
  match tr with
  | [] => []
  | EvSendFrame pts :: tr' => pts :: sent_frames tr'
  | _ :: tr' => sent_frames tr'
  end.

(** The destination frame after [n] more increments of its time stamp. *)
Definition advance_pts (n : Z) (d : AVFrame) : AVFrame :=
  {| frm_format := frm_format d; frm_width := frm_width d;
     frm_height := frm_height d; frm_pts := frm_pts d + n |}.

(** The encoder context, the destination frame and the output file
    exist together: with no file there is neither context nor frame; with
    a file it is open, the context has the pixel format the start request
    gave it, and the frame has the context's size and a time stamp that
    is not negative. *)
Definition coherent (w : WorkerState) : Prop :=
  match videoFile w with
  | None => context w = None ∧ dstFrame w = None
  | Some vf =>
      fmt_pb vf = true
      ∧ ∃ ctx dst,
          context w = Some ctx ∧ dstFrame w = Some dst
          ∧ ctx_pix_fmt ctx = AV_PIX_FMT_YUV420P
          ∧ frm_width dst = ctx_width ctx ∧ frm_height dst = ctx_height ctx
          ∧ 0 ≤ frm_pts dst
  end.

(** The cached scaler, if there is one, converts from BGRA. *)
Definition scales_from_BGRA (w : WorkerState) : Prop :=
  ∀ sws, cvtCtx w = Some sws → sws_srcFormat sws = AV_PIX_FMT_BGRA.

(** The order in which the calls that create, write and close the
    output file may follow each other. *)
Inductive Phase :=
| NoFile                 (* no output context *)
| FileAllocated          (* output context allocated, file not yet opened *)
| FileOpened             (* file opened, header not yet written *)
| Recording (pts : Z)    (* header written; [pts] is the next time stamp *)
| TrailerWritten         (* trailer written, file still open *)
| FileClosed.            (* file closed, output context not yet freed *)

#[global] Instance Phase_eq_dec : EqDecision Phase.
Proof. solve_decision. Defined.

Definition protocol_step (p : Phase) (ev : Event) : option Phase :=
  match ev with
  | Cerr _ | Clog _ | EvSaveScreenshot _ _ => Some p
  | EvOpenCodec _ =>
      match p with NoFile => Some NoFile | _ => None end
  | EvAllocOutput _ =>
      match p with NoFile => Some FileAllocated | _ => None end
  | EvAvioOpen _ =>
      match p with FileAllocated => Some FileOpened | _ => None end
  | EvWriteHeader =>
      match p with FileOpened => Some (Recording 0) | _ => None end
  | EvSendFrame pts =>
      match p with
      | Recording next => if bool_decide (pts = next) then Some (Recording (next + 1)) else None
      | _ => None
      end
  | EvWritePacket =>
      match p with Recording next => Some (Recording next) | _ => None end
  | EvWriteTrailer =>
      match p with Recording _ => Some TrailerWritten | _ => None end
  | EvAvioClose =>
      match p with
      | Recording _ | TrailerWritten => Some FileClosed
      | _ => None
      end
  | EvFreeOutput =>
      match p with
      | FileAllocated | FileClosed => Some NoFile
      | _ => None
      end
  end.

Fixpoint protocol (p : Phase) (tr : list Event) : option Phase :=
  match tr with
  | [] => Some p
  | ev :: tr' =>
      match protocol_step p ev with
      | Some p' => protocol p' tr'
      | None => None
      end
  end.

(** The phase that the worker's fields stand for between two tasks. *)
Definition phase_of (w : WorkerState) : Phase :=
  match videoFile w with
  | None => NoFile
  | Some _ => Recording (from_option frm_pts 0 (dstFrame w))
  end.

(** [w'] is [w] after some more events, which lead the protocol from
    phase [p] to phase [p']. *)
Definition moves (p : Phase) (w w' : WorkerState) (p' : Phase) : Prop :=
  ∃ evs, trace w' = trace w ++ evs ∧ protocol p evs = Some p'.

(** Whether a file may be open once the queued tasks have run, when one
    is open now exactly if [open]: a start request may leave one, a stop
    request leaves none, a frame task opens none. *)
Fixpoint may_be_open (open : bool) (q : list ITask) : bool :=
  match q with
  | [] => open
  | CStartVideoRecordRequest _ _ _ _ _ _ _ _ _ :: q' => may_be_open true q'
  | CStopVideoRecordRequest _ :: q' => may_be_open false q'
  | CFrameTask _ :: q' => may_be_open open q'
  end.

(** The task in flight, if there is one, comes before the queued ones. *)
Definition in_flight (b : Live) : list ITask :=
  match running b with
  | Some (_, t) => [t]
  | None => []
  end.

Definition may_record (b : Live) : bool :=
  may_be_open (session_open (worker (shared b))) (in_flight b ++ (taskQueue (shared b)).*2).

(** What an effect of the caller means for that: queueing a start
    request makes it possible, queueing a stop request rules it out. *)
Definition requested (b : bool) (c : Cmd) : bool :=
  match c with
  | PushBack (CStartVideoRecordRequest _ _ _ _ _ _ _ _ _) => true
  | PushBack (CStopVideoRecordRequest _) => false
  | _ => b
  end.

Definition requested_by (b : bool) (a : Act) : bool :=
  match a with
  | Calls c => requested b c
  | _ => b
  end.

(** Whether a step queues a start request. *)
Definition pushes_start (a : Act) : bool :=
  match a with
  | Calls (PushBack (CStartVideoRecordRequest _ _ _ _ _ _ _ _ _)) => true
  | _ => false
  end.

(** Log lines, as opposed to the calls of the encoder, the output file
    and the image writers. *)
Definition is_log (ev : Event) : bool :=
  match ev with
  | Cerr _ | Clog _ => true
  | _ => false
  end.

(** The collaborator calls in a piece of trace, without the log lines
    written between them. *)
Definition calls_made (tr : list Event) : list Event :=
  filter (λ ev, is_log ev = false) tr.


(** The worker in a running session of 640x480 at the low rate, with
    one frame handle alive, for the examples. *)
Definition recording_worker (pending : Z) (paths : list string) (d : FrameData)
    : WorkerState :=
  {| context := Some (codec_context 640 480 false H264 smooth);
     cvtCtx := None;
     dstFrame := Some (destination_frame false (codec_context 640 480 false H264 smooth));
     videoFile := Some {| fmt_filename := "a.mp4"; fmt_pb := true |};
     frames := {[ 1%nat := {| frame_screenshotPaths := paths;
                               frame_videoPendingFrames := pending;
                               frame_ready := true; frame_data := d |} ]};
     trace := [] |}.

(** The environment of a task in which the write of the second packet
    of the second [Encode] fails. *)
Definition second_write_fails : TaskEnv :=
  {| find_encoder_null := false; alloc_context3_null := false;
     default_thread_count := 1; hardware_concurrency := 8;
     opt_set_crf := 0; opt_set_preset := 0; avcodec_open2 := 0;
     frame_alloc_null := false; frame_get_buffer := 0;
     to_bytes_throws := false;
     alloc_output_context2 := 0; new_stream_null := false;
     parameters_from_context := 0; avio_open := 0; write_header := 0;
     write_trailer := 0; avio_closep := 0;
     encode := λ i, match i with
                    | 1%nat => {| send_frame := 0; packets := [0; -5; 0];
                                  receive_end := RecvEAGAIN |}
                    | _ => {| send_frame := 0; packets := [0]; receive_end := RecvEAGAIN |}
                    end;
     path_extension := λ _, Some ".png";
     save := λ _, SaveOk; convert_failed := false;
     sws_getCachedContext_null := false; make_writable := λ _, 0 |}.

(** The environment of a start request whose file name cannot be
    converted to UTF-8. *)
Definition name_not_convertible : TaskEnv :=
  {| find_encoder_null := false; alloc_context3_null := false;
     default_thread_count := 1; hardware_concurrency := 8;
     opt_set_crf := 0; opt_set_preset := 0; avcodec_open2 := 0;
     frame_alloc_null := false; frame_get_buffer := 0;
     to_bytes_throws := true;
     alloc_output_context2 := 0; new_stream_null := false;
     parameters_from_context := 0; avio_open := 0; write_header := 0;
     write_trailer := 0; avio_closep := 0;
     encode := λ _, {| send_frame := 0; packets := [0]; receive_end := RecvEAGAIN |};
     path_extension := λ _, Some ".png";
     save := λ _, SaveOk; convert_failed := false;
     sws_getCachedContext_null := false; make_writable := λ _, 0 |}.

(** * Pacing *)

(** Closed goals about concrete runs: split the conjunctions, then
    evaluate and close the parts one after the other, so that what the
    earlier ones determine is known to the later ones. *)
Ltac by_computation :=
  repeat match goal with
         | |- _ ∧ _ => split
         end;
  lazymatch goal with
  | |- _ => vm_compute; first [ reflexivity | discriminate ]
  end.


(** ** Arithmetic in [clock::rep] *)

Lemma fits_rep_spec (z : Z) : fits_rep z = true ↔ - 2 ^ 63 ≤ z < 2 ^ 63.
Proof. unfold fits_rep. rewrite andb_true_iff, Z.leb_le, Z.ltb_lt. done. Qed.

Lemma wrap64_fits (z : Z) : fits_rep z = true → wrap64 z = z.
Proof.
  rewrite fits_rep_spec. intros Hz. unfold wrap64.
  rewrite Z.mod_small by lia. lia.
Qed.

Lemma wrap64_idemp (z : Z) : wrap64 (wrap64 z) = wrap64 z.
Proof. apply wrap64_fits, wrap64_range. Qed.

(** ** The caller's state *)

(** Two states of the caller are the same when their four fields are. *)
Lemma CallerState_eq (s1 s2 : CallerState) :
  nextFrame s1 = nextFrame s2 → screenshotPaths s1 = screenshotPaths s2 →
  status s1 = status s2 → recordMode s1 = recordMode s2 →
  s1 = s2.
Proof.
  destruct s1 as [t1 q1 st1 m1 H1], s2 as [t2 q2 st2 m2 H2]; cbn.
  intros -> -> -> ->. f_equal. apply proof_irrel.
Qed.

Lemma nextFrame_wrap64 (s : CallerState) : wrap64 (nextFrame s) = nextFrame s.
Proof. apply wrap64_fits, nextFrame_fits. Qed.

(** Equations between states built with the setters. *)
Ltac state_eq :=
  apply CallerState_eq;
  cbn [nextFrame screenshotPaths status recordMode
       set_nextFrame set_screenshotPaths set_status set_recordMode];
  rewrite ?nextFrame_wrap64; first [done | congruence].

Lemma set_nextFrame_same (s : CallerState) : set_nextFrame (nextFrame s) s = s.
Proof. apply CallerState_eq; cbn; [apply nextFrame_wrap64|done..]. Qed.

Lemma set_nextFrame_wrap64 (t : Z) (s : CallerState) :
  set_nextFrame (wrap64 t) s = set_nextFrame t s.
Proof. apply CallerState_eq; cbn; [apply wrap64_idemp|done..]. Qed.

(** Pacing touches [nextFrame] only. *)
Lemma sample_pacing_frame (tps : Z) (e : Env) (s s1 : CallerState) (n : Z) :
  sample_pacing tps e s = (s1, n) →
  s1 = set_nextFrame (nextFrame s1) s.
Proof.
  unfold sample_pacing, AdvanceFrame.
  destruct (recordMode s); try destruct (nextFrame s <=? clock_now e);
    intros; simplify_eq;
    rewrite ?set_nextFrame_same; cbn [nextFrame set_nextFrame];
    rewrite ?set_nextFrame_wrap64; done.
Qed.

(** What the handler of [SampleFrame] goes on from: the state the call
    was entered with, the screenshot queue apart. *)
Lemma SampleFrame_restored (s s1 : CallerState) :
  s1 = set_nextFrame (nextFrame s1) s →
  set_nextFrame (nextFrame s) (set_screenshotPaths [] s1) = set_screenshotPaths [] s.
Proof.
  intros ->. apply CallerState_eq; cbn; [apply nextFrame_wrap64|done..].
Qed.

(** One invocation of [SampleFrame], with the state that its handler
    restores written as what it is. *)
Lemma SampleFrame_cons (tps : Z) (e : Env) (env : list Env) (s : CallerState) :
  SampleFrame tps (e :: env) s
  = let s1 := (sample_pacing tps e s).1 in
    let pending := (sample_pacing tps e s).2 in
    if negb (pending =? 0) || negb (bool_decide (screenshotPaths s = [])) then
      let request := [Enter OpSampleFrame (status s);
                      RequestFrame pending (screenshotPaths s)] in
      match submit_outcome (callback_throws e) e with
      | Nothing =>
          Returned (set_screenshotPaths [] s1,
                    request
                    ++ [NewFrame (callback_handle e)
                          {| frame_screenshotPaths := screenshotPaths s;
                             frame_videoPendingFrames := pending;
                             frame_ready := false;
                             frame_data := callback_data e |};
                        PushBack (CFrameTask (callback_handle e))])
      | SystemError => Aborted
      | StdException =>
          let failed := request ++ [ErrorCall (status s) "Fail to sample frame"] in
          match status s with
          | OK => retry_with RETRY failed (SampleFrame tps env) (set_screenshotPaths [] s)
          | _ => Returned (set_screenshotPaths [] s, failed)
          end
      end
    else Returned (s1, [Enter OpSampleFrame (status s)]).
Proof.
  cbn [SampleFrame]. cbv zeta.
  destruct (sample_pacing tps e s) as [s1 n] eqn:Hp. cbn [fst snd].
  pose proof (sample_pacing_frame _ _ _ _ _ Hp) as Hs1.
  assert (screenshotPaths s1 = screenshotPaths s) as -> by (rewrite Hs1; done).
  destruct (negb (n =? 0) || negb (bool_decide (screenshotPaths s = []))); [|done].
  destruct (submit_outcome (callback_throws e) e); [done| |done].
  rewrite (SampleFrame_restored s s1 Hs1). done.
Qed.

(** Multiplying by the ratio in lowest terms gives the quotient of the
    ratio as written. *)
Lemma quot_reduced (from_den to_den count : Z) :
  0 < from_den →
  (count * (to_den / Z.gcd to_den from_den)) `quot` (from_den / Z.gcd to_den from_den)
  = (count * to_den) `quot` from_den.
Proof.
  intros Hf. set (g := Z.gcd to_den from_den).
  assert (0 < g) as Hg.
  { pose proof (Z.gcd_nonneg to_den from_den).
    assert (g ≠ 0); [|lia]. subst g. intros H0. apply Z.gcd_eq_0_r in H0. lia. }
  destruct (Z.gcd_divide_l to_den from_den) as [b Hb].
  destruct (Z.gcd_divide_r to_den from_den) as [a Ha].
  fold g in Ha, Hb.
  assert (to_den / g = b) as -> by (rewrite Hb; apply Z.div_mul; lia).
  assert (from_den / g = a) as -> by (rewrite Ha; apply Z.div_mul; lia).
  rewrite Hb, Ha, Z.mul_assoc. symmetry. apply Z.quot_mul_cancel_r; [|lia].
  intros ->. lia.
Qed.

(** While the product stays in range, [duration_cast] is the truncated
    quotient. *)
Lemma duration_cast_fits (from_den to_den count : Z) :
  0 < from_den →
  fits_rep (count * (to_den / Z.gcd to_den from_den)) = true →
  duration_cast from_den to_den count = (count * to_den) `quot` from_den.
Proof.
  intros Hf Hfit. unfold duration_cast. cbv zeta.
  rewrite wrap64_fits by done. by apply quot_reduced.
Qed.

(** [AdvanceFrame] while every intermediate result stays in range. *)
Lemma AdvanceFrame_fits (tps FPS now : Z) (s : CallerState) :
  0 < tps → 0 < FPS →
  pacing_fits tps FPS (nextFrame s) now = true →
  let n := ((now - nextFrame s) * FPS) `quot` tps + 1 in
  AdvanceFrame tps FPS now s
  = (set_nextFrame (nextFrame s + (n * tps) `quot` FPS) s, n)
  ∧ fits_rep (nextFrame s + (n * tps) `quot` FPS) = true.
Proof.
  intros Ht HF Hfit n. unfold pacing_fits in Hfit. cbv zeta in Hfit.
  rewrite !andb_true_iff in Hfit.
  destruct Hfit as (((((H1 & H2) & H3) & H4) & H5) & H6).
  rewrite (quot_reduced tps FPS) in H4, H5, H6 by done.
  fold n in H4, H5, H6.
  replace (tps / Z.gcd FPS tps) with (tps / Z.gcd tps FPS) in H5, H6
    by (by rewrite Z.gcd_comm).
  replace (FPS / Z.gcd FPS tps) with (FPS / Z.gcd tps FPS) in H6
    by (by rewrite Z.gcd_comm).
  rewrite (quot_reduced FPS tps) in H6 by done.
  unfold AdvanceFrame. cbv zeta.
  rewrite (wrap64_fits (now - nextFrame s)) by done.
  rewrite (duration_cast_fits tps FPS) by done.
  fold n. rewrite (wrap64_fits n) by done.
  rewrite (duration_cast_fits FPS tps) by done.
  rewrite wrap64_fits by done. done.
Qed.

Section Pacing.
Context (tps : Z) (tps_pos : 0 < tps).

Lemma frames_in_gap_ratio (F d : Z) :
  (frames_in_gap tps F d == inject_Z (d * F) / inject_Z tps)%Q.
Proof.
  unfold frames_in_gap, seconds. rewrite inject_Z_mult.
  field. unfold Qeq; simpl. lia.
Qed.

Lemma floor_frames_in_gap (F d : Z) :
  Qfloor (frames_in_gap tps F d) = (d * F) / tps.
Proof.
  rewrite (Qfloor_comp _ _ (frames_in_gap_ratio F d)).
  symmetry. apply Zdiv_Qdiv.
Qed.

Lemma ceiling_frames_in_gap (F d : Z) :
  Qceiling (frames_in_gap tps F d) = - ((- (d * F)) / tps).
Proof.
  unfold Qceiling. f_equal.
  assert (- frames_in_gap tps F d == inject_Z (- (d * F)) / inject_Z tps)%Q as ->.
  { rewrite frames_in_gap_ratio, inject_Z_opp. field. unfold Qeq; simpl. lia. }
  symmetry. apply Zdiv_Qdiv.
Qed.

Lemma whole_frames_in_gap (F d : Z) :
  (frames_in_gap tps F d == inject_Z (Qfloor (frames_in_gap tps F d)))%Q
  ↔ (d * F) mod tps = 0.
Proof.
  rewrite floor_frames_in_gap, frames_in_gap_ratio.
  unfold Qeq, Qdiv, Qmult, Qinv, inject_Z; simpl.
  destruct tps as [|p|p] eqn:E; try lia. simpl.
  pose proof (Z.div_mod (d * F) (Z.pos p) ltac:(lia)).
  split; intros; nia.
Qed.

Lemma quot_floor (F d : Z) :
  0 < F → 0 ≤ d → (d * F) `quot` tps = Qfloor (frames_in_gap tps F d).
Proof.
  intros HF Hd. rewrite floor_frames_in_gap.
  apply Z.quot_div_nonneg; nia.
Qed.
End Pacing.

(** Pacing when the deadline is reached while recording and the
    arithmetic stays in range. *)
Lemma sample_pacing_due (tps : Z) (e : Env) (s : CallerState) :
  0 < tps →
  recordMode s ≠ STOPPED →
  nextFrame s ≤ clock_now e →
  sample_fits tps s e = true →
  let F := frame_rate (recordMode s) in
  let n := ((clock_now e - nextFrame s) * F) `quot` tps + 1 in
  sample_pacing tps e s = (set_nextFrame (nextFrame s + (n * tps) `quot` F) s, n)
  ∧ fits_rep (nextFrame s + (n * tps) `quot` F) = true.
Proof.
  intros Ht Hm Hdue Hfit F n. unfold sample_pacing, sample_fits in *.
  destruct (recordMode s) eqn:Em; [done| |];
    (destruct (Z.leb_spec (nextFrame s) (clock_now e)) as [_|?]; [|lia]);
    cbn [negb orb] in Hfit;
    apply AdvanceFrame_fits; done.
Qed.

(** C1 (amended).  While recording, a call of [SampleFrame] that finds
    the clock [gap] frame intervals past the deadline, with a gap that
    the 64-bit arithmetic can hold, hands the count [floor gap + 1] to
    the frame request; that is [ceiling gap] exactly when [gap] is not a
    whole number, and one more when it is.  When the frame task is
    queued, the deadline has moved by that many frame intervals,
    truncated to a whole number of clock ticks; when the callback or the
    submission throws an exception that is not a system error, the call
    goes on from the deadline it was entered with. *)
Theorem SampleFrame_pending_frames (tps : Z) (e : Env) (env : list Env) (s : CallerState) :
  0 < tps →
  recordMode s ≠ STOPPED →
  nextFrame s ≤ clock_now e →
  sample_fits tps s e = true →
  let F := frame_rate (recordMode s) in
  let gap := frames_in_gap tps F (clock_now e - nextFrame s) in
  let pending := Qfloor gap + 1 in
  let deadline := nextFrame s + (pending * tps) `quot` F in
  let request := [Enter OpSampleFrame (status s);
                  RequestFrame pending (screenshotPaths s)] in
  SampleFrame tps (e :: env) s
  = match submit_outcome (callback_throws e) e with
    | Nothing =>
        Returned (set_screenshotPaths [] (set_nextFrame deadline s),
                  request
                  ++ [NewFrame (callback_handle e)
                        {| frame_screenshotPaths := screenshotPaths s;
                           frame_videoPendingFrames := pending;
                           frame_ready := false;
                           frame_data := callback_data e |};
                      PushBack (CFrameTask (callback_handle e))])
    | SystemError => Aborted
    | StdException =>
        let failed := request ++ [ErrorCall (status s) "Fail to sample frame"] in
        let restored := set_screenshotPaths [] s in
        match status s with
        | OK => retry_with RETRY failed (SampleFrame tps env) restored
        | _ => Returned (restored, failed)
        end
    end
  ∧ 1 ≤ pending
  ∧ (¬ (gap == inject_Z (Qfloor gap))%Q → pending = Qceiling gap)
  ∧ ((gap == inject_Z (Qfloor gap))%Q → pending = Qceiling gap + 1)
  ∧ nextFrame (set_nextFrame deadline s) = deadline
  ∧ pending * tps - F < (deadline - nextFrame s) * F ≤ pending * tps.
Proof.
  intros Htps Hmode Hdue Hfit F gap pending deadline request.
  assert (HF : 0 < F) by (subst F; destruct (recordMode s); cbv; done).
  set (d := clock_now e - nextFrame s) in *.
  assert (Hd : 0 ≤ d) by (subst d; lia).
  assert (Hfloor : Qfloor gap = (d * F) / tps) by apply floor_frames_in_gap, Htps.
  assert (Hpos : 0 ≤ (d * F) / tps) by (apply Z.div_pos; nia).
  assert (sample_pacing tps e s = (set_nextFrame deadline s, pending)
          ∧ fits_rep deadline = true) as [Hpace Hrep].
  { pose proof (sample_pacing_due tps e s Htps Hmode Hdue Hfit) as Hp.
    cbv zeta in Hp. fold F d in Hp.
    rewrite (quot_floor tps Htps) in Hp by done. exact Hp. }
  split; [|split; [|split; [|split; [|split]]]].
  - rewrite SampleFrame_cons, Hpace. cbn [fst snd]. cbv zeta.
    destruct (Z.eqb_spec pending 0) as [E0|_]; [subst pending; lia|].
    reflexivity.
  - subst pending. lia.
  - intros Hfrac. subst pending gap.
    rewrite (whole_frames_in_gap tps Htps) in Hfrac.
    rewrite (ceiling_frames_in_gap tps Htps), Hfloor.
    rewrite Z_div_nz_opp_full by (done || lia). lia.
  - intros Hwhole. subst pending gap.
    rewrite (whole_frames_in_gap tps Htps) in Hwhole.
    rewrite (ceiling_frames_in_gap tps Htps), Hfloor.
    rewrite Z_div_zero_opp_full by (done || lia). lia.
  - cbn [nextFrame set_nextFrame]. by apply wrap64_fits.
  - subst deadline.
    replace (nextFrame s + (pending * tps) `quot` F - nextFrame s)
      with ((pending * tps) `quot` F) by lia.
    assert (0 ≤ pending * tps) by (subst pending; nia).
    rewrite Z.quot_div_nonneg by lia.
    pose proof (Z.div_mod (pending * tps) F ltac:(lia)).
    pose proof (Z.mod_pos_bound (pending * tps) F HF). nia.
Qed.

Lemma SampleFrame_pending_frames_witness :
  SampleFrame 1000000000 [calm 50000000 1 (vga_frame (Some 1%N))] (recording_at 0)
  = Returned (set_screenshotPaths [] (set_nextFrame 66666666 (recording_at 0)),
              [Enter OpSampleFrame OK; RequestFrame 2 [];
               NewFrame 1%nat {| frame_screenshotPaths := [];
                                 frame_videoPendingFrames := 2;
                                 frame_ready := false;
                                 frame_data := vga_frame (Some 1%N) |};
               PushBack (CFrameTask 1)]).
Proof.
  exact (proj1 (SampleFrame_pending_frames 1000000000
                  (calm 50000000 1 (vga_frame (Some 1%N))) [] (recording_at 0)
                  ltac:(lia) ltac:(discriminate) ltac:(vm_compute; discriminate) eq_refl)).
Defined.

(** C1, as stated, fails: a tenth of a second past the deadline at 30
    frames per second is a gap of exactly 3 frame intervals, whose
    ceiling is 3, and the frame request is handed 4; on the deadline
    itself the gap is 0 and the request is handed 1. *)
Lemma SampleFrame_pending_not_ceiling :
  let tps := 1000000000 in
  (∃ s' h fr t,
     SampleFrame tps [calm 100000000 1 (vga_frame (Some 1%N))] (recording_at 0)
     = Returned (s', [Enter OpSampleFrame OK; RequestFrame 4 []; NewFrame h fr; PushBack t])
     ∧ frame_videoPendingFrames fr = 4
     ∧ frame_videoPendingFrames fr
       ≠ Qceiling (frames_in_gap tps lowFPS (100000000 - 0)))
  ∧ Qceiling (frames_in_gap tps lowFPS (100000000 - 0)) = 3
  ∧ (∃ s' h fr t,
       SampleFrame tps [calm 0 1 (vga_frame (Some 1%N))] (recording_at 0)
       = Returned (s', [Enter OpSampleFrame OK; RequestFrame 1 []; NewFrame h fr; PushBack t])
       ∧ frame_videoPendingFrames fr = 1
       ∧ frame_videoPendingFrames fr ≠ Qceiling (frames_in_gap tps lowFPS (0 - 0)))
  ∧ Qceiling (frames_in_gap tps lowFPS (0 - 0)) = 0.
Proof.
  split; [do 4 eexists; by_computation|].
  split; [by_computation|].
  split; [do 4 eexists; by_computation|by_computation].
Qed.

(** Outside that range the product with the numerator of the ratio
    wraps around: with a nanosecond clock and a deadline 4 * 10^18 ticks
    in the past, the frame request is handed a negative count and the
    deadline moves back. *)
Lemma SampleFrame_gap_out_of_range :
  sample_fits 1000000000 (recording_at 0) (calm 4000000000000000000 1 (vga_frame (Some 1%N)))
  = false
  ∧ ∃ h fr t,
      SampleFrame 1000000000 [calm 4000000000000000000 1 (vga_frame (Some 1%N))]
        (recording_at 0)
      = Returned (set_nextFrame (-2148914691200000000) (recording_at 0),
                  [Enter OpSampleFrame OK; RequestFrame (-64467440736) [];
                   NewFrame h fr; PushBack t]).
Proof. split; [by_computation|]. do 3 eexists. by_computation. Qed.

(** * Retrying a failed submission *)

(** Casting a count of zero gives zero. *)
Lemma duration_cast_0 (from_den to_den : Z) : duration_cast from_den to_den 0 = 0.
Proof.
  unfold duration_cast. cbv zeta. rewrite Z.mul_0_l.
  change (wrap64 0) with 0. reflexivity.
Qed.

(** A count of zero leaves the deadline where it was. *)
Lemma sample_pacing_idle (tps : Z) (e : Env) (s s1 : CallerState) :
  sample_pacing tps e s = (s1, 0) → s1 = s.
Proof.
  unfold sample_pacing, AdvanceFrame. cbv zeta.
  destruct (recordMode s); try (intros; simplify_eq; done);
    (destruct (nextFrame s <=? clock_now e); [|intros; simplify_eq; done]);
    intros Hq; injection Hq as Ht Hn; rewrite Hn in Ht;
    rewrite duration_cast_0, Z.add_0_r, set_nextFrame_wrap64, set_nextFrame_same in Ht;
    done.
Qed.

(** Pacing does not look at the status. *)
Lemma sample_pacing_status (tps : Z) (e : Env) (st : Status) (s : CallerState) :
  sample_pacing tps e (set_status st s)
  = (set_status st (sample_pacing tps e s).1, (sample_pacing tps e s).2).
Proof.
  unfold sample_pacing, AdvanceFrame. cbn [recordMode nextFrame set_status].
  destruct (recordMode s); try destruct (nextFrame s <=? clock_now e); reflexivity.
Qed.

Lemma entered_app (a b : list Cmd) : entered (a ++ b) = entered a ++ entered b.
Proof.
  induction a as [|c a IH]; [done|]. destruct c; simpl; rewrite ?IH; done.
Qed.

(** A call of [SampleFrame] entered with a status other than [OK]: one
    invocation, and a failure is reported and not retried. *)
Lemma SampleFrame_under_retry (tps : Z) (e : Env) (env : list Env) (s : CallerState) :
  status s ≠ OK →
  SampleFrame tps (e :: env) s
  = let s1 := (sample_pacing tps e s).1 in
    let pending := (sample_pacing tps e s).2 in
    if negb (pending =? 0) || negb (bool_decide (screenshotPaths s = [])) then
      let request := [Enter OpSampleFrame (status s);
                      RequestFrame pending (screenshotPaths s)] in
      match submit_outcome (callback_throws e) e with
      | Nothing =>
          Returned (set_screenshotPaths [] s1,
                    request
                    ++ [NewFrame (callback_handle e)
                          {| frame_screenshotPaths := screenshotPaths s;
                             frame_videoPendingFrames := pending;
                             frame_ready := false;
                             frame_data := callback_data e |};
                        PushBack (CFrameTask (callback_handle e))])
      | SystemError => Aborted
      | StdException =>
          Returned (set_screenshotPaths [] s,
                    request ++ [ErrorCall (status s) "Fail to sample frame"])
      end
    else Returned (s1, [Enter OpSampleFrame (status s)]).
Proof.
  intros Hst. rewrite SampleFrame_cons. cbv zeta.
  destruct (negb _ || negb _); [|done].
  destruct (submit_outcome (callback_throws e) e); [done| |done].
  by destruct (status s).
Qed.

(** The same for [StartRecordImpl] with no request handed in. *)
Lemma StartRecordImpl_under_retry (e : Env) (env : list Env)
    (filename : string) (width height : Z) (_10bit highFPS : bool)
    (codec : Codec) (crf : Z) (preset : Preset) (s : CallerState) :
  status s ≠ OK →
  StartRecordImpl (e :: env) filename width height _10bit highFPS codec crf preset None s
  = match submit_outcome false e with
    | Nothing =>
        Returned (set_nextFrame (clock_now e)
                    (set_recordMode (if highFPS then HIGH_FPS else LOW_FPS) s),
                  [Enter OpStartRecord (status s);
                   PushBack (CStartVideoRecordRequest filename width height _10bit
                               highFPS codec crf preset
                               (bool_decide (recordMode s = STOPPED)))])
    | SystemError => Aborted
    | StdException =>
        Returned (s, [Enter OpStartRecord (status s);
                      ErrorCall (status s) "Fail to start video record "])
    end.
Proof.
  intros Hst. cbn [StartRecordImpl]. unfold submit_outcome, reported. cbn [orb].
  destruct (alloc_throws e), (lock_throws e), (push_throws e), (error_lock_throws e),
    (status s); done.
Qed.

Lemma StopRecord_under_retry (e : Env) (env : list Env) (s : CallerState) :
  status s ≠ OK →
  StopRecord (e :: env) s
  = match submit_outcome false e with
    | Nothing =>
        Returned (set_recordMode STOPPED s,
                  [Enter OpStopRecord (status s);
                   PushBack (CStopVideoRecordRequest
                               (negb (bool_decide (recordMode s = STOPPED))))])
    | SystemError => Aborted
    | StdException =>
        Returned (s, [Enter OpStopRecord (status s);
                      ErrorCall (status s) "Fail to stop video record"])
    end.
Proof.
  intros Hst. cbn [StopRecord].
  destruct (submit_outcome false e), (status s); done.
Qed.

Lemma Screenshot_under_retry (e : Env) (env : list Env) (filename : string)
    (s : CallerState) :
  status s ≠ OK →
  Screenshot (e :: env) filename s
  = if push_throws e then
      if error_lock_throws e then Aborted
      else Returned (s, [Enter OpScreenshot (status s);
                         ErrorCall (status s) screenshotErrorMsgPrefix])
    else Returned (set_screenshotPaths (screenshotPaths s ++ [filename]) s,
                   [Enter OpScreenshot (status s)]).
Proof.
  intros Hst. cbn [Screenshot]. unfold reported.
  destruct (push_throws e), (error_lock_throws e), (status s); done.
Qed.

(** C7.  When an attempt made under [status = OK] fails with an
    exception that is not a system error, the function reports it and
    calls itself once, under [RETRY] ([CLEAN] for [StopRecord]).  The
    outcome of the call is the outcome of that second attempt, whatever
    environments follow: if it succeeds its task is queued (for
    [Screenshot], its path) and the recorder is what a successful call
    leaves; if it fails again, the failure is reported and nothing more
    is attempted; a system error aborts.  Whenever the call returns it
    has made exactly two invocations and the status is [OK] again.
    What the second attempt works on is what the first one left: the
    screenshot paths of [SampleFrame] are gone, and so is the file name
    of [StartRecord] if the request had been created. *)
Theorem submission_retried_once (tps : Z) (e1 e2 : Env) (rest : list Env)
    (s : CallerState) (filename : string) (width height : Z)
    (_10bit highFPS : bool) (codec : Codec) (crf : Z) (preset : Preset) :
  status s = OK →
  ((sample_pacing tps e1 s).2 ≠ 0 ∨ screenshotPaths s ≠ [] →
   submit_outcome (callback_throws e1) e1 = StdException →
   let first := [Enter OpSampleFrame OK;
                 RequestFrame (sample_pacing tps e1 s).2 (screenshotPaths s);
                 ErrorCall OK "Fail to sample frame";
                 Enter OpSampleFrame RETRY] in
   let restored := set_screenshotPaths [] s in
   let pending := (sample_pacing tps e2 restored).2 in
   SampleFrame tps (e1 :: e2 :: rest) s
   = (if pending =? 0 then Returned ((sample_pacing tps e2 restored).1, first)
      else
        match submit_outcome (callback_throws e2) e2 with
        | Nothing =>
            Returned ((sample_pacing tps e2 restored).1,
                      first
                      ++ [RequestFrame pending [];
                          NewFrame (callback_handle e2)
                            {| frame_screenshotPaths := [];
                               frame_videoPendingFrames := pending;
                               frame_ready := false;
                               frame_data := callback_data e2 |};
                          PushBack (CFrameTask (callback_handle e2))])
        | StdException =>
            Returned (restored,
                      first ++ [RequestFrame pending [];
                                ErrorCall RETRY "Fail to sample frame"])
        | SystemError => Aborted
        end)
   ∧ ∀ s' cmds,
       SampleFrame tps (e1 :: e2 :: rest) s = Returned (s', cmds) →
       entered cmds = [(OpSampleFrame, OK); (OpSampleFrame, RETRY)] ∧ status s' = OK)
  ∧ (submit_outcome false e1 = StdException →
     let first := [Enter OpStartRecord OK;
                   ErrorCall OK "Fail to start video record ";
                   Enter OpStartRecord RETRY] in
     let name := if alloc_throws e1 then filename else EmptyString in
     StartRecord (e1 :: e2 :: rest) filename width height _10bit highFPS codec crf
       preset s
     = match submit_outcome false e2 with
       | Nothing =>
           Returned (set_nextFrame (clock_now e2)
                       (set_recordMode (if highFPS then HIGH_FPS else LOW_FPS) s),
                     first
                     ++ [PushBack (CStartVideoRecordRequest name width height _10bit
                                     highFPS codec crf preset
                                     (bool_decide (recordMode s = STOPPED)))])
       | StdException =>
           Returned (s, first ++ [ErrorCall RETRY "Fail to start video record "])
       | SystemError => Aborted
       end
     ∧ ∀ s' cmds,
         StartRecord (e1 :: e2 :: rest) filename width height _10bit highFPS codec crf
           preset s = Returned (s', cmds) →
         entered cmds = [(OpStartRecord, OK); (OpStartRecord, RETRY)] ∧ status s' = OK)
  ∧ (submit_outcome false e1 = StdException →
     let first := [Enter OpStopRecord OK;
                   ErrorCall OK "Fail to stop video record";
                   Enter OpStopRecord CLEAN] in
     StopRecord (e1 :: e2 :: rest) s
     = match submit_outcome false e2 with
       | Nothing =>
           Returned (set_recordMode STOPPED s,
                     first
                     ++ [PushBack (CStopVideoRecordRequest
                                     (negb (bool_decide (recordMode s = STOPPED))))])
       | StdException =>
           Returned (s, first ++ [ErrorCall CLEAN "Fail to stop video record"])
       | SystemError => Aborted
       end
     ∧ ∀ s' cmds,
         StopRecord (e1 :: e2 :: rest) s = Returned (s', cmds) →
         entered cmds = [(OpStopRecord, OK); (OpStopRecord, CLEAN)] ∧ status s' = OK)
  ∧ (push_throws e1 = true → error_lock_throws e1 = false →
     let first := [Enter OpScreenshot OK;
                   ErrorCall OK screenshotErrorMsgPrefix;
                   Enter OpScreenshot RETRY] in
     Screenshot (e1 :: e2 :: rest) filename s
     = (if push_throws e2 then
          if error_lock_throws e2 then Aborted
          else Returned (s, first ++ [ErrorCall RETRY screenshotErrorMsgPrefix])
        else Returned (set_screenshotPaths (screenshotPaths s ++ [filename]) s, first))
     ∧ ∀ s' cmds,
         Screenshot (e1 :: e2 :: rest) filename s = Returned (s', cmds) →
         entered cmds = [(OpScreenshot, OK); (OpScreenshot, RETRY)] ∧ status s' = OK).
Proof.
  intros Hok. split; [|split; [|split]].
  - intros Hdue Hthrow first restored pending.
    assert (SampleFrame tps (e1 :: e2 :: rest) s
            = retry_with RETRY
                [Enter OpSampleFrame OK;
                 RequestFrame (sample_pacing tps e1 s).2 (screenshotPaths s);
                 ErrorCall OK "Fail to sample frame"]
                (SampleFrame tps (e2 :: rest)) restored) as ->.
    { rewrite SampleFrame_cons. cbv zeta.
      assert (negb ((sample_pacing tps e1 s).2 =? 0)
              || negb (bool_decide (screenshotPaths s = [])) = true) as ->.
      { destruct Hdue as [Hn|Hn].
        - destruct (Z.eqb_spec (sample_pacing tps e1 s).2 0); done.
        - rewrite bool_decide_eq_false_2 by done. apply orb_true_r. }
      rewrite Hthrow, Hok. reflexivity. }
    unfold retry_with.
    rewrite SampleFrame_under_retry by done. cbv zeta.
    rewrite sample_pacing_status. cbn [fst snd]. fold pending.
    subst restored. cbn [set_status set_screenshotPaths screenshotPaths status].
    rewrite bool_decide_eq_true_2 by done. cbn [negb]. rewrite orb_false_r.
    pose proof (sample_pacing_frame tps e2 (set_screenshotPaths [] s)
                  (sample_pacing tps e2 (set_screenshotPaths [] s)).1 pending
                  ltac:(by destruct (sample_pacing tps e2 (set_screenshotPaths [] s)))) as Hs1.
    destruct (Z.eqb_spec pending 0) as [H0|H0]; cbn [negb].
    + split.
      * f_equal. f_equal. rewrite Hs1. state_eq.
      * intros; simplify_eq. split; [done|]. rewrite Hs1. done.
    + destruct (submit_outcome (callback_throws e2) e2).
      * split; [|intros; simplify_eq; split; [done|]; rewrite Hs1; done].
        f_equal. f_equal. rewrite Hs1. state_eq.
      * split.
        -- f_equal. f_equal. state_eq.
        -- intros; simplify_eq. done.
      * split; [done|by intros].
  - intros Hthrow first name.
    assert (StartRecord (e1 :: e2 :: rest) filename width height _10bit highFPS codec
              crf preset s
            = retry_with RETRY
                [Enter OpStartRecord OK; ErrorCall OK "Fail to start video record "]
                (StartRecordImpl (e2 :: rest) name width height _10bit highFPS codec
                   crf preset None) s) as ->.
    { unfold StartRecord. remember (e2 :: rest) as env' eqn:Henv.
      cbn [StartRecordImpl]. subst name.
      unfold submit_outcome, reported in *. cbn [orb] in Hthrow. rewrite Hok.
      destruct (alloc_throws e1), (lock_throws e1), (push_throws e1),
        (error_lock_throws e1); done. }
    unfold retry_with. rewrite StartRecordImpl_under_retry by done.
    cbn [set_status status recordMode].
    destruct (submit_outcome false e2).
    + split; [|intros; simplify_eq; done].
      f_equal. f_equal. state_eq.
    + split.
      * f_equal. f_equal. state_eq.
      * intros; simplify_eq. done.
    + split; [done|by intros].
  - intros Hthrow first. remember (e2 :: rest) as env' eqn:Henv.
    cbn [StopRecord]. rewrite Hthrow, Hok. subst env'.
    unfold retry_with. rewrite StopRecord_under_retry by done.
    cbn [set_status status recordMode].
    destruct (submit_outcome false e2).
    + split; [|intros; simplify_eq; done].
      f_equal. f_equal. state_eq.
    + split.
      * f_equal. f_equal. state_eq.
      * intros; simplify_eq. done.
    + split; [done|by intros].
  - intros Hthrow Herr first. remember (e2 :: rest) as env' eqn:Henv.
    cbn [Screenshot]. unfold reported. rewrite Hthrow, Herr, Hok. subst env'.
    unfold retry_with. rewrite Screenshot_under_retry by done.
    cbn [set_status status screenshotPaths].
    destruct (push_throws e2); [destruct (error_lock_throws e2)|].
    + split; [done|by intros].
    + split.
      * f_equal. f_equal. state_eq.
      * intros; simplify_eq. done.
    + split; [|intros; simplify_eq; done].
      f_equal. f_equal. state_eq.
Qed.

Lemma submission_retried_once_witness :
  let e := out_of_memory 0 in
  let s := set_screenshotPaths ["shot.png"] new_caller in
  SampleFrame 1000000000 [e; calm 0 7 (vga_frame (Some 1%N)); e] (recording_at 0)
  = Returned (set_nextFrame 33333333 (recording_at 0),
              [Enter OpSampleFrame OK; RequestFrame 1 [];
               ErrorCall OK "Fail to sample frame";
               Enter OpSampleFrame RETRY; RequestFrame 1 [];
               NewFrame 7 {| frame_screenshotPaths := [];
                             frame_videoPendingFrames := 1;
                             frame_ready := false;
                             frame_data := vga_frame (Some 1%N) |};
               PushBack (CFrameTask 7)])
  ∧ StartRecord [e; calm 5 0 (vga_frame None); e] "a.mp4" 640 480 false false
      H264 (-1) Default s
    = Returned (set_nextFrame 5 (set_recordMode LOW_FPS s),
                [Enter OpStartRecord OK; ErrorCall OK "Fail to start video record ";
                 Enter OpStartRecord RETRY;
                 PushBack (CStartVideoRecordRequest EmptyString 640 480 false false
                             H264 (-1) Default true)])
  ∧ StopRecord [e; e; calm 0 0 (vga_frame None)] s
    = Returned (s, [Enter OpStopRecord OK; ErrorCall OK "Fail to stop video record";
                    Enter OpStopRecord CLEAN;
                    ErrorCall CLEAN "Fail to stop video record"])
  ∧ Screenshot [e; e; calm 0 0 (vga_frame None)] "shot.png" s
    = Returned (s, [Enter OpScreenshot OK; ErrorCall OK screenshotErrorMsgPrefix;
                    Enter OpScreenshot RETRY;
                    ErrorCall RETRY screenshotErrorMsgPrefix]).
Proof.
  intros e s.
  destruct (submission_retried_once 1000000000 e (calm 0 7 (vga_frame (Some 1%N))) [e]
              (recording_at 0) "a.mp4" 640 480 false false H264 (-1) Default eq_refl)
    as (H1 & _).
  destruct (submission_retried_once 1000000000 e (calm 5 0 (vga_frame None)) [e]
              s "a.mp4" 640 480 false false H264 (-1) Default eq_refl)
    as (_ & H2 & _).
  destruct (submission_retried_once 1000000000 e e [calm 0 0 (vga_frame None)]
              s "shot.png" 640 480 false false H264 (-1) Default eq_refl)
    as (_ & _ & H3 & H4).
  split; [exact (proj1 (H1 ltac:(left; vm_compute; discriminate) eq_refl))|].
  split; [exact (proj1 (H2 eq_refl))|].
  split; [exact (proj1 (H3 eq_refl))|exact (proj1 (H4 eq_refl eq_refl))].
Defined.

(** * A failed sample and the deadline *)

(** A call of [SampleFrame] that returns without having queued a task
    leaves the deadline where it was. *)
Lemma SampleFrame_without_push (tps : Z) (env : list Env) :
  ∀ (s s' : CallerState) (cmds : list Cmd),
    SampleFrame tps env s = Returned (s', cmds) →
    pushed cmds = [] →
    nextFrame s' = nextFrame s.
Proof.
  induction env as [|e env IH]; intros s s' cmds; [done|].
  rewrite SampleFrame_cons. cbv zeta.
  destruct (sample_pacing tps e s) as [s1 n] eqn:Hp. cbn [fst snd].
  destruct (Z.eqb_spec n 0) as [->|Hn]; cbn [negb orb].
  - apply sample_pacing_idle in Hp as ->.
    destruct (bool_decide (screenshotPaths s = [])); cbn [negb].
    + intros; simplify_eq; done.
    + destruct (submit_outcome (callback_throws e) e); [intros; simplify_eq; done| |done].
      destruct (status s); [|intros; simplify_eq; done..].
      unfold retry_with.
      destruct (SampleFrame tps env _) as [[s4 c4]| |] eqn:Hr; [|done..].
      intros Heq Hpush. injection Heq as <- <-. simpl in Hpush.
      apply IH in Hr; [|done]. exact Hr.
  - destruct (submit_outcome (callback_throws e) e); [intros; simplify_eq; done| |done].
    destruct (status s); [|intros; simplify_eq; done..].
    unfold retry_with.
    destruct (SampleFrame tps env _) as [[s4 c4]| |] eqn:Hr; [|done..].
    intros Heq Hpush. injection Heq as <- <-. simpl in Hpush.
    apply IH in Hr; [|done]. exact Hr.
Qed.

(** C10.  When the attempt of [SampleFrame] to create and queue the
    frame task fails with an exception that is not a system error, the
    call goes on from the recorder it was entered with, the screenshot
    queue apart: [nextFrame] is back at its value from before the call
    although pacing had moved it, so the next sample computes what it
    would have computed had the failed attempt not happened, and a call
    that returns without having queued a task leaves the deadline
    unchanged. *)
Theorem SampleFrame_failure_restores_deadline
    (tps : Z) (e : Env) (env : list Env) (s : CallerState) :
  0 < tps →
  (sample_pacing tps e s).2 ≠ 0 ∨ screenshotPaths s ≠ [] →
  submit_outcome (callback_throws e) e = StdException →
  let failed := [Enter OpSampleFrame (status s);
                 RequestFrame (sample_pacing tps e s).2 (screenshotPaths s);
                 ErrorCall (status s) "Fail to sample frame"] in
  let restored := set_screenshotPaths [] s in
  SampleFrame tps (e :: env) s
  = match status s with
    | OK => retry_with RETRY failed (SampleFrame tps env) restored
    | _ => Returned (restored, failed)
    end
  ∧ nextFrame restored = nextFrame s
  ∧ (∀ e', (sample_pacing tps e' restored).2 = (sample_pacing tps e' s).2
           ∧ nextFrame (sample_pacing tps e' restored).1
             = nextFrame (sample_pacing tps e' s).1)
  ∧ (∀ s' cmds, SampleFrame tps (e :: env) s = Returned (s', cmds) →
                pushed cmds = [] → nextFrame s' = nextFrame s).
Proof.
  intros Htps Hdue Hthrow failed restored. split; [|split; [done|split]].
  - subst failed restored. rewrite SampleFrame_cons. cbv zeta.
    assert (negb ((sample_pacing tps e s).2 =? 0)
            || negb (bool_decide (screenshotPaths s = [])) = true) as ->.
    { destruct Hdue as [Hn|Hn].
      - destruct (Z.eqb_spec (sample_pacing tps e s).2 0); done.
      - rewrite bool_decide_eq_false_2 by done. apply orb_true_r. }
    rewrite Hthrow. reflexivity.
  - intros e'. subst restored. unfold sample_pacing, AdvanceFrame.
    cbn [recordMode nextFrame set_screenshotPaths].
    destruct (recordMode s); try destruct (nextFrame s <=? clock_now e'); done.
  - intros s' cmds. apply SampleFrame_without_push.
Qed.

Lemma SampleFrame_failure_restores_deadline_witness :
  let s := recording_at 0 in
  SampleFrame 1000000000 [out_of_memory 50000000; out_of_memory 50000000] s
  = Returned (s, [Enter OpSampleFrame OK; RequestFrame 2 [];
                  ErrorCall OK "Fail to sample frame";
                  Enter OpSampleFrame RETRY; RequestFrame 2 [];
                  ErrorCall RETRY "Fail to sample frame"])
  ∧ (sample_pacing 1000000000 (out_of_memory 50000000) s).1
    = set_nextFrame 66666666 s.
Proof.
  intros s.
  pose proof (SampleFrame_failure_restores_deadline 1000000000
                (out_of_memory 50000000) [out_of_memory 50000000] s
                ltac:(lia) ltac:(left; vm_compute; discriminate) eq_refl) as [H _].
  split; [rewrite H|]; vm_compute; reflexivity.
Defined.

(** * How the worker's code extends the trace *)

Lemma saved_paths_app (a b : list Event) :
  saved_paths (a ++ b) = saved_paths a ++ saved_paths b.
Proof.
  induction a as [|ev a IH]; [done|]. destruct ev; simpl; rewrite ?IH; done.
Qed.

Lemma alternates_app (a b : list Event) (o o' : bool) :
  alternates o a = Some o' → alternates o (a ++ b) = alternates o' b.
Proof.
  revert o. induction a as [|ev a IH]; intros o; simpl.
  - intros; simplify_eq; done.
  - destruct ev, o; try done; apply IH.
Qed.

Lemma extends_refl (w : WorkerState) : extends w w [].
Proof. exists []. rewrite app_nil_r. done. Qed.

Lemma extends_trans (w1 w2 w3 : WorkerState) (a b : list string) :
  extends w1 w2 a → extends w2 w3 b → extends w1 w3 (a ++ b).
Proof.
  intros (e1 & Ht1 & Hs1 & Ha1) (e2 & Ht2 & Hs2 & Ha2).
  exists (e1 ++ e2). rewrite Ht2, Ht1, app_assoc, saved_paths_app, Hs1, Hs2.
  rewrite (alternates_app _ _ _ _ Ha1). done.
Qed.

Lemma extends_then (w1 w2 w3 : WorkerState) (a : list string) :
  extends w1 w2 a → extends w2 w3 [] → extends w1 w3 a.
Proof.
  intros H1 H2. rewrite <- (app_nil_r a). exact (extends_trans _ _ _ _ _ H1 H2).
Qed.

Lemma extends_after (w1 w2 w3 : WorkerState) (b : list string) :
  extends w1 w2 [] → extends w2 w3 b → extends w1 w3 b.
Proof. intros H1 H2. exact (extends_trans _ _ _ _ _ H1 H2). Qed.

(** ** Single steps *)

Lemma only_logs_refl (w : WorkerState) : only_logs w w.
Proof. repeat split. Qed.

Lemma only_logs_trans (w1 w2 w3 : WorkerState) :
  only_logs w1 w2 → only_logs w2 w3 → only_logs w1 w3.
Proof.
  unfold only_logs. intros (?&?&?&?&?) (?&?&?&?&?).
  repeat split; congruence.
Qed.

Lemma only_logs_emit (ev : Event) (w : WorkerState) : only_logs w (emit ev w).
Proof. repeat split. Qed.

Lemma extends_emit (ev : Event) (w0 w : WorkerState) (a : list string) :
  benign ev = true → extends w0 w a → extends w0 (emit ev w) a.
Proof.
  intros Hb H. eapply extends_then; [exact H|].
  exists [ev]. split; [done|]. unfold session_open. cbn [videoFile emit].
  destruct ev; try done; destruct (videoFile w); done.
Qed.

Lemma extends_save (codec : WICCodecs) (path : string) (w0 w : WorkerState)
    (a : list string) :
  extends w0 w a → extends w0 (emit (EvSaveScreenshot codec path) w) (a ++ [path]).
Proof.
  intros H. eapply extends_trans; [exact H|].
  exists [EvSaveScreenshot codec path]. split; [done|]. split; [done|].
  unfold session_open. cbn [videoFile emit]. destruct (videoFile w); done.
Qed.

Lemma extends_fields (w0 w w' : WorkerState) (a : list string) :
  trace w' = trace w → videoFile w' = videoFile w →
  extends w0 w a → extends w0 w' a.
Proof.
  intros Ht Hv H. eapply extends_then; [exact H|].
  exists []. rewrite Ht, app_nil_r. unfold session_open. rewrite Hv. done.
Qed.

Lemma extends_open (filename : string) (vf : AVFormatContext)
    (w0 w : WorkerState) (a : list string) :
  videoFile w = None → extends w0 w a →
  extends w0 (emit (EvAllocOutput filename) (set_videoFile (Some vf) w)) a.
Proof.
  intros Hv H. eapply extends_then; [exact H|].
  exists [EvAllocOutput filename]. split; [done|]. split; [done|].
  unfold session_open. cbn [videoFile emit set_videoFile]. rewrite Hv. done.
Qed.

Lemma extends_reopen (vf vf' : AVFormatContext) (w0 w : WorkerState)
    (a : list string) :
  videoFile w = Some vf → extends w0 w a →
  extends w0 (set_videoFile (Some vf') w) a.
Proof.
  intros Hv H. eapply extends_then; [exact H|].
  exists []. split; [by rewrite app_nil_r|]. split; [done|].
  unfold session_open. cbn [videoFile set_videoFile]. rewrite Hv. done.
Qed.

Lemma extends_close (vf : AVFormatContext) (w0 w : WorkerState) (a : list string) :
  videoFile w = Some vf → extends w0 w a →
  extends w0 (emit EvFreeOutput (set_videoFile None w)) a.
Proof.
  intros Hv H. eapply extends_then; [exact H|].
  exists [EvFreeOutput]. split; [done|]. split; [done|].
  unfold session_open. cbn [videoFile emit set_videoFile]. rewrite Hv. done.
Qed.

(** ** Encode and Cleanup *)

Lemma write_packets_extends (ps : list Z) (w : WorkerState) :
  extends w (write_packets ps w).1 [] ∧ only_logs w (write_packets ps w).1.
Proof.
  revert w. induction ps as [|r ps IH]; intros w; simpl.
  - split; [apply extends_refl|apply only_logs_refl].
  - destruct (r <? 0); simpl.
    + split; [|done]. do 2 (apply extends_emit; [done|]). apply extends_refl.
    + destruct (IH (emit EvWritePacket w)) as [H1 H2]. split.
      * eapply extends_after; [|exact H1]. apply extends_emit; [done|apply extends_refl].
      * eapply only_logs_trans; [|exact H2]. apply only_logs_emit.
Qed.

Lemma Encode_extends (e : EncodeEnv) (w : WorkerState) :
  extends w (Encode e w).1 [] ∧ only_logs w (Encode e w).1.
Proof.
  unfold Encode. destruct (send_frame e <? 0); simpl.
  - split; [|done]. do 2 (apply extends_emit; [done|]). apply extends_refl.
  - destruct (write_packets _ _) as [w2 written] eqn:Hw.
    pose proof (write_packets_extends (packets e)
                  (emit (EvSendFrame (from_option frm_pts 0 (dstFrame w))) w)) as [H1 H2].
    rewrite Hw in H1, H2. simpl in H1, H2.
    assert (extends w w2 [] ∧ only_logs w w2) as [H3 H4].
    { split.
      - eapply extends_after; [|exact H1]. apply extends_emit; [done|apply extends_refl].
      - eapply only_logs_trans; [|exact H2]. apply only_logs_emit. }
    destruct written; [destruct (receive_end e)|]; simpl; try done.
    split.
    + apply extends_emit; done.
    + eapply only_logs_trans; [exact H4|apply only_logs_emit].
Qed.

Lemma Cleanup_Done (w w' : WorkerState) :
  Cleanup w = Done w' →
  (∃ vf, videoFile w = Some vf)
  ∧ extends w w' []
  ∧ context w' = None ∧ dstFrame w' = None ∧ videoFile w' = None
  ∧ frames w' = frames w.
Proof.
  unfold Cleanup. cbn [videoFile set_dstFrame set_context].
  destruct (videoFile w) as [vf|] eqn:E; [|done].
  intros H. split; [by eexists|].
  destruct (fmt_pb vf); simplify_eq; (split; [|done]).
  - apply (extends_close vf); [done|].
    apply extends_emit; [done|].
    apply (extends_fields _ w); [done..|apply extends_refl].
  - apply (extends_close vf); [done|].
    apply (extends_fields _ w); [done..|apply extends_refl].
Qed.

Lemma Cleanup_without_file (w : WorkerState) :
  videoFile w = None → Cleanup w = Fails NullDereference.
Proof. unfold Cleanup. cbn [videoFile set_dstFrame set_context]. by intros ->. Qed.

Lemma set_options_extends (filename : string) (crf : Z) (preset : Preset)
    (env : TaskEnv) (w : WorkerState) :
  extends w (set_options filename crf preset env w) []
  ∧ only_logs w (set_options filename crf preset env w).
Proof.
  unfold set_options.
  set (w1 := if crf =? -1 then w else _).
  assert (extends w w1 [] ∧ only_logs w w1) as [H1 H2].
  { subst w1. destruct (crf =? -1); [|destruct (opt_set_crf env <? 0)];
      (split; [|done]); try apply extends_refl.
    apply extends_emit; [done|apply extends_refl]. }
  destruct preset as [|name|]; simpl; [done| |].
  - destruct (opt_set_preset env <? 0); [|done]. split.
    + apply extends_emit; done.
    + eapply only_logs_trans; [exact H2|apply only_logs_emit].
  - split.
    + apply extends_emit; done.
    + eapply only_logs_trans; [exact H2|apply only_logs_emit].
Qed.

Lemma videoFile_set_options (filename : string) (crf : Z) (preset : Preset)
    (env : TaskEnv) (w : WorkerState) :
  videoFile (set_options filename crf preset env w) = videoFile w.
Proof. apply set_options_extends. Qed.

Ltac fields_cbn :=
  cbn [videoFile context dstFrame frames cvtCtx trace
       emit set_context set_cvtCtx set_dstFrame set_videoFile set_frames].

Ltac fields :=
  fields_cbn; rewrite ?videoFile_set_options; fields_cbn;
  repeat (match goal with
          | H : videoFile _ = _ |- _ => rewrite H
          | H : frames _ = _ |- _ => rewrite H
          | H : dstFrame _ = _ |- _ => rewrite H
          end; fields_cbn);
  first [ done | reflexivity | eassumption | congruence ].

Ltac peel :=
  repeat first
    [ eassumption
    | apply extends_refl
    | apply extends_emit; [reflexivity|]
    | apply extends_save
    | apply extends_open; [fields|]
    | eapply extends_close; [fields|]
    | eapply extends_reopen; [fields|]
    | match goal with
      | |- extends _ (set_context _ ?w) _ => apply (extends_fields _ w); [reflexivity..|]
      | |- extends _ (set_cvtCtx _ ?w) _ => apply (extends_fields _ w); [reflexivity..|]
      | |- extends _ (set_dstFrame _ ?w) _ => apply (extends_fields _ w); [reflexivity..|]
      | |- extends _ (set_frames _ ?w) _ => apply (extends_fields _ w); [reflexivity..|]
      end
    | eapply extends_then; [|eassumption] ].

(** ** The stop request *)

Lemma run_CStopVideoRecordRequest_without_file (m : bool) (env : TaskEnv)
    (w : WorkerState) :
  videoFile w = None →
  run_CStopVideoRecordRequest m env w
  = Done (if m then w else emit unmatched_stop_line w).
Proof.
  intros Hv. unfold run_CStopVideoRecordRequest.
  destruct m; cbn [videoFile emit]; rewrite Hv; reflexivity.
Qed.

Lemma run_CStopVideoRecordRequest_extends (m : bool) (env : TaskEnv)
    (w w' : WorkerState) :
  run_CStopVideoRecordRequest m env w = Done w' →
  extends w w' [] ∧ videoFile w' = None ∧ frames w' = frames w.
Proof.
  destruct (videoFile w) as [vf|] eqn:Hv.
  2:{ rewrite run_CStopVideoRecordRequest_without_file by done.
      intros; simplify_eq. destruct m; (split; [peel|done]). }
  unfold run_CStopVideoRecordRequest.
  set (w0 := if m then w else emit _ w).
  assert (extends w w0 [] ∧ only_logs w w0) as [H0 L0].
  { subst w0. destruct m; (split; [peel|done]). }
  clearbody w0. destruct L0 as (_&_&_&Hv0&Hf0). rewrite Hv0, Hv.
  pose proof (Encode_extends (encode env 0%nat) w0) as [H1 L1].
  destruct (Encode _ w0) as [w1 ok]. simpl in H1, L1.
  destruct L1 as (_&_&_&Hv1&Hf1).
  destruct (write_trailer env <? 0), (avio_closep env <? 0);
    cbn [mbind outcome_bind];
    (destruct (Cleanup _) as [w6|] eqn:Hc; [|done]);
    apply Cleanup_Done in Hc as (_ & H6 & _ & _ & Hv6 & Hf6);
    intros H; cbn [mbind outcome_bind] in H; simplify_eq;
    (split; [|split; [fields|cbn [frames emit]; rewrite Hf6; fields]]);
    (apply extends_emit; [by destruct ok|]);
    (eapply extends_then; [|exact H6]); peel.
Qed.

(** ** The start request *)

Lemma open_session_extends
    (filename : string) (width height : Z) (_10bit highFPS : bool)
    (codecID : Codec) (crf : Z) (preset : Preset)
    (env : TaskEnv) (w w' : WorkerState) :
  videoFile w = None →
  open_session filename width height _10bit highFPS codecID crf preset env w = Done w' →
  extends w w' [] ∧ frames w' = frames w
  ∧ (videoFile w' ≠ None →
     context w' = Some (codec_context width height highFPS codecID env)
     ∧ dstFrame w' = Some (destination_frame _10bit
                             (codec_context width height highFPS codecID env))).
Proof.
  intros Hv. unfold open_session.
  pose proof (set_options_extends filename crf preset env
                (set_context (Some (codec_context width height highFPS codecID env)) w))
    as [Hopt Lopt].
  set (wo := set_options _ _ _ _ _) in *.
  assert (extends w wo []) as Hwo by peel.
  destruct Lopt as (Hco & _ & Hdo & Hvo & Hfo).
  cbn [videoFile context dstFrame frames set_context] in Hco, Hdo, Hvo, Hfo.
  clearbody wo.
  repeat case_match; intros Hrun; simplify_eq;
    try (rewrite Cleanup_without_file in Hrun by fields; discriminate);
    try (apply Cleanup_Done in Hrun as (_ & Hext & _ & _ & Hv' & Hf');
         split; [|split; [rewrite Hf'; fields|rewrite Hv'; done]];
         eapply extends_then; [|exact Hext]; peel).
  - split; [peel|]. split; [fields|]. intros Hn; exfalso; apply Hn. fields.
  - split; [peel|]. split; [fields|]. intros _. split; fields.
Qed.

Lemma run_CStopVideoRecordRequest_with_file (m : bool) (env : TaskEnv)
    (w : WorkerState) (vf : AVFormatContext) :
  videoFile w = Some vf →
  ∃ w', run_CStopVideoRecordRequest m env w = Done w'.
Proof.
  intros Hv. unfold run_CStopVideoRecordRequest.
  set (w0 := if m then w else emit _ w).
  assert (videoFile w0 = Some vf) as -> by (subst w0; destruct m; done).
  pose proof (Encode_extends (encode env 0%nat) w0) as [_ L1].
  destruct (Encode _ w0) as [w1 ok].
  destruct (write_trailer env <? 0), (avio_closep env <? 0);
    unfold Cleanup; fields_cbn; destruct ok; eexists; reflexivity.
Qed.

Lemma warn_unmatched_start_extends (m : bool) (w : WorkerState) :
  extends w (warn_unmatched_start m w) [] ∧ only_logs w (warn_unmatched_start m w).
Proof. unfold warn_unmatched_start. destruct m; (split; [peel|done]). Qed.

Lemma try_open_session_extends
    (filename : string) (width height : Z) (_10bit highFPS : bool)
    (codecID : Codec) (crf : Z) (preset : Preset)
    (env : TaskEnv) (w w' : WorkerState) :
  videoFile w = None →
  try_open_session filename width height _10bit highFPS codecID crf preset env w
  = Done w' →
  extends w w' [] ∧ frames w' = frames w
  ∧ (videoFile w' ≠ None →
     context w' = Some (codec_context width height highFPS codecID env)
     ∧ dstFrame w' = Some (destination_frame _10bit
                             (codec_context width height highFPS codecID env))).
Proof.
  intros Hv. unfold try_open_session.
  destruct codecID; try destruct (find_encoder_null env);
    try (apply open_session_extends; done);
    intros; simplify_eq; (split; [peel|split; [done|]]);
    intros Hn; exfalso; apply Hn; fields.
Qed.

Lemma run_CStartVideoRecordRequest_extends
    (filename : string) (width height : Z) (_10bit highFPS : bool)
    (codecID : Codec) (crf : Z) (preset : Preset) (matchedStop : bool)
    (env : TaskEnv) (w w' : WorkerState) :
  run_CStartVideoRecordRequest filename width height _10bit highFPS codecID crf
    preset matchedStop env w = Done w' →
  extends w w' [] ∧ frames w' = frames w
  ∧ (videoFile w' ≠ None →
     context w' = Some (codec_context width height highFPS codecID env)
     ∧ dstFrame w' = Some (destination_frame _10bit
                             (codec_context width height highFPS codecID env))).
Proof.
  unfold run_CStartVideoRecordRequest.
  pose proof (warn_unmatched_start_extends matchedStop w) as [H0 (_&_&_&Hv0&Hf0)].
  set (w0 := warn_unmatched_start matchedStop w) in *. clearbody w0.
  destruct (videoFile w0) as [vf|] eqn:Hv.
  - destruct (run_CStopVideoRecordRequest true env w0) as [w1|] eqn:Hs; [|done].
    apply run_CStopVideoRecordRequest_extends in Hs as (H1 & Hv1 & Hf1).
    cbn [mbind outcome_bind]. intros Ho.
    apply try_open_session_extends in Ho as (H2 & Hf2 & Hc); [|done].
    split; [peel|]. split; [congruence|done].
  - cbn [mbind outcome_bind]. intros Ho.
    apply try_open_session_extends in Ho as (H2 & Hf2 & Hc); [|done].
    split; [peel|]. split; [congruence|done].
Qed.

(** ** The frame task *)

Lemma written_paths_cons (env : TaskEnv) (path : string) (paths : list string) :
  written_paths env (path :: paths) = written_paths env [path] ++ written_paths env paths.
Proof.
  unfold written_paths. rewrite !filter_cons, filter_nil.
  by destruct (decide (reaches_writer env path = true)).
Qed.

Lemma written_paths_all (env : TaskEnv) (paths : list string) :
  Forall (λ path, path_extension env path ≠ None) paths →
  written_paths env paths = paths.
Proof.
  unfold written_paths. induction 1 as [|p ps Hp _ IH]; [done|].
  rewrite filter_cons, decide_True.
  - f_equal. exact IH.
  - unfold reaches_writer. by destruct (path_extension env p).
Qed.

Lemma save_screenshot_extends (env : TaskEnv) (path : string) (w : WorkerState) :
  extends w (save_screenshot env path w) (written_paths env [path])
  ∧ only_logs w (save_screenshot env path w).
Proof.
  unfold save_screenshot, written_paths, reaches_writer.
  rewrite filter_cons, filter_nil.
  destruct (path_extension env path) as [ext|].
  - rewrite decide_True by done.
    destruct (GetScreenshotCodec _) as [codec fallback].
    destruct fallback, (save env path); (split; [|done]);
      (apply extends_emit; [done|]); apply (extends_save _ _ _ _ []); peel.
  - rewrite decide_False by done. split; [peel|done].
Qed.

Lemma save_screenshots_extends (env : TaskEnv) (paths : list string) (w : WorkerState) :
  extends w (save_screenshots env paths w) (written_paths env paths)
  ∧ only_logs w (save_screenshots env paths w).
Proof.
  revert w. induction paths as [|p paths IH]; intros w; simpl.
  - split; [apply extends_refl|apply only_logs_refl].
  - destruct (save_screenshot_extends env p w) as [H1 L1].
    destruct (IH (save_screenshot env p w)) as [H2 L2]. split.
    + rewrite written_paths_cons. exact (extends_trans _ _ _ _ _ H1 H2).
    + eapply only_logs_trans; eauto.
Qed.

Lemma encode_loop_extends (fuel i srcFrame : nat) (env : TaskEnv) (w w' : WorkerState) :
  encode_loop fuel i srcFrame env w = Done w' → extends w w' [].
Proof.
  revert i w. induction fuel as [|fuel IH]; intros i w; [done|].
  cbn [encode_loop]. destruct (dstFrame w) as [dst|]; [|done].
  cbn [deref mbind outcome_bind].
  destruct (make_writable env i <? 0).
  { intros Hc. apply Cleanup_Done in Hc as (_ & Hc & _). peel. }
  pose proof (Encode_extends (encode env i) w) as [H1 (_&_&_&Hv1&Hf1)].
  destruct (Encode _ w) as [w1 ok]. simpl in H1, Hv1, Hf1.
  destruct ok; cbn [negb].
  2:{ intros Hc. apply Cleanup_Done in Hc as (_ & Hc & _). peel. }
  fields_cbn. destruct (frames w1 !! srcFrame) as [fr|]; [|done].
  cbn [deref mbind outcome_bind].
  destruct (_ =? 0).
  - intros; simplify_eq. peel.
  - intros Hl. apply IH in Hl. peel.
Qed.

Lemma encode_video_extends (srcFrame : nat) (fr : CFrame) (env : TaskEnv)
    (w w' : WorkerState) :
  encode_video srcFrame fr env w = Done w' → extends w w' [].
Proof.
  unfold encode_video. destruct (context w) as [ctx|]; [|done].
  cbn [deref mbind outcome_bind].
  destruct (_ && _).
  { intros Hc. apply Cleanup_Done in Hc as (_ & Hc & _). peel. }
  destruct (sws_getCachedContext_null env).
  { intros Hc. apply Cleanup_Done in Hc as (_ & Hc & _). peel. }
  fields_cbn. destruct (dstFrame w); [|done]. cbn [deref mbind outcome_bind].
  intros Hl. apply encode_loop_extends in Hl. peel.
Qed.

Lemma run_CFrameTask_extends (srcFrame : nat) (env : TaskEnv) (w w' : WorkerState) :
  run_CFrameTask srcFrame env w = Done w' →
  ∃ fr, frames w !! srcFrame = Some fr
        ∧ extends w w' (match pixels (frame_data fr) with
                        | Some _ => written_paths env (frame_screenshotPaths fr)
                        | None => []
                        end).
Proof.
  unfold run_CFrameTask. destruct (frames w !! srcFrame) as [fr|]; [|done].
  cbn [deref mbind outcome_bind]. intros Hr. exists fr. split; [done|].
  destruct (pixels (frame_data fr)).
  - pose proof (save_screenshots_extends env (frame_screenshotPaths fr) w) as [H1 L1].
    set (w1 := save_screenshots _ _ _) in *. clearbody w1.
    destruct L1 as (_&_&_&Hv1&_). revert Hr. fields_cbn.
    destruct (videoFile w1); [|intros; simplify_eq; peel].
    destruct (negb _); [|intros; simplify_eq; peel].
    intros Hr. apply encode_video_extends in Hr. peel.
  - simplify_eq. peel.
Qed.

Lemma run_task_extends (t : ITask) (env : TaskEnv) (w w' : WorkerState) :
  run_task t env w = Done w' → ∃ saves, extends w w' saves.
Proof.
  destruct t; simpl; intros Hr.
  - apply run_CFrameTask_extends in Hr as (fr & _ & Hr). eauto.
  - apply run_CStartVideoRecordRequest_extends in Hr as (Hr & _). eauto.
  - apply run_CStopVideoRecordRequest_extends in Hr as (Hr & _). eauto.
Qed.

(** * The recorder as a whole *)

Lemma Error_extends (st : Status) (prefix : string) (r r' : CVideoRecorder) :
  Error st prefix r = Done r' →
  extends (worker r) (worker r') [] ∧ taskQueue r = [] ∧ taskQueue r' = []
  ∧ executed r' = executed r ∧ submitted r' = submitted r.
Proof.
  unfold Error. destruct (taskQueue r) eqn:Hq; [|done].
  destruct st.
  - intros; simplify_eq. cbn. rewrite Hq. split; [peel|done].
  - intros; simplify_eq. cbn. rewrite Hq. split; [peel|done].
  - fields_cbn. destruct (videoFile (worker r)) eqn:Hv.
    + destruct (Cleanup _) as [w'|] eqn:Hc; [|done].
      apply Cleanup_Done in Hc as (_ & Hc & _).
      cbn [mbind outcome_bind]. intros; simplify_eq. cbn. split; [peel|done].
    + intros; simplify_eq. cbn. rewrite Hq. split; [peel|done].
Qed.

Lemma Process_cases (env : TaskEnv) (r r' : CVideoRecorder) :
  Process env r = Done r' →
  r' = r
  ∨ ∃ k t rest w',
      finish r = false ∧ taskQueue r = (k, t) :: rest
      ∧ task_ready t (worker r) = Done true
      ∧ run_task t env (worker r) = Done w'
      ∧ r' = {| worker := w'; taskQueue := rest; finish := finish r;
                submitted := submitted r; executed := executed r ++ [(k, t)] |}.
Proof.
  unfold Process. destruct (finish r) eqn:Hf; [intros; simplify_eq; by left|].
  destruct (taskQueue r) as [|[k t] rest] eqn:Hq; [intros; simplify_eq; by left|].
  destruct (task_ready t (worker r)) as [[]|] eqn:Hready;
    cbn [mbind outcome_bind]; [| |done].
  - destruct (run_task t env (worker r)) as [w'|] eqn:Hr; [|done].
    cbn [mbind outcome_bind]. intros; simplify_eq. right.
    exists k, t, rest, w'. done.
  - intros; simplify_eq; by left.
Qed.

Lemma step_extends (l : Label) (r r' : CVideoRecorder) :
  step l r = Done r' → ∃ saves, extends (worker r) (worker r') saves.
Proof.
  destruct l as [c|f|f|env]; simpl.
  - destruct c; simpl; intros H; simplify_eq; try (exists []; cbn; peel).
    apply Error_extends in H as (H & _). eauto.
  - intros; simplify_eq. exists []. cbn. peel.
  - intros; simplify_eq. exists []. cbn. peel.
  - intros H. apply Process_cases in H as [->|(k & t & rest & w' & _ & _ & _ & Hr & ->)].
    + exists []. peel.
    + apply run_task_extends in Hr. exact Hr.
Qed.

Lemma run_extends (ls : list Label) (r r' : CVideoRecorder) :
  run ls r = Done r' → ∃ saves, extends (worker r) (worker r') saves.
Proof.
  revert r. induction ls as [|l ls IH]; intros r; simpl.
  - intros; simplify_eq. exists []. peel.
  - destruct (step l r) as [r1|] eqn:Hs; [|done]. cbn [mbind outcome_bind].
    intros Hr. apply step_extends in Hs as [s1 H1]. apply IH in Hr as [s2 H2].
    exists (s1 ++ s2). eapply extends_trans; eauto.
Qed.

(** ** Sessions open at any time *)

Lemma open_sessions_app (a b : list Event) :
  open_sessions (a ++ b) = open_sessions a + open_sessions b.
Proof.
  induction a as [|ev a IH]; [done|]. destruct ev; simpl; rewrite ?IH; lia.
Qed.

Lemma alternates_bound (tr : list Event) (o o' : bool) :
  alternates o tr = Some o' →
  (if o then 1 else 0) + open_sessions tr = (if o' then 1 else 0)
  ∧ ∀ p, p `prefix_of` tr → 0 ≤ (if o then 1 else 0) + open_sessions p ≤ 1.
Proof.
  revert o. induction tr as [|ev tr IH]; intros o Ha.
  - simpl in Ha. simplify_eq. split; [simpl; lia|].
    intros p Hp. apply prefix_nil_inv in Hp as ->. destruct o'; simpl; lia.
  - assert (∃ o1, alternates o1 tr = Some o'
                  ∧ (if o then 1 else 0) + open_sessions [ev] = (if o1 then 1 else 0))
      as (o1 & Ha1 & Hstep).
    { destruct ev, o; simpl in Ha; simplify_eq; eauto. }
    destruct (IH _ Ha1) as [Hsum Hpre]. split.
    + change (ev :: tr) with ([ev] ++ tr). rewrite open_sessions_app. lia.
    + intros [|e p] Hp; [destruct o; simpl; lia|].
      apply prefix_cons_inv_1 in Hp as He. apply prefix_cons_inv_2 in Hp. subst e.
      specialize (Hpre p Hp).
      change (ev :: p) with ([ev] ++ p). rewrite open_sessions_app. lia.
Qed.

(** C2.  Whatever the callers, the producer and the worker do, at most
    one recording session is open at any moment: in every prefix of the
    worker's trace, the files opened ([videoFile.reset(output)]) exceed
    the files closed by 0 or 1, and a session is open at the end exactly
    when [videoFile] is set.  A start request that runs while a session
    is open first runs a stop request, which always completes and leaves
    no session, and only then begins the new session. *)
Theorem one_session_at_a_time (ls : list Label) (r : CVideoRecorder) :
  run ls new_recorder = Done r →
  (∀ p, p `prefix_of` trace (worker r) → 0 ≤ open_sessions p ≤ 1)
  ∧ open_sessions (trace (worker r)) = (if session_open (worker r) then 1 else 0)
  ∧ (∀ filename width height _10bit highFPS codecID crf preset matchedStop env,
       session_open (worker r) = true →
       ∃ w1,
         run_CStopVideoRecordRequest true env
           (warn_unmatched_start matchedStop (worker r)) = Done w1
         ∧ videoFile w1 = None
         ∧ open_sessions (trace w1) = 0
         ∧ run_CStartVideoRecordRequest filename width height _10bit highFPS
             codecID crf preset matchedStop env (worker r)
           = try_open_session filename width height _10bit highFPS
               codecID crf preset env w1
         ∧ ∀ w2, try_open_session filename width height _10bit highFPS
                   codecID crf preset env w1 = Done w2 →
                 trace w1 `prefix_of` trace w2).
Proof.
  intros Hrun. apply run_extends in Hrun as (saves & evs & Htr & _ & Halt).
  cbn in Htr. apply alternates_bound in Halt as [Hsum Hpre]. cbn in Hsum, Hpre.
  rewrite Htr. split; [exact Hpre|]. split; [exact Hsum|].
  intros filename width height _10bit highFPS codecID crf preset matchedStop env Hopen.
  pose proof (warn_unmatched_start_extends matchedStop (worker r))
    as [(e0 & Ht0 & _ & Ha0) (_&_&_&Hv0&_)].
  set (w0 := warn_unmatched_start matchedStop (worker r)) in *.
  unfold session_open in Hopen. destruct (videoFile (worker r)) as [vf|] eqn:Hv; [|done].
  destruct (run_CStopVideoRecordRequest_with_file true env w0 vf) as [w1 Hstop];
    [congruence|].
  pose proof (run_CStopVideoRecordRequest_extends _ _ _ _ Hstop)
    as ((e1 & Ht1 & _ & Ha1) & Hv1 & _).
  exists w1. split; [done|]. split; [done|]. split; [|split].
  - apply alternates_bound in Ha0 as [S0 _], Ha1 as [S1 _].
    unfold session_open in S0, S1, Hsum.
    rewrite Hv0, Hv1 in S1. rewrite Hv0, Hv in S0. rewrite Hv in Hsum.
    rewrite Ht1, Ht0, Htr, !open_sessions_app. lia.
  - unfold run_CStartVideoRecordRequest. cbv zeta. fold w0.
    rewrite Hv0, Hstop. reflexivity.
  - intros w2 Ho. apply try_open_session_extends in Ho as ((e2 & Ht2 & _) & _); [|done].
    rewrite Ht2. by apply prefix_app_r.
Qed.

(** Two starts in a row, both executed: the second finds the session of
    the first open. *)
Lemma one_session_at_a_time_witness :
  ∃ r,
    run (effects (StartRecord [calm 0 0 (vga_frame None)] "a.mp4" 640 480 false false
                    H264 (-1) Default new_caller)
         ++ [WorkerTurn smooth]
         ++ effects (StartRecord [calm 0 0 (vga_frame None)] "b.mp4" 640 480 false false
                       H264 (-1) Default (recording_at 0))
         ++ [WorkerTurn smooth]) new_recorder = Done r
    ∧ (∀ p, p `prefix_of` trace (worker r) → 0 ≤ open_sessions p ≤ 1)
    ∧ open_sessions (trace (worker r)) = 1
    ∧ fmt_filename <$> videoFile (worker r) = Some "b.mp4".
Proof.
  eexists. split; [vm_compute; reflexivity|].
  match goal with
  | |- (∀ p, p `prefix_of` trace (worker ?r) → _) ∧ _ =>
      pose proof (one_session_at_a_time
                    (effects (StartRecord [calm 0 0 (vga_frame None)] "a.mp4" 640 480
                                false false H264 (-1) Default new_caller)
                     ++ [WorkerTurn smooth]
                     ++ effects (StartRecord [calm 0 0 (vga_frame None)] "b.mp4" 640 480
                                   false false H264 (-1) Default (recording_at 0))
                     ++ [WorkerTurn smooth]) r
                    ltac:(vm_compute; reflexivity)) as (H1 & H2 & _)
  end.
  split; [exact H1|]. split; [exact H2|reflexivity].
Defined.

(** * Order of execution *)










(** The three samples are encoded as 1, 1 and 3 frames (the third comes
    two and a half intervals after its deadline); the stop sends the
    destination frame once more before it writes the trailer. *)
Lemma three_samples_recorded :
  ∃ r,
    run three_samples new_recorder = Done r
    ∧ trace (worker r)
      = [Clog "Recording video a.mp4";
         EvOpenCodec {| ctx_codec := H264; ctx_width := 640; ctx_height := 480;
                        ctx_time_base_den := 30; ctx_pix_fmt := AV_PIX_FMT_YUV420P;
                        ctx_thread_count := 8 |};
         EvAllocOutput "a.mp4"; EvAvioOpen "a.mp4"; EvWriteHeader;
         EvSendFrame 0; EvWritePacket;
         EvSendFrame 1; EvWritePacket;
         EvSendFrame 2; EvWritePacket; EvSendFrame 3; EvWritePacket;
         EvSendFrame 4; EvWritePacket;
         EvSendFrame 5; EvWritePacket;
         EvWriteTrailer; EvAvioClose; EvFreeOutput;
         Clog "Video has been recorded."]
    ∧ (executed r).*1 = [0; 1; 2; 3; 4]%nat
    ∧ taskQueue r = [].
Proof. eexists. by_computation. Qed.

(** * Cancelling a frame request *)

Lemma find_if_skip {A} (pred : A → bool) (l1 l2 : list A) :
  Forall (λ x, pred x = false) l1 →
  find_if pred (l1 ++ l2) = (length l1 + find_if pred l2)%nat.
Proof.
  induction 1 as [|x l1 Hx _ IH]; [done|]. simpl. rewrite Hx, IH. done.
Qed.

Lemma find_if_none {A} (pred : A → bool) (l : list A) :
  Forall (λ x, pred x = false) l → find_if pred l = length l.
Proof.
  intros H. rewrite <- (app_nil_r l) at 1. rewrite find_if_skip by done.
  simpl. lia.
Qed.

Lemma Cancel_queue_found (this : nat) (q1 q2 : list (nat * ITask)) (t : nat * ITask) :
  Forall (λ x, cancel_pred this x = false) q1 →
  cancel_pred this t = true →
  Cancel_queue this (q1 ++ t :: q2) = q1 ++ q2.
Proof.
  intros H1 Ht. unfold Cancel_queue. rewrite find_if_skip by done.
  simpl. rewrite Ht, Nat.add_0_r.
  rewrite bool_decide_eq_false_2 by (rewrite length_app; simpl; lia).
  induction q1 as [|x q1 IH]; [done|]. simpl.
  apply Forall_cons in H1 as [_ H1]. by rewrite IH.
Qed.

Lemma Cancel_queue_absent (this : nat) (q : list (nat * ITask)) :
  Forall (λ x, cancel_pred this x = false) q →
  Cancel_queue this q = q.
Proof.
  intros H. unfold Cancel_queue. rewrite find_if_none by done.
  by rewrite bool_decide_eq_true_2.
Qed.

(** C4.  [Cancel] on a handle whose task is still queued removes that
    task from the recorder's queue, the first one in the queue that
    holds the handle, and leaves every other task in place and in order
    and the rest of the recorder as it was.  When no queued task holds
    the handle the recorder is unchanged; this is the case once the
    worker has popped the handle's task, whether it is still executing
    it or has executed it. *)
Theorem Cancel_removes_exactly_its_task
    (this : nat) (r : CVideoRecorder) (q1 q2 : list (nat * ITask)) (k : nat) :
  Forall (λ x, cancel_pred this x = false) q1 →
  (taskQueue r = q1 ++ (k, CFrameTask this) :: q2 →
   Cancel this r
   = {| worker := worker r; taskQueue := q1 ++ q2; finish := finish r;
        submitted := submitted r; executed := executed r |}
   ∧ step (FrameCancel this) r = Done (Cancel this r))
  ∧ (Forall (λ x, cancel_pred this x = false) (taskQueue r) →
     Cancel this r = r ∧ step (FrameCancel this) r = Done r)
  ∧ (∀ env r',
       taskQueue r = (k, CFrameTask this) :: q2 →
       Forall (λ x, cancel_pred this x = false) q2 →
       Process env r = Done r' →
       executed r' = executed r ++ [(k, CFrameTask this)] →
       Cancel this r' = r')
  ∧ (∀ b',
       taskQueue r = (k, CFrameTask this) :: q2 →
       Forall (λ x, cancel_pred this x = false) q2 →
       Process_pop (idle r) = Done b' →
       running b' = Some (k, CFrameTask this) →
       act (Cancels this) b' = Done b').
Proof.
  intros H1. split; [|split; [|split]].
  - intros Hq. split; [|done]. unfold Cancel, set_taskQueue. rewrite Hq.
    rewrite Cancel_queue_found; [done|done|].
    unfold cancel_pred. simpl. by apply bool_decide_eq_true_2.
  - intros Hno.
    assert (Cancel this r = r) as Hc.
    { unfold Cancel, set_taskQueue. rewrite Cancel_queue_absent by done.
      by destruct r. }
    split; [done|]. cbn [step]. by rewrite Hc.
  - intros env r' Hq H2 Hp He.
    apply Process_cases in Hp as [->|(k' & t & rest & w' & _ & Hq' & _ & _ & ->)].
    + exfalso. apply (f_equal length) in He. rewrite length_app in He. simpl in He. lia.
    + rewrite Hq in Hq'. simplify_eq. unfold Cancel, set_taskQueue. cbn.
      by rewrite Cancel_queue_absent.
  - intros b' Hq H2 Hp Hrun. unfold Process_pop, idle in Hp.
    cbn [running shared] in Hp. rewrite Hq in Hp.
    destruct (finish r); [simplify_eq; done|].
    destruct (task_ready _ _) as [[]|]; cbn [mbind outcome_bind] in Hp; simplify_eq.
    unfold act, on_shared, Cancel, set_taskQueue. cbn.
    by rewrite Cancel_queue_absent.
Qed.

Lemma Cancel_removes_exactly_its_task_witness :
  let q := [(0%nat, CStopVideoRecordRequest true); (1%nat, CFrameTask 5);
            (2%nat, CFrameTask 7); (3%nat, CFrameTask 9)] in
  let r := set_taskQueue q new_recorder in
  step (FrameCancel 7) r
  = Done (set_taskQueue [(0%nat, CStopVideoRecordRequest true); (1%nat, CFrameTask 5);
                         (3%nat, CFrameTask 9)] new_recorder)
  ∧ step (FrameCancel 7) (Cancel 7 r) = Done (Cancel 7 r).
Proof.
  intros q r.
  pose proof (Cancel_removes_exactly_its_task 7 r
                [(0%nat, CStopVideoRecordRequest true); (1%nat, CFrameTask 5)]
                [(3%nat, CFrameTask 9)] 2
                ltac:(repeat constructor)) as (H1 & _).
  destruct (H1 eq_refl) as [Hc Hs].
  split; [rewrite Hs, Hc; reflexivity|].
  pose proof (Cancel_removes_exactly_its_task 7 (Cancel 7 r) [] [] 0
                ltac:(constructor)) as (_ & H2 & _).
  apply H2. rewrite Hc. repeat constructor.
Defined.

(** * Frames without pixels, screenshots *)

(** C9.  A frame task whose handle answers a null pixel pointer writes
    the skip line and returns: nothing else happens, in particular no
    image is written for the screenshot paths attached to the frame,
    and the worker has popped the task, so they are not saved later
    either. *)
Theorem frame_without_pixels_is_skipped
    (srcFrame : nat) (fr : CFrame) (env : TaskEnv) (w : WorkerState) :
  frames w !! srcFrame = Some fr →
  pixels (frame_data fr) = None →
  run_CFrameTask srcFrame env w = Done (emit invalid_frame_line w)
  ∧ saved_paths (trace (emit invalid_frame_line w)) = saved_paths (trace w)
  ∧ ∀ r k rest,
      worker r = w → finish r = false →
      taskQueue r = (k, CFrameTask srcFrame) :: rest →
      frame_ready fr = true →
      Process env r
      = Done {| worker := emit invalid_frame_line w; taskQueue := rest;
                finish := false; submitted := submitted r;
                executed := executed r ++ [(k, CFrameTask srcFrame)] |}.
Proof.
  intros Hf Hp.
  assert (run_CFrameTask srcFrame env w = Done (emit invalid_frame_line w)) as Hrun.
  { unfold run_CFrameTask. rewrite Hf. cbn [deref mbind outcome_bind]. by rewrite Hp. }
  split; [done|]. split.
  - cbn [trace emit]. rewrite saved_paths_app. simpl. by rewrite app_nil_r.
  - intros r k rest Hw Hfin Hq Hready. unfold Process.
    rewrite Hfin, Hq. cbn [task_ready run_task]. rewrite Hw, Hf.
    cbn [deref mbind outcome_bind]. rewrite Hready, Hrun.
    cbn [mbind outcome_bind]. reflexivity.
Qed.

Lemma frame_without_pixels_is_skipped_witness :
  let fr := {| frame_screenshotPaths := ["shot.png"]; frame_videoPendingFrames := 1;
               frame_ready := true; frame_data := vga_frame None |} in
  let w := set_frames {[ 7%nat := fr ]} new_worker in
  run_CFrameTask 7 smooth w = Done (emit invalid_frame_line w)
  ∧ saved_paths (trace (emit invalid_frame_line w)) = [].
Proof.
  intros fr w.
  pose proof (frame_without_pixels_is_skipped 7 fr smooth w
                ltac:(vm_compute; reflexivity) eq_refl) as (H1 & H2 & _).
  split; [exact H1|exact H2].
Defined.

Lemma Screenshot_pushes (e : Env) (env : list Env) (path : string) (s : CallerState) :
  push_throws e = false →
  Screenshot (e :: env) path s
  = Returned (set_screenshotPaths (screenshotPaths s ++ [path]) s,
              [Enter OpScreenshot (status s)]).
Proof. intros H. cbn [Screenshot]. by rewrite H. Qed.

Lemma sample_pacing_stopped (tps : Z) (e : Env) (s : CallerState) :
  recordMode s = STOPPED → sample_pacing tps e s = (s, 0).
Proof. unfold sample_pacing. by intros ->. Qed.

(** C5 (amended).  Every path queued by [Screenshot] is appended to the
    recorder's queue; a call of [SampleFrame] that finds the queue
    non-empty invokes the callback and, when neither the callback nor
    the submission throws, queues a frame task whose frame holds all
    queued paths in their order and leaves the recorder's queue empty,
    also while the recorder is stopped and no video frame is pending.
    When that task executes with a non-null pixel pointer, the paths of
    the frame are gone through in order and each one whose path object
    and extension are built without an exception is handed to an image
    writer, whether or not a video session is open; with no session
    open the task always completes. *)
Theorem screenshots_attached_to_next_frame
    (tps : Z) (e : Env) (env : list Env) (s : CallerState) :
  submit_outcome (callback_throws e) e = Nothing →
  (∀ path, Screenshot (e :: env) path s
           = Returned (set_screenshotPaths (screenshotPaths s ++ [path]) s,
                       [Enter OpScreenshot (status s)]))
  ∧ (screenshotPaths s ≠ [] →
     ∃ s' pending,
       SampleFrame tps (e :: env) s
       = Returned (s', [Enter OpSampleFrame (status s);
                        RequestFrame pending (screenshotPaths s);
                        NewFrame (callback_handle e)
                          {| frame_screenshotPaths := screenshotPaths s;
                             frame_videoPendingFrames := pending;
                             frame_ready := false;
                             frame_data := callback_data e |};
                        PushBack (CFrameTask (callback_handle e))])
       ∧ screenshotPaths s' = []
       ∧ (recordMode s = STOPPED → pending = 0))
  ∧ (∀ srcFrame fr tenv w,
       frames w !! srcFrame = Some fr →
       pixels (frame_data fr) ≠ None →
       (∀ w', run_CFrameTask srcFrame tenv w = Done w' →
              saved_paths (trace w')
              = saved_paths (trace w) ++ written_paths tenv (frame_screenshotPaths fr))
       ∧ (Forall (λ path, path_extension tenv path ≠ None) (frame_screenshotPaths fr) →
          written_paths tenv (frame_screenshotPaths fr) = frame_screenshotPaths fr)
       ∧ (videoFile w = None →
          ∃ w', run_CFrameTask srcFrame tenv w = Done w' ∧ videoFile w' = None
                ∧ saved_paths (trace w')
                  = saved_paths (trace w)
                    ++ written_paths tenv (frame_screenshotPaths fr))).
Proof.
  intros Hok. split; [|split].
  - intros path. apply Screenshot_pushes.
    unfold submit_outcome, reported in Hok.
    destruct (callback_throws e || alloc_throws e), (lock_throws e), (push_throws e),
      (error_lock_throws e); done.
  - intros Hq. cbn [SampleFrame].
    destruct (sample_pacing tps e s) as [s1 n] eqn:Hp.
    pose proof (sample_pacing_frame _ _ _ _ _ Hp) as Hs1.
    assert (screenshotPaths s1 = screenshotPaths s) as Hq1 by (rewrite Hs1; done).
    assert (status s1 = status s) as Hst1 by (rewrite Hs1; done).
    rewrite Hq1, (bool_decide_eq_false_2 _ Hq), orb_true_r, Hok.
    eexists _, n. split; [reflexivity|]. split; [done|].
    intros Hm. rewrite sample_pacing_stopped in Hp by done. by simplify_eq.
  - intros srcFrame fr tenv w Hf Hpx.
    assert (∀ w', run_CFrameTask srcFrame tenv w = Done w' →
                  saved_paths (trace w')
                  = saved_paths (trace w)
                    ++ written_paths tenv (frame_screenshotPaths fr)) as Hsaved.
    { intros w' Hrun. apply run_CFrameTask_extends in Hrun as (fr' & Hf' & Hext).
      rewrite Hf in Hf'. simplify_eq.
      destruct (pixels (frame_data fr')); [|done].
      destruct Hext as (evs & -> & <- & _). apply saved_paths_app. }
    split; [done|]. split.
    + apply written_paths_all.
    + intros Hv.
      assert (∃ w', run_CFrameTask srcFrame tenv w = Done w' ∧ videoFile w' = None)
        as (w' & Hrun & Hv').
      { unfold run_CFrameTask. rewrite Hf. cbn [deref mbind outcome_bind].
        destruct (pixels (frame_data fr)); [|done].
        pose proof (save_screenshots_extends tenv (frame_screenshotPaths fr) w)
          as [_ (_&_&_&Hv1&_)].
        fields_cbn. rewrite Hv1, Hv. eexists. split; [reflexivity|]. fields. }
      exists w'. split; [done|]. split; [done|]. by apply Hsaved.
Qed.

(** Two screenshots requested while the recorder is stopped, then one
    sample, the producer's [Ready] and one turn of the worker. *)
Lemma screenshots_attached_to_next_frame_witness :
  let e := calm 0 7 (vga_frame (Some 1%N)) in
  ∃ s1 s2 s3 c1 c2 c3 r,
    Screenshot [e] "a.png" new_caller = Returned (s1, c1)
    ∧ Screenshot [e] "b.png" s1 = Returned (s2, c2)
    ∧ SampleFrame 1000000000 [e] s2 = Returned (s3, c3)
    ∧ pushed c3 = [CFrameTask 7]
    ∧ screenshotPaths s3 = []
    ∧ run ((Caller <$> c3) ++ [FrameReady 7; WorkerTurn smooth]) new_recorder = Done r
    ∧ saved_paths (trace (worker r)) = ["a.png"; "b.png"]
    ∧ videoFile (worker r) = None.
Proof.
  intros e.
  destruct (screenshots_attached_to_next_frame 1000000000 e []
              (set_screenshotPaths ["a.png"; "b.png"] new_caller) eq_refl)
    as (_ & H2 & _).
  destruct (H2 ltac:(discriminate)) as (s3 & pending & Hs & Hq & Hp).
  specialize (Hp eq_refl). subst pending.
  do 7 eexists.
  split; [vm_compute; reflexivity|].
  split; [vm_compute; reflexivity|].
  split; [exact Hs|].
  split; [reflexivity|]. split; [exact Hq|].
  split; [vm_compute; reflexivity|].
  split; vm_compute; reflexivity.
Defined.

(** The paths are moved into the tuple before the callback runs: when
    the callback throws they are gone, and the retry, which finds
    nothing pending, queues no task. *)
Lemma screenshots_lost_when_callback_throws :
  let thrown := {| clock_now := 0; callback_throws := true; callback_handle := 7%nat;
                   callback_data := vga_frame (Some 1%N); alloc_throws := false;
                   lock_throws := false; push_throws := false;
                   error_lock_throws := false |} in
  ∃ s' cmds,
    SampleFrame 1000000000 [thrown; calm 0 7 (vga_frame (Some 1%N))]
      (set_screenshotPaths ["a.png"] new_caller) = Returned (s', cmds)
    ∧ screenshotPaths s' = []
    ∧ pushed cmds = [].
Proof. do 2 eexists. by_computation. Qed.

(** C5, as stated, fails: the screenshot attached to a frame whose
    handle answers a null pixel pointer is not saved when the frame
    task executes. *)
Lemma screenshot_lost_with_invalid_frame :
  let e := calm 0 7 (vga_frame None) in
  ∃ s1 s2 c1 c2 r,
    Screenshot [e] "a.png" new_caller = Returned (s1, c1)
    ∧ SampleFrame 1000000000 [e] s1 = Returned (s2, c2)
    ∧ pushed c2 = [CFrameTask 7]
    ∧ run ((Caller <$> c2) ++ [FrameReady 7; WorkerTurn smooth]) new_recorder = Done r
    ∧ executed r = [(0%nat, CFrameTask 7)]
    ∧ taskQueue r = []
    ∧ saved_paths (trace (worker r)) = []
    ∧ trace (worker r) = [invalid_frame_line].
Proof.
  intros e. do 5 eexists. by_computation.
Qed.

(** * Stopping without a session, dimensions *)

Lemma StartRecordImpl_recordMode (env : list Env)
    (width height : Z) (_10bit highFPS : bool)
    (codec : Codec) (crf : Z) (preset : Preset) :
  ∀ (filename : string) (task : option ITask) (s s' : CallerState) (cmds : list Cmd),
    StartRecordImpl env filename width height _10bit highFPS codec crf preset task s
    = Returned (s', cmds) →
    pushed cmds ≠ [] → recordMode s' ≠ STOPPED.
Proof.
  induction env as [|e env IH]; intros filename task s s' cmds; [done|].
  cbn [StartRecordImpl].
  assert (∀ filename',
            match reported e with
            | SystemError => Aborted
            | _ =>
                match status s with
                | OK => retry_with RETRY
                          [Enter OpStartRecord (status s);
                           ErrorCall (status s) "Fail to start video record "]
                          (StartRecordImpl env filename' width height _10bit highFPS
                             codec crf preset None) s
                | _ => Returned (s, [Enter OpStartRecord (status s);
                                     ErrorCall (status s) "Fail to start video record "])
                end
            end = Returned (s', cmds) →
            pushed cmds ≠ [] → recordMode s' ≠ STOPPED) as Hfail.
  { intros filename'. destruct (reported e); [| |done];
      (destruct (status s); [|intros; simplify_eq; done..]);
      unfold retry_with;
      (destruct (StartRecordImpl env _ _ _ _ _ _ _ _ _ _) as [[s2 c2]| |] eqn:Hr;
         [|done..]);
      intros Heq Hp; injection Heq as <- <-; simpl in Hp;
      apply IH in Hr; done. }
  destruct task as [t|].
  - destruct (lock_throws e); [done|]. destruct (push_throws e); [apply Hfail|].
    intros; simplify_eq. by destruct highFPS.
  - destruct (alloc_throws e); [apply Hfail|].
    destruct (lock_throws e); [done|]. destruct (push_throws e); [apply Hfail|].
    intros; simplify_eq. by destruct highFPS.
Qed.

(** A start request does not survive a failing [avcodec_open2]: no
    file is open at that point, whatever the state it was started in,
    and [Cleanup] reads [videoFile->pb]. *)
Lemma failed_codec_open_reads_null_videoFile
    (filename : string) (width height : Z) (_10bit highFPS : bool)
    (codecID : Codec) (crf : Z) (preset : Preset) (matchedStop : bool)
    (env : TaskEnv) (w : WorkerState) :
  codecID ≠ CodecOther →
  find_encoder_null env = false →
  alloc_context3_null env = false →
  avcodec_open2 env ≠ 0 →
  run_CStartVideoRecordRequest filename width height _10bit highFPS codecID crf
    preset matchedStop env w = Fails NullDereference.
Proof.
  intros Hcodec Hfind Halloc Hopen.
  assert (∀ w1, videoFile w1 = None →
                try_open_session filename width height _10bit highFPS codecID crf
                  preset env w1 = Fails NullDereference) as Htry.
  { intros w1 Hv. unfold try_open_session, open_session.
    rewrite Hfind, Halloc.
    destruct (Z.eqb_spec (avcodec_open2 env) 0) as [|_]; [done|]. cbn [negb].
    destruct codecID; [| |done]; apply Cleanup_without_file; fields. }
  unfold run_CStartVideoRecordRequest.
  pose proof (warn_unmatched_start_extends matchedStop w) as [_ (_&_&_&Hv0&_)].
  set (w0 := warn_unmatched_start matchedStop w) in *. clearbody w0.
  destruct (videoFile w0) as [vf|] eqn:Hv.
  - destruct (run_CStopVideoRecordRequest_with_file true env w0 vf Hv) as [w1 Hstop].
    rewrite Hstop. cbn [mbind outcome_bind].
    apply run_CStopVideoRecordRequest_extends in Hstop as (_ & Hv1 & _). auto.
  - cbn [mbind outcome_bind]. auto.
Qed.

(** C6 (amended).  A stop request that runs while no session is open
    performs no I/O and changes nothing but the log: it returns the
    worker's state as it found it, after one warning line exactly when
    its [matchedStart] flag is false.  The flag records whether the
    recorder was recording when [StopRecord] was called, not whether a
    session is open: the stop request queued by a [StopRecord] that
    follows a successful [StartRecord] carries [true] and writes
    nothing. *)
Theorem stop_without_session_does_nothing (env : TaskEnv) (w : WorkerState) :
  videoFile w = None →
  (∀ matchedStart,
     run_CStopVideoRecordRequest matchedStart env w
     = Done (if matchedStart then w else emit unmatched_stop_line w))
  ∧ (∀ e rest s,
       submit_outcome false e = Nothing →
       StopRecord (e :: rest) s
       = Returned (set_recordMode STOPPED s,
                   [Enter OpStopRecord (status s);
                    PushBack (CStopVideoRecordRequest
                                (negb (bool_decide (recordMode s = STOPPED))))]))
  ∧ (∀ envs filename width height _10bit highFPS codec crf preset s s1 c1 e rest,
       StartRecord envs filename width height _10bit highFPS codec crf preset s
       = Returned (s1, c1) →
       pushed c1 ≠ [] →
       submit_outcome false e = Nothing →
       ∃ s2 c2, StopRecord (e :: rest) s1 = Returned (s2, c2)
                ∧ pushed c2 = [CStopVideoRecordRequest true]
                ∧ run_task (CStopVideoRecordRequest true) env w = Done w).
Proof.
  intros Hv. split; [|split].
  - intros m. by apply run_CStopVideoRecordRequest_without_file.
  - intros e rest s Hok. cbn [StopRecord]. by rewrite Hok.
  - intros envs filename width height _10bit highFPS codec crf preset s s1 c1 e rest
      Hstart Hpush Hok.
    apply StartRecordImpl_recordMode in Hstart; [|done].
    cbn [StopRecord]. rewrite Hok. do 2 eexists. split; [reflexivity|].
    rewrite bool_decide_eq_false_2 by done. split; [reflexivity|].
    cbn [run_task]. by rewrite run_CStopVideoRecordRequest_without_file.
Qed.

Lemma stop_without_session_does_nothing_witness :
  run_CStopVideoRecordRequest true codec_open_fails new_worker = Done new_worker
  ∧ run_CStopVideoRecordRequest false codec_open_fails new_worker
    = Done (emit unmatched_stop_line new_worker).
Proof.
  pose proof (stop_without_session_does_nothing codec_open_fails new_worker eq_refl)
    as (H & _).
  split; [exact (H true)|exact (H false)].
Defined.

(** C6, as stated, fails: [StartRecord] then [StopRecord], with
    [avcodec_open2] failing on the worker.  The stop request carries
    [matchedStart = true]; run with no session open it writes no
    warning (and nothing else).  It is not even reached in this run:
    the failure path of the start request calls [Cleanup], which reads
    [videoFile->pb] through the null [videoFile]. *)
Lemma stop_after_failed_start_writes_no_warning :
  ∃ s1 s2 c1 c2 start,
    StartRecord [calm 0 0 (vga_frame None)] "a.mp4" 640 480 false false
      H264 (-1) Default new_caller = Returned (s1, c1)
    ∧ StopRecord [calm 0 0 (vga_frame None)] s1 = Returned (s2, c2)
    ∧ pushed c1 = [start]
    ∧ pushed c2 = [CStopVideoRecordRequest true]
    ∧ run_task (CStopVideoRecordRequest true) codec_open_fails new_worker
      = Done new_worker
    ∧ trace new_worker = []
    ∧ run_task start codec_open_fails new_worker = Fails NullDereference
    ∧ run ((Caller <$> c1) ++ (Caller <$> c2)
           ++ [WorkerTurn codec_open_fails; WorkerTurn codec_open_fails]) new_recorder
      = Fails NullDereference.
Proof.
  do 5 eexists. by_computation.
Qed.

(** ** Dimensions *)

Lemma to_unsigned_lnot_1 : to_unsigned (Z.lnot 1) = 4294967294.
Proof. reflexivity. Qed.

Lemma land_clears_bit_0 (n : Z) :
  0 ≤ n < 2 ^ 32 → Z.land n (to_unsigned (Z.lnot 1)) = round_down_even n.
Proof.
  intros Hn. rewrite to_unsigned_lnot_1.
  change 4294967294 with (Z.land (Z.ones 32) (Z.lnot 1)).
  rewrite Z.land_assoc, Z.land_ones by lia.
  rewrite Z.mod_small by lia.
  rewrite <- Z.sub_land_same_l.
  change 1 with (Z.ones 1). rewrite Z.land_ones by lia.
  unfold round_down_even. change (2 ^ 1) with 2.
  pose proof (Z.div_mod n 2 ltac:(lia)). lia.
Qed.

Lemma to_int_small (z : Z) : 0 ≤ z < 2 ^ 31 → to_int z = z.
Proof.
  intros Hz. unfold to_int. rewrite Z.mod_small by lia.
  destruct (Z.ltb_spec z (2 ^ 31)); lia.
Qed.

Lemma round_down_even_bounds (n : Z) :
  round_down_even n ≤ n < round_down_even n + 2 ∧ Z.even (round_down_even n) = true.
Proof.
  unfold round_down_even. split.
  - pose proof (Z.div_mod n 2 ltac:(lia)). pose proof (Z.mod_pos_bound n 2 ltac:(lia)). lia.
  - by rewrite Z.even_mul.
Qed.

(** C8 (amended).  For a width and a height below 2^31, a start request
    that opens a session leaves the encoder context with the width and
    the height rounded down to an even number, and the destination
    frame with the same two values.  (The fields are [int]: a value of
    2^31 or more is stored as the rounded value minus 2^32.) *)
Theorem start_rounds_dimensions_down_to_even
    (filename : string) (width height : Z) (_10bit highFPS : bool)
    (codecID : Codec) (crf : Z) (preset : Preset) (matchedStop : bool)
    (env : TaskEnv) (w w' : WorkerState) :
  0 ≤ width < 2 ^ 31 →
  0 ≤ height < 2 ^ 31 →
  run_CStartVideoRecordRequest filename width height _10bit highFPS codecID crf
    preset matchedStop env w = Done w' →
  videoFile w' ≠ None →
  ∃ ctx frm,
    context w' = Some ctx ∧ dstFrame w' = Some frm
    ∧ ctx_width ctx = round_down_even width
    ∧ ctx_height ctx = round_down_even height
    ∧ frm_width frm = round_down_even width
    ∧ frm_height frm = round_down_even height
    ∧ (round_down_even width ≤ width < round_down_even width + 2
       ∧ Z.even (round_down_even width) = true)
    ∧ (round_down_even height ≤ height < round_down_even height + 2
       ∧ Z.even (round_down_even height) = true).
Proof.
  intros Hw Hh Hrun Hopen.
  apply run_CStartVideoRecordRequest_extends in Hrun as (_ & _ & Hc).
  destruct (Hc Hopen) as [Hctx Hfrm].
  do 2 eexists. split; [exact Hctx|]. split; [exact Hfrm|].
  pose proof (round_down_even_bounds width) as Bw.
  pose proof (round_down_even_bounds height) as Bh.
  assert (0 ≤ round_down_even width ∧ 0 ≤ round_down_even height) as [Pw Ph].
  { unfold round_down_even.
    pose proof (Z.div_pos width 2 ltac:(lia) ltac:(lia)).
    pose proof (Z.div_pos height 2 ltac:(lia) ltac:(lia)). lia. }
  cbn [codec_context destination_frame ctx_width ctx_height frm_width frm_height].
  rewrite !land_clears_bit_0 by lia.
  rewrite !to_int_small by lia. done.
Qed.

Lemma start_rounds_dimensions_down_to_even_witness :
  ∃ w' ctx frm,
    run_CStartVideoRecordRequest "a.mp4" 641 481 false false H264 (-1) Default true
      smooth new_worker = Done w'
    ∧ context w' = Some ctx ∧ dstFrame w' = Some frm
    ∧ ctx_width ctx = 640 ∧ ctx_height ctx = 480
    ∧ frm_width frm = 640 ∧ frm_height frm = 480.
Proof.
  eexists.
  match goal with
  | |- ∃ ctx frm, ?run = Done ?w' ∧ _ =>
      destruct (start_rounds_dimensions_down_to_even "a.mp4" 641 481 false false
                  H264 (-1) Default true smooth new_worker w'
                  ltac:(lia) ltac:(lia) ltac:(vm_compute; reflexivity)
                  ltac:(vm_compute; discriminate))
        as (ctx & frm & H1 & H2 & H3 & H4 & H5 & H6 & _)
  end.
  exists ctx, frm. split; [vm_compute; reflexivity|].
  split; [exact H1|]. split; [exact H2|].
  split; [exact H3|]. split; [exact H4|]. split; [exact H5|exact H6].
Defined.

(** C8, as stated, fails: for the width 2^32 - 1 the context of the
    opened session holds -2, not 4294967294. *)
Lemma start_with_huge_width_stores_negative :
  ∃ w' ctx frm,
    run_CStartVideoRecordRequest "a.mp4" 4294967295 480 false false H264 (-1)
      Default true smooth new_worker = Done w'
    ∧ videoFile w' ≠ None
    ∧ context w' = Some ctx ∧ dstFrame w' = Some frm
    ∧ ctx_width ctx = -2 ∧ frm_width frm = -2
    ∧ round_down_even 4294967295 = 4294967294.
Proof.
  do 3 eexists. by_computation.
Qed.

(** * Further properties of the calling thread's functions *)

Lemma pushed_app (a b : list Cmd) : pushed (a ++ b) = pushed a ++ pushed b.
Proof.
  induction a as [|c a IH]; [done|]. destruct c; simpl; rewrite ?IH; done.
Qed.

Lemma AdvanceFrame_bounds (tps FPS now : Z) (s : CallerState) :
  0 < tps → 0 < FPS → nextFrame s ≤ now →
  pacing_fits tps FPS (nextFrame s) now = true →
  1 ≤ (AdvanceFrame tps FPS now s).2
  ∧ now ≤ nextFrame (AdvanceFrame tps FPS now s).1
  ∧ (nextFrame (AdvanceFrame tps FPS now s).1 - now) * FPS ≤ tps.
Proof.
  intros Ht HF Hd Hfit.
  pose proof (AdvanceFrame_fits tps FPS now s Ht HF Hfit) as Ha. cbv zeta in Ha.
  destruct Ha as [-> Hrep].
  cbn [fst snd nextFrame set_nextFrame]. rewrite (wrap64_fits _ Hrep).
  set (d := now - nextFrame s). assert (0 ≤ d) as Hd0 by (subst d; lia).
  rewrite (Z.quot_div_nonneg (d * FPS) tps) by nia.
  set (q := d * FPS / tps).
  assert (0 ≤ q) as Hq by (apply Z.div_pos; nia).
  rewrite Z.quot_div_nonneg by nia.
  pose proof (Z.div_mod (d * FPS) tps ltac:(lia)) as E1.
  pose proof (Z.mod_pos_bound (d * FPS) tps Ht) as B1.
  pose proof (Z.div_mod ((q + 1) * tps) FPS ltac:(lia)) as E2.
  pose proof (Z.mod_pos_bound ((q + 1) * tps) FPS HF) as B2.
  fold q in E1. set (m := (q + 1) * tps / FPS) in *.
  split; [lia|]. split; nia.
Qed.

(** What pacing does when nothing is due. *)
Lemma sample_pacing_not_due (tps : Z) (e : Env) (s : CallerState) :
  recordMode s = STOPPED ∨ clock_now e < nextFrame s →
  sample_pacing tps e s = (s, 0).
Proof.
  unfold sample_pacing. intros [->|Hlt]; [done|].
  destruct (recordMode s); [done| |];
    (destruct (Z.leb_spec (nextFrame s) (clock_now e)); [lia|done]).
Qed.

Lemma sample_pacing_count (tps : Z) (e : Env) (s s' : CallerState) (n : Z) :
  0 < tps → sample_fits tps s e = true → sample_pacing tps e s = (s', n) →
  0 ≤ n ∧ nextFrame s ≤ nextFrame s' ∧ (n = 0 → s' = s).
Proof.
  intros Ht. unfold sample_pacing, sample_fits.
  destruct (recordMode s) eqn:Em; [intros; simplify_eq; done| |];
    (destruct (Z.leb_spec (nextFrame s) (clock_now e)) as [Hd|Hd];
     [|intros; simplify_eq; done]);
    cbn [negb orb]; intros Hfit Ha;
    match type of Ha with
    | AdvanceFrame _ ?F _ _ = _ =>
        pose proof (AdvanceFrame_bounds tps F (clock_now e) s Ht
                      ltac:(done) Hd Hfit) as (B1 & B2 & _)
    end;
    rewrite Ha in B1, B2; cbn [fst snd] in B1, B2;
    (split; [lia|]); (split; [lia|]); intros ->; lia.
Qed.

(** Whether pacing stays in range depends on the mode and the deadline
    only. *)
Lemma sample_fits_same (tps : Z) (s1 s2 : CallerState) (e : Env) :
  recordMode s1 = recordMode s2 → nextFrame s1 = nextFrame s2 →
  sample_fits tps s1 e = sample_fits tps s2 e.
Proof. unfold sample_fits. by intros -> ->. Qed.

(** X1.  Pacing asks for a frame exactly when the recorder is recording
    and the clock has reached the deadline.  Then, within the range of
    the 64-bit clock, it asks for at least one frame and moves the
    deadline to the first frame boundary that is not in the past: not
    before the clock reading, and at most one frame interval after it.
    Otherwise it asks for none and leaves the recorder alone. *)
Theorem sample_pacing_deadline_bounds (tps : Z) (e : Env) (s : CallerState) :
  0 < tps →
  let s' := (sample_pacing tps e s).1 in
  let n := (sample_pacing tps e s).2 in
  (recordMode s ≠ STOPPED → nextFrame s ≤ clock_now e →
   sample_fits tps s e = true →
   1 ≤ n
   ∧ clock_now e ≤ nextFrame s'
   ∧ (nextFrame s' - clock_now e) * frame_rate (recordMode s) ≤ tps
   ∧ s' = set_nextFrame (nextFrame s') s)
  ∧ (recordMode s = STOPPED ∨ clock_now e < nextFrame s → n = 0 ∧ s' = s).
Proof.
  intros Ht s' n. split.
  - intros Hm Hd Hfit. subst s' n.
    assert (sample_pacing tps e s
            = AdvanceFrame tps (frame_rate (recordMode s)) (clock_now e) s) as Hp.
    { unfold sample_pacing.
      destruct (recordMode s); [done| |];
        (destruct (Z.leb_spec (nextFrame s) (clock_now e)); [done|lia]). }
    assert (pacing_fits tps (frame_rate (recordMode s)) (nextFrame s) (clock_now e)
            = true) as Hfit'.
    { unfold sample_fits in Hfit.
      destruct (recordMode s); [done| |];
        (destruct (Z.leb_spec (nextFrame s) (clock_now e)); [exact Hfit|lia]). }
    rewrite Hp.
    pose proof (AdvanceFrame_bounds tps (frame_rate (recordMode s)) (clock_now e) s Ht
                  ltac:(by destruct (recordMode s)) Hd Hfit') as (B1 & B2 & B3).
    split; [done|]. split; [done|]. split; [done|].
    rewrite <- Hp. apply (sample_pacing_frame tps e s _ (sample_pacing tps e s).2).
    by destruct (sample_pacing tps e s).
  - intros Hno. subst s' n. by rewrite sample_pacing_not_due.
Qed.

Lemma sample_pacing_deadline_bounds_witness :
  sample_pacing 1000000000 (calm 50000000 1 (vga_frame (Some 1%N))) (recording_at 0)
  = (set_nextFrame 66666666 (recording_at 0), 2)
  ∧ 50000000 ≤ 66666666
  ∧ (66666666 - 50000000) * frame_rate LOW_FPS ≤ 1000000000
  ∧ sample_pacing 1000000000 (calm 50000000 1 (vga_frame (Some 1%N)))
      (recording_at 60000000)
    = (recording_at 60000000, 0).
Proof.
  split; [reflexivity|].
  destruct (sample_pacing_deadline_bounds 1000000000
              (calm 50000000 1 (vga_frame (Some 1%N))) (recording_at 0) ltac:(lia))
    as [H _].
  destruct (H ltac:(discriminate) ltac:(vm_compute; discriminate) eq_refl)
    as (_ & H1 & H2 & _).
  split; [exact H1|]. split; [exact H2|].
  destruct (sample_pacing_deadline_bounds 1000000000
              (calm 50000000 1 (vga_frame (Some 1%N))) (recording_at 60000000)
              ltac:(lia)) as [_ H'].
  destruct (H' ltac:(right; vm_compute; reflexivity)) as [Hn Hs].
  destruct (sample_pacing _ _ _) as [s1 n1]. cbn [fst snd] in Hn, Hs. by subst.
Defined.

(** X2.  Within the range of the 64-bit clock, [SampleFrame] invokes the
    callback only for work that exists: every frame request carries a
    count of pending video frames that is not negative, and one with no
    pending video frame carries at least one screenshot path.  This
    holds for the retry as well. *)
Theorem SampleFrame_requests_only_work (tps : Z) (env : list Env)
    (s s' : CallerState) (cmds : list Cmd) :
  0 < tps →
  Forall (λ e, sample_fits tps s e = true) env →
  SampleFrame tps env s = Returned (s', cmds) →
  Forall (λ c, worthwhile c = true) cmds.
Proof.
  intros Ht. revert s s' cmds.
  induction env as [|e env IH]; intros s s' cmds Hfits; [done|].
  apply Forall_cons in Hfits as [Hfit Hfits].
  rewrite SampleFrame_cons. cbv zeta.
  destruct (sample_pacing tps e s) as [s1 n] eqn:Hp. cbn [fst snd].
  destruct (sample_pacing_count _ _ _ _ _ Ht Hfit Hp) as (Hn & _ & _).
  destruct (negb (n =? 0) || negb (bool_decide (screenshotPaths s = []))) eqn:Hc.
  2:{ intros; simplify_eq. repeat constructor. }
  assert (worthwhile (RequestFrame n (screenshotPaths s)) = true) as Hw.
  { cbn [worthwhile]. destruct (Z.eqb_spec n 0) as [->|Hn0]; cbn [negb orb] in Hc.
    - rewrite Hc. reflexivity.
    - destruct (Z.ltb_spec 0 n); [done|lia]. }
  destruct (submit_outcome (callback_throws e) e); [| |done].
  - intros; simplify_eq. repeat constructor. exact Hw.
  - destruct (status s).
    + unfold retry_with.
      destruct (SampleFrame tps env _) as [[s4 c4]| |] eqn:Hr; [|done..].
      intros; simplify_eq. apply IH in Hr.
      * cbn [app]. do 3 (constructor; [first [exact Hw|reflexivity]|]). exact Hr.
      * eapply Forall_impl; [exact Hfits|]. intros e' He'. cbn beta in *.
        rewrite <- He'. by apply sample_fits_same.
    + intros; simplify_eq. repeat constructor. exact Hw.
    + intros; simplify_eq. repeat constructor. exact Hw.
Qed.

Lemma SampleFrame_requests_only_work_witness :
  ∃ s' cmds,
    SampleFrame 1000000000 [out_of_memory 0; calm 0 7 (vga_frame (Some 1%N))]
      (set_screenshotPaths ["shot.png"] new_caller) = Returned (s', cmds)
    ∧ cmds = [Enter OpSampleFrame OK; RequestFrame 0 ["shot.png"];
              ErrorCall OK "Fail to sample frame"; Enter OpSampleFrame RETRY]
    ∧ Forall (λ c, worthwhile c = true) cmds.
Proof.
  eexists _, _. split; [vm_compute; reflexivity|]. split; [reflexivity|].
  exact (SampleFrame_requests_only_work 1000000000
           [out_of_memory 0; calm 0 7 (vga_frame (Some 1%N))]
           (set_screenshotPaths ["shot.png"] new_caller) _ _ ltac:(lia)
           ltac:(repeat constructor) eq_refl).
Defined.

(** [SampleFrame] changes neither the record mode nor the status it was
    called with, and queues frame tasks only. *)
Lemma SampleFrame_frame (tps : Z) (env : list Env) :
  ∀ (s s' : CallerState) (cmds : list Cmd),
    SampleFrame tps env s = Returned (s', cmds) →
    recordMode s' = recordMode s
    ∧ status s' = status s
    ∧ Forall (λ t, ∃ f, t = CFrameTask f) (pushed cmds).
Proof.
  induction env as [|e env IH]; intros s s' cmds; [done|].
  rewrite SampleFrame_cons. cbv zeta.
  destruct (sample_pacing tps e s) as [s1 n] eqn:Hp. cbn [fst snd].
  pose proof (sample_pacing_frame _ _ _ _ _ Hp) as Hs1.
  assert (recordMode s1 = recordMode s ∧ status s1 = status s) as [Hm1 Hst1]
    by (rewrite Hs1; done).
  destruct (negb (n =? 0) || negb (bool_decide (screenshotPaths s = []))).
  2:{ intros; simplify_eq. repeat split; auto. }
  destruct (submit_outcome (callback_throws e) e); [| |done].
  - intros; simplify_eq. cbn. repeat split; auto. repeat constructor. by eexists.
  - destruct (status s) eqn:Est.
    + unfold retry_with.
      destruct (SampleFrame tps env _) as [[s4 c4]| |] eqn:Hr; [|done..].
      intros; simplify_eq. apply IH in Hr as (H2 & H3 & H5).
      cbn in H2, H3 |- *.
      split; [congruence|]. split; [congruence|]. exact H5.
    + intros; simplify_eq. cbn. repeat split; auto.
    + intros; simplify_eq. cbn. repeat split; auto.
Qed.



(** ** Start, stop, screenshot *)

Lemma StartRecord_outcome (env : list Env)
    (filename : string) (width height : Z) (_10bit highFPS : bool)
    (codec : Codec) (crf : Z) (preset : Preset)
    (s s' : CallerState) (cmds : list Cmd) :
  StartRecord env filename width height _10bit highFPS codec crf preset s
  = Returned (s', cmds) →
  (pushed cmds
   = [CStartVideoRecordRequest (if request_lost env then EmptyString else filename)
        width height _10bit highFPS codec crf preset
        (bool_decide (recordMode s = STOPPED))]
   ∧ ∃ e, e ∈ env
          ∧ s' = set_nextFrame (clock_now e)
                   (set_recordMode (if highFPS then HIGH_FPS else LOW_FPS) s))
  ∨ (pushed cmds = [] ∧ s' = s).
Proof.
  unfold StartRecord. destruct env as [|e1 env]; [done|].
  destruct (status s) eqn:Est.
  - (* the first attempt, and its retry if it fails *)
    cbn [StartRecordImpl request_lost]. rewrite Est. unfold reported.
    destruct (alloc_throws e1) eqn:Ha; cbn [negb andb].
    + destruct (error_lock_throws e1); [done|]. unfold retry_with.
      destruct env as [|e2 env]; [done|].
      rewrite StartRecordImpl_under_retry by done.
      destruct (submit_outcome false e2); [| |done]; intros; simplify_eq.
      * left. split; [done|]. exists e2. split; [set_solver|].
        destruct s; cbn in *; by subst.
      * right. split; [done|]. destruct s; cbn in *; by subst.
    + destruct (lock_throws e1); [done|].
      destruct (push_throws e1).
      * destruct (error_lock_throws e1); [done|]. unfold retry_with.
        destruct env as [|e2 env]; [done|].
        rewrite StartRecordImpl_under_retry by done.
        destruct (submit_outcome false e2); [| |done]; intros; simplify_eq.
        -- left. split; [done|]. exists e2. split; [set_solver|].
           destruct s; cbn in *; by subst.
        -- right. split; [done|]. destruct s; cbn in *; by subst.
      * intros; simplify_eq. left. split; [done|]. exists e1. split; [set_solver|done].
  - rewrite StartRecordImpl_under_retry by (rewrite Est; done).
    unfold submit_outcome, reported, request_lost. cbn [orb].
    destruct (alloc_throws e1), (lock_throws e1), (push_throws e1),
      (error_lock_throws e1); intros; simplify_eq;
      first [by right | left; split; [done|]; exists e1; split; [set_solver|done]].
  - rewrite StartRecordImpl_under_retry by (rewrite Est; done).
    unfold submit_outcome, reported, request_lost. cbn [orb].
    destruct (alloc_throws e1), (lock_throws e1), (push_throws e1),
      (error_lock_throws e1); intros; simplify_eq;
      first [by right | left; split; [done|]; exists e1; split; [set_solver|done]].
Qed.

(** X4.  [StartRecord] is all or nothing, but what it queues is not
    always what it was asked for.  When it returns, either exactly one
    start request has been queued, with the parameters of the call, a
    [matchedStop] flag that is true exactly if the recorder was stopped,
    the mode set to the requested one and the deadline to a clock
    reading of the call; or nothing has been queued and the caller's
    state is what it was.  The file name of the queued request is the
    one of the call unless the first attempt created its request and
    lost it in a failing [push_back]: then the retry queues a request
    with the empty file name. *)
Theorem StartRecord_all_or_nothing (env : list Env)
    (filename : string) (width height : Z) (_10bit highFPS : bool)
    (codec : Codec) (crf : Z) (preset : Preset)
    (s s' : CallerState) (cmds : list Cmd) :
  StartRecord env filename width height _10bit highFPS codec crf preset s
  = Returned (s', cmds) →
  (pushed cmds
   = [CStartVideoRecordRequest (if request_lost env then EmptyString else filename)
        width height _10bit highFPS codec crf preset
        (bool_decide (recordMode s = STOPPED))]
   ∧ ∃ e, e ∈ env
          ∧ s' = set_nextFrame (clock_now e)
                   (set_recordMode (if highFPS then HIGH_FPS else LOW_FPS) s))
  ∨ (pushed cmds = [] ∧ s' = s).
Proof. apply StartRecord_outcome. Qed.

Lemma StartRecord_all_or_nothing_witness :
  ∃ s' cmds,
    StartRecord [out_of_memory 5; calm 9 0 (vga_frame None)] "a.mp4" 640 480 false true
      H264 (-1) Default (recording_at 0) = Returned (s', cmds)
    ∧ pushed cmds = [CStartVideoRecordRequest EmptyString 640 480 false true H264 (-1)
                       Default false]
    ∧ s' = set_nextFrame 9 (set_recordMode HIGH_FPS (recording_at 0)).
Proof.
  eexists _, _. split; [vm_compute; reflexivity|].
  destruct (StartRecord_all_or_nothing
              [out_of_memory 5; calm 9 0 (vga_frame None)] "a.mp4" 640 480 false true
              H264 (-1) Default (recording_at 0) _ _ eq_refl)
    as [(H1 & _)|(H1 & _)]; [|discriminate H1].
  split; [exact H1|reflexivity].
Defined.

Lemma StopRecord_outcome (env : list Env) :
  ∀ (s s' : CallerState) (cmds : list Cmd),
    StopRecord env s = Returned (s', cmds) →
    (pushed cmds = [CStopVideoRecordRequest (negb (bool_decide (recordMode s = STOPPED)))]
     ∧ s' = set_recordMode STOPPED s)
    ∨ (pushed cmds = [] ∧ s' = s
       ∧ (status s = OK → ErrorCall CLEAN "Fail to stop video record" ∈ cmds)).
Proof.
  induction env as [|e env IH]; intros s s' cmds; [done|].
  cbn [StopRecord].
  destruct (submit_outcome false e); [| |done].
  - intros; simplify_eq. by left.
  - destruct (status s) eqn:Est;
      [|intros; simplify_eq; right; repeat split; done..].
    unfold retry_with.
    destruct (StopRecord env _) as [[s5 c5]| |] eqn:Hr; [|done..].
    intros; simplify_eq.
    pose proof Hr as Hr'. apply IH in Hr' as [(Hp & ->)|(Hp & -> & _)].
    + left. cbn [pushed app]. rewrite Hp. split; [done|].
      destruct s; cbn in *; subst; reflexivity.
    + right. cbn [pushed app]. rewrite Hp. split; [done|].
      split; [destruct s; cbn in *; subst; reflexivity|].
      intros _. destruct env as [|e' env']; [done|].
      cbn [StopRecord] in Hr.
      destruct (submit_outcome false e'); [| |done];
        cbn [status set_status] in Hr; simplify_eq.
      all: try (cbn in Hp; discriminate Hp).
      all: repeat first [apply list_elem_of_here | apply list_elem_of_further].
Qed.

(** X5.  [StopRecord] is all or nothing.  When it returns, either exactly
    one stop request has been queued, with a [matchedStart] flag that is
    true exactly if the recorder was not stopped, and the mode is
    [STOPPED]; or nothing has been queued, the caller's state is what it
    was and, if the call was entered with status [OK], [Error] has been
    called once under [CLEAN]. *)
Theorem StopRecord_all_or_nothing (env : list Env)
    (s s' : CallerState) (cmds : list Cmd) :
  StopRecord env s = Returned (s', cmds) →
  (pushed cmds = [CStopVideoRecordRequest (negb (bool_decide (recordMode s = STOPPED)))]
   ∧ s' = set_recordMode STOPPED s)
  ∨ (pushed cmds = [] ∧ s' = s
     ∧ (status s = OK → ErrorCall CLEAN "Fail to stop video record" ∈ cmds)).
Proof. apply StopRecord_outcome. Qed.

Lemma StopRecord_all_or_nothing_witness :
  ∃ s' cmds,
    StopRecord [out_of_memory 0; out_of_memory 0] (recording_at 0) = Returned (s', cmds)
    ∧ pushed cmds = [] ∧ s' = recording_at 0
    ∧ ErrorCall CLEAN "Fail to stop video record" ∈ cmds.
Proof.
  eexists _, _. split; [vm_compute; reflexivity|].
  destruct (StopRecord_all_or_nothing [out_of_memory 0; out_of_memory 0]
              (recording_at 0) _ _ eq_refl)
    as [(H1 & _)|(H1 & H2 & H3)]; [discriminate H1|].
  split; [exact H1|]. split; [exact H2|exact (H3 eq_refl)].
Defined.

Lemma Screenshot_outcome (env : list Env) (filename : string) :
  ∀ (s s' : CallerState) (cmds : list Cmd),
    Screenshot env filename s = Returned (s', cmds) →
    pushed cmds = []
    ∧ (s' = set_screenshotPaths (screenshotPaths s ++ [filename]) s ∨ s' = s).
Proof.
  induction env as [|e env IH]; intros s s' cmds; [done|].
  cbn [Screenshot]. destruct (push_throws e).
  2:{ intros; simplify_eq. split; [done|by left]. }
  destruct (reported e); [| |done];
    (destruct (status s) eqn:Est; [|intros; simplify_eq; split; [done|by right]..]);
    unfold retry_with;
    (destruct (Screenshot env filename _) as [[s5 c5]| |] eqn:Hr; [|done..]);
    intros; simplify_eq;
    (destruct (IH _ _ _ Hr) as [Hp [-> | ->]]);
    cbn [pushed app]; rewrite Hp; (split; [done|]); [left|right|left|right];
    destruct s; cbn in *; subst; reflexivity.
Qed.

Lemma Screenshot_aborts (env : list Env) (filename : string) :
  ∀ s : CallerState,
    Screenshot env filename s = Aborted →
    ∃ e, e ∈ env ∧ push_throws e = true ∧ error_lock_throws e = true.
Proof.
  induction env as [|e env IH]; intros s; [done|].
  cbn [Screenshot]. destruct (push_throws e) eqn:Hpush; [|done].
  unfold reported. destruct (error_lock_throws e) eqn:Herr.
  { intros _. exists e. split; [apply list_elem_of_here|done]. }
  destruct (status s); [|done..].
  unfold retry_with.
  destruct (Screenshot env filename _) as [[s5 c5]| |] eqn:Hr; [done| |done].
  intros _. apply IH in Hr as (e' & He' & H1 & H2).
  exists e'. split; [by apply list_elem_of_further|done].
Qed.

(** X6.  [Screenshot] never queues a task.  When it returns, the file
    name is at the back of the screenshot queue, behind the paths that
    were there, or (the push having failed in every attempt) the
    caller's state is what it was.  It aborts only if a push fails and
    the lock or the wait inside [Error] throws a system error. *)
Theorem Screenshot_appends_or_nothing (env : list Env) (filename : string)
    (s : CallerState) :
  (∀ s' cmds,
     Screenshot env filename s = Returned (s', cmds) →
     pushed cmds = []
     ∧ (s' = set_screenshotPaths (screenshotPaths s ++ [filename]) s ∨ s' = s))
  ∧ (Screenshot env filename s = Aborted →
     ∃ e, e ∈ env ∧ push_throws e = true ∧ error_lock_throws e = true).
Proof. split; [apply Screenshot_outcome|apply Screenshot_aborts]. Qed.

Lemma Screenshot_appends_or_nothing_witness :
  let e := {| clock_now := 0; callback_throws := false; callback_handle := 0%nat;
              callback_data := vga_frame None; alloc_throws := false;
              lock_throws := false; push_throws := true;
              error_lock_throws := true |} in
  Screenshot [calm 0 0 (vga_frame None)] "shot.png" new_caller
  = Returned (set_screenshotPaths ["shot.png"] new_caller, [Enter OpScreenshot OK])
  ∧ Screenshot [e] "shot.png" new_caller = Aborted
  ∧ ∃ e', e' ∈ [e] ∧ push_throws e' = true ∧ error_lock_throws e' = true.
Proof.
  intros e. split; [reflexivity|]. split; [reflexivity|].
  exact (proj2 (Screenshot_appends_or_nothing [e] "shot.png" new_caller) eq_refl).
Defined.

(** ** Sequences of calls *)

Lemma flags_match_app (m : RecordMode) (a b : list ITask) :
  flags_match m (a ++ b) = flags_match m a && flags_match (foldl mode_after m a) b.
Proof.
  revert m. induction a as [|t a IH]; intros m; [done|].
  cbn. rewrite IH. by rewrite andb_assoc.
Qed.

Lemma frame_tasks_keep_mode (m : RecordMode) (ts : list ITask) :
  Forall (λ t, ∃ f, t = CFrameTask f) ts →
  foldl mode_after m ts = m ∧ flags_match m ts = true.
Proof.
  induction 1 as [|t ts [f ->] _ [IH1 IH2]]; [done|]. cbn. by rewrite IH1, IH2.
Qed.

Lemma call_mode_and_flags (tps : Z) (c : Call) (s s' : CallerState) (cmds : list Cmd) :
  call tps c s = Returned (s', cmds) →
  recordMode s' = foldl mode_after (recordMode s) (pushed cmds)
  ∧ flags_match (recordMode s) (pushed cmds) = true.
Proof.
  destruct c; cbn [call]; intros Hc.
  - apply SampleFrame_frame in Hc as (Hm & _ & Hf).
    apply (frame_tasks_keep_mode (recordMode s)) in Hf as [-> ->]. done.
  - apply StartRecord_outcome in Hc as [(-> & e & _ & ->)|(-> & ->)]; [|done].
    cbn. by rewrite bool_decide_eq_true_2.
  - apply StopRecord_outcome in Hc as [(-> & ->)|(-> & -> & _)]; [|done].
    cbn. by rewrite bool_decide_eq_true_2.
  - apply Screenshot_outcome in Hc as [-> [-> | ->]]; done.
Qed.

Lemma calls_flags (tps : Z) (cs : list Call)
    (s s' : CallerState) (cmds : list Cmd) :
  calls tps cs s = Returned (s', cmds) →
  recordMode s' = foldl mode_after (recordMode s) (pushed cmds)
  ∧ flags_match (recordMode s) (pushed cmds) = true.
Proof.
  revert s s' cmds.
  induction cs as [|c cs IH]; intros s s' cmds; cbn [calls].
  - intros; simplify_eq. done.
  - destruct (call tps c s) as [[s1 c1]| |] eqn:Hc; [|done..].
    destruct (calls tps cs s1) as [[s2 c2]| |] eqn:Hcs; [|done..].
    intros; simplify_eq.
    apply call_mode_and_flags in Hc as [Hm1 Hf1].
    apply IH in Hcs as [Hm2 Hf2].
    rewrite pushed_app, foldl_app, flags_match_app, Hf1, <- Hm1. done.
Qed.

(** X7.  Over any sequence of calls, the record mode is the one that the
    last queued start or stop request stands for, and every queued
    request carries a flag that says what the mode was when it was
    queued: a start request has [matchedStop] exactly if the request
    queued before it was a stop request (or there was none and the
    recorder was stopped), a stop request has [matchedStart] exactly if
    the one before it was a start request. *)
Theorem calls_mode_and_flags (tps : Z) (cs : list Call)
    (s s' : CallerState) (cmds : list Cmd) :
  0 < tps →
  calls tps cs s = Returned (s', cmds) →
  recordMode s' = foldl mode_after (recordMode s) (pushed cmds)
  ∧ flags_match (recordMode s) (pushed cmds) = true.
Proof. intros _. apply calls_flags. Qed.

Lemma calls_mode_and_flags_witness :
  let cs := [CallStopRecord [calm 0 0 (vga_frame None)];
             CallStartRecord [calm 0 0 (vga_frame None)] "a.mp4" 640 480 false false
               H264 (-1) Default;
             CallSampleFrame [calm 0 1 (vga_frame (Some 1%N))];
             CallStartRecord [calm 5 0 (vga_frame None)] "b.mp4" 640 480 false true
               H264 (-1) Default] in
  ∃ s' cmds,
    calls 1000000000 cs new_caller = Returned (s', cmds)
    ∧ pushed cmds
      = [CStopVideoRecordRequest false;
         CStartVideoRecordRequest "a.mp4" 640 480 false false H264 (-1) Default true;
         CFrameTask 1;
         CStartVideoRecordRequest "b.mp4" 640 480 false true H264 (-1) Default false]
    ∧ recordMode s' = HIGH_FPS
    ∧ flags_match STOPPED (pushed cmds) = true.
Proof.
  intros cs. eexists _, _. split; [vm_compute; reflexivity|]. split; [reflexivity|].
  match goal with
  | |- recordMode ?s = _ ∧ flags_match _ (pushed ?k) = _ =>
      destruct (calls_mode_and_flags 1000000000 cs new_caller s k
                  ltac:(lia) ltac:(vm_compute; reflexivity)) as [H1 H2]
  end.
  split; [exact H1|exact H2].
Defined.

(** * Further properties of the worker's code *)

(** ** The codec of a screenshot *)

(** X8.  [GetScreenshotCodec] looks the extension up without regard to the
    case of its letters.  Every one of the thirteen extensions of the
    table selects the codec listed beside it, silently; any other
    extension selects TGA and the fallback warning is written. *)
Theorem GetScreenshotCodec_table (ext : string) :
  (∀ codec, (transform_tolower ext, codec) ∈ pictureFormats →
            GetScreenshotCodec ext = (codec, false))
  ∧ (transform_tolower ext ∉ pictureFormats.*1 →
     GetScreenshotCodec ext = (CODEC_TGA, true)).
Proof.
  unfold GetScreenshotCodec. split.
  - intros codec Hin. unfold pictureFormats in Hin.
    repeat (apply elem_of_cons in Hin as [Hin|Hin];
            [injection Hin as -> ->; reflexivity|]).
    by apply elem_of_nil in Hin.
  - intros Hout.
    destruct (list_find _ pictureFormats) as [[i [k c]]|] eqn:Hf; [|done].
    apply list_find_Some in Hf as (Hi & Hk & _). cbn in Hk.
    exfalso. apply Hout. apply list_elem_of_fmap. exists (k, c).
    split; [done|]. by eapply list_elem_of_lookup_2.
Qed.

Lemma GetScreenshotCodec_table_witness :
  GetScreenshotCodec ".JPeG" = (WIC_CODEC_JPEG, false)
  ∧ GetScreenshotCodec ".webp" = (CODEC_TGA, true).
Proof.
  split.
  - apply (proj1 (GetScreenshotCodec_table ".JPeG")).
    apply (bool_decide_unpack _). vm_compute. exact I.
  - apply (proj2 (GetScreenshotCodec_table ".webp")).
    apply (bool_decide_unpack _). vm_compute. exact I.
Defined.

(** ** Encode *)

Lemma write_packets_trace (ps : list Z) (w : WorkerState) :
  (write_packets ps w).2 = forallb (λ r, 0 <=? r) ps
  ∧ trace (write_packets ps w).1
    = trace w ++ replicate (packets_written ps) EvWritePacket
      ++ (if forallb (λ r, 0 <=? r) ps then []
          else [Cerr "Fail to write video data to file"]).
Proof.
  revert w. induction ps as [|r ps IH]; intros w; cbn [write_packets forallb packets_written].
  - split; [done|]. by rewrite app_nil_r.
  - destruct (Z.ltb_spec r 0) as [Hr|Hr].
    + assert ((0 <=? r) = false) as -> by lia. cbn. split; [done|].
      by rewrite <- app_assoc.
    + assert ((0 <=? r) = true) as -> by lia. cbn [andb].
      destruct (IH (emit EvWritePacket w)) as [-> ->]. split; [done|].
      cbn. by rewrite <- app_assoc.
Qed.

Lemma Encode_outcome (e : EncodeEnv) (w : WorkerState) :
  only_logs w (Encode e w).1
  ∧ (Encode e w).2 = encode_succeeds e
  ∧ ∃ line,
      trace (Encode e w).1
      = trace w
        ++ EvSendFrame (from_option frm_pts 0 (dstFrame w))
           :: replicate (if send_frame e <? 0 then 0%nat
                         else packets_written (packets e)) EvWritePacket
        ++ (if encode_succeeds e then [] else [Cerr line]).
Proof.
  split; [apply Encode_extends|].
  unfold Encode, encode_succeeds.
  destruct (Z.ltb_spec (send_frame e) 0) as [Hs|Hs].
  - assert ((0 <=? send_frame e) = false) as -> by lia. cbn.
    split; [done|]. eexists. rewrite <- app_assoc. reflexivity.
  - assert ((0 <=? send_frame e) = true) as -> by lia. cbn [andb].
    pose proof (write_packets_trace (packets e)
                  (emit (EvSendFrame (from_option frm_pts 0 (dstFrame w))) w))
      as [Hok Htr].
    destruct (write_packets _ _) as [w2 written]. cbn [fst snd] in Hok, Htr.
    subst written.
    destruct (forallb _ (packets e)); cbn [andb].
    + destruct (receive_end e); cbn [fst snd trace emit]; (split; [done|]);
        [exists EmptyString..|eexists];
        rewrite Htr; cbn; rewrite <- !app_assoc; reflexivity.
    + cbn [fst snd]. split; [done|]. eexists. rewrite Htr. cbn.
      rewrite <- !app_assoc. reflexivity.
Qed.

(** X9.  [Encode] hands the frame to the encoder once, writes the packets
    it gets back up to the first whose write fails, and returns [true]
    exactly when every call succeeded; when it returns [false] it has
    written exactly one error line, as its last output.  It changes
    nothing but the trace. *)
Theorem Encode_stops_at_first_failure (e : EncodeEnv) (w : WorkerState) :
  only_logs w (Encode e w).1
  ∧ (Encode e w).2 = encode_succeeds e
  ∧ ∃ line,
      trace (Encode e w).1
      = trace w
        ++ EvSendFrame (from_option frm_pts 0 (dstFrame w))
           :: replicate (if send_frame e <? 0 then 0%nat
                         else packets_written (packets e)) EvWritePacket
        ++ (if encode_succeeds e then [] else [Cerr line]).
Proof. apply Encode_outcome. Qed.

(** ** The stop request *)

Lemma occurrences_app (ev : Event) (a b : list Event) :
  occurrences ev (a ++ b) = (occurrences ev a + occurrences ev b)%nat.
Proof. unfold occurrences. by rewrite filter_app, length_app. Qed.

Lemma occurrences_cons (ev x : Event) (l : list Event) :
  occurrences ev (x :: l)
  = ((if bool_decide (x = ev) then 1 else 0) + occurrences ev l)%nat.
Proof.
  unfold occurrences. rewrite filter_cons. case_bool_decide; case_decide; done.
Qed.

Lemma occurrences_replicate (ev ev' : Event) (n : nat) :
  ev' ≠ ev → occurrences ev (replicate n ev') = 0%nat.
Proof.
  intros Hne. induction n as [|n IH]; [done|].
  cbn [replicate]. rewrite occurrences_cons, IH. by rewrite bool_decide_eq_false_2.
Qed.

Ltac count_occurrences :=
  repeat first [ rewrite occurrences_app
               | rewrite occurrences_cons
               | rewrite occurrences_replicate by discriminate ];
  reflexivity.

(** X10.  A stop request that finds a file open always runs to its end,
    whatever fails on the way: it writes the trailer once, closes the file
    once and frees the output context once, releases the encoder context
    and the destination frame, and keeps the cached scaler.  Its last line
    says that the video has been recorded exactly when the final [Encode],
    the trailer and the close all succeeded. *)
Theorem stop_request_closes_file_once (matchedStart : bool) (env : TaskEnv)
    (w : WorkerState) (vf : AVFormatContext) :
  videoFile w = Some vf →
  ∃ w' evs,
    run_CStopVideoRecordRequest matchedStart env w = Done w'
    ∧ trace w' = trace w ++ evs
    ∧ context w' = None ∧ dstFrame w' = None ∧ videoFile w' = None
    ∧ cvtCtx w' = cvtCtx w ∧ frames w' = frames w
    ∧ occurrences EvWriteTrailer evs = 1%nat
    ∧ occurrences EvAvioClose evs = 1%nat
    ∧ occurrences EvFreeOutput evs = 1%nat
    ∧ last evs
      = Some (if encode_succeeds (encode env 0) && (0 <=? write_trailer env)
                 && (0 <=? avio_closep env)
              then Clog "Video has been recorded."
              else Cerr "Fail to record video.").
Proof.
  intros Hv. unfold run_CStopVideoRecordRequest.
  set (w0 := if matchedStart then w else emit _ w).
  assert (videoFile w0 = Some vf ∧ cvtCtx w0 = cvtCtx w ∧ frames w0 = frames w
          ∧ trace w0 = trace w ++ (if matchedStart then [] else [unmatched_stop_line]))
    as (Hv0 & Hc0 & Hf0 & Ht0).
  { subst w0. destruct matchedStart; cbn; rewrite ?app_nil_r; done. }
  clearbody w0. rewrite Hv0.
  destruct (Encode_outcome (encode env 0%nat) w0)
    as ((_ & Hc1 & _ & Hv1 & Hf1) & Hok & line & Ht1).
  destruct (Encode _ w0) as [w1 ok]. cbn [fst snd] in *. subst ok.
  unfold Cleanup.
  destruct (Z.ltb_spec (write_trailer env) 0) as [Hwt|Hwt];
    [assert ((0 <=? write_trailer env) = false) as -> by lia
    |assert ((0 <=? write_trailer env) = true) as -> by lia];
    (destruct (Z.ltb_spec (avio_closep env) 0) as [Hac|Hac];
     [assert ((0 <=? avio_closep env) = false) as -> by lia
     |assert ((0 <=? avio_closep env) = true) as -> by lia]);
    fields_cbn; cbn [fmt_pb mbind outcome_bind]; fields_cbn;
    rewrite ?andb_false_r, ?andb_true_r;
    (eexists _, _; split; [reflexivity|]; fields_cbn;
     split; [rewrite Ht1, Ht0, <- !app_assoc; reflexivity|];
     split; [done|]; split; [done|]; split; [done|];
     split; [congruence|]; split; [congruence|];
     destruct matchedStart, (encode_succeeds (encode env 0)),
       (send_frame (encode env 0) <? 0);
     cbn [app];
     (split; [count_occurrences|]); (split; [count_occurrences|]);
     (split; [count_occurrences|]);
     rewrite ?app_comm_cons, ?app_assoc, last_app_cons; reflexivity).
Qed.

Lemma stop_request_closes_file_once_witness :
  ∃ w' evs,
    run_CStopVideoRecordRequest true second_write_fails
      (recording_worker 0 [] (vga_frame (Some 1%N))) = Done w'
    ∧ trace w' = evs
    ∧ videoFile w' = None
    ∧ evs = [EvSendFrame 0; EvWritePacket; EvWriteTrailer; EvAvioClose; EvFreeOutput;
             Clog "Video has been recorded."].
Proof.
  destruct (stop_request_closes_file_once true second_write_fails
              (recording_worker 0 [] (vga_frame (Some 1%N)))
              {| fmt_filename := "a.mp4"; fmt_pb := true |} eq_refl)
    as (w' & evs & Hrun & Htr & _ & _ & Hv & _).
  exists w', evs. split; [exact Hrun|]. split; [exact Htr|]. split; [exact Hv|].
  vm_compute in Hrun. injection Hrun as <-. cbn in Htr. congruence.
Defined.

(** ** The start request *)

(** What precedes [try_open_session] in a start request: the warning
    and, if a file is open, a stop request, which leaves none. *)
Lemma start_request_prologue
    (filename : string) (width height : Z) (_10bit highFPS : bool)
    (codecID : Codec) (crf : Z) (preset : Preset) (matchedStop : bool)
    (env : TaskEnv) (w : WorkerState) :
  ∃ w1,
    videoFile w1 = None
    ∧ run_CStartVideoRecordRequest filename width height _10bit highFPS codecID crf
        preset matchedStop env w
      = try_open_session filename width height _10bit highFPS codecID crf preset env w1.
Proof.
  unfold run_CStartVideoRecordRequest.
  pose proof (warn_unmatched_start_extends matchedStop w) as [_ (_&_&_&Hv0&_)].
  set (w0 := warn_unmatched_start matchedStop w) in *. clearbody w0.
  destruct (videoFile w0) as [vf|] eqn:Hv.
  - destruct (run_CStopVideoRecordRequest_with_file true env w0 vf Hv) as [w1 Hs].
    rewrite Hs. exists w1. split; [|done].
    by apply run_CStopVideoRecordRequest_extends in Hs as (_ & ? & _).
  - exists w0. done.
Qed.

Ltac env_facts :=
  repeat match goal with
         | H : negb _ = true |- _ => apply negb_true_iff in H
         | H : negb _ = false |- _ => apply negb_false_iff in H
         | H : (_ =? _) = true |- _ => apply Z.eqb_eq in H
         | H : (_ =? _) = false |- _ => apply Z.eqb_neq in H
         | H : (_ <? _) = true |- _ => apply Z.ltb_lt in H
         | H : (_ <? _) = false |- _ => apply Z.ltb_ge in H
         | H : (_ <=? _) = true |- _ => apply Z.leb_le in H
         | H : (_ <=? _) = false |- _ => apply Z.leb_gt in H
         end.

Lemma try_open_session_succeeds
    (filename : string) (width height : Z) (_10bit highFPS : bool)
    (codecID : Codec) (crf : Z) (preset : Preset)
    (env : TaskEnv) (w : WorkerState) :
  start_succeeds codecID env = true →
  let ctx := codec_context width height highFPS codecID env in
  ∃ w',
    try_open_session filename width height _10bit highFPS codecID crf preset env w
    = Done w'
    ∧ videoFile w' = Some {| fmt_filename := filename; fmt_pb := true |}
    ∧ context w' = Some ctx
    ∧ dstFrame w' = Some (destination_frame _10bit ctx)
    ∧ [Clog ("Recording video " +:+ filename); EvOpenCodec ctx;
       EvAllocOutput filename; EvAvioOpen filename; EvWriteHeader]
      `suffix_of` trace w'.
Proof.
  cbv zeta. set (ctx := codec_context width height highFPS codecID env).
  unfold start_succeeds. rewrite !andb_true_iff.
  intros (((((((((((Hc & Hfe) & Hac) & Hop) & Hfa) & Hgb) & Htb) & Hao) & Hns) & Hpc)
           & Hio) & Hwh).
  env_facts. apply bool_decide_eq_false in Hc.
  unfold try_open_session, open_session.
  pose proof (set_options_extends filename crf preset env (set_context (Some ctx) w))
    as [_ (Hco & _ & Hdo & Hvo & _)].
  fold ctx. set (wo := set_options _ _ _ _ _) in *. clearbody wo.
  rewrite Hfe, Hac, Hop, Hfa, Htb, Hns. cbn [negb Z.eqb].
  assert ((frame_get_buffer env <? 0) = false) as -> by lia.
  assert ((alloc_output_context2 env <? 0) = false) as -> by lia.
  assert ((parameters_from_context env <? 0) = false) as -> by lia.
  assert ((avio_open env <? 0) = false) as -> by lia.
  assert ((write_header env <? 0) = false) as -> by lia.
  destruct codecID; [| |done];
    (eexists; split; [reflexivity|]; fields_cbn;
     split; [done|]; split; [done|]; split; [done|];
     exists (trace wo); rewrite <- !app_assoc; reflexivity).
Qed.

Lemma try_open_session_fails
    (filename : string) (width height : Z) (_10bit highFPS : bool)
    (codecID : Codec) (crf : Z) (preset : Preset)
    (env : TaskEnv) (w w' : WorkerState) :
  videoFile w = None →
  try_open_session filename width height _10bit highFPS codecID crf preset env w
  = Done w' →
  start_succeeds codecID env = false →
  videoFile w' = None.
Proof.
  intros Hv Hrun Hfail.
  destruct (videoFile w') as [vf|] eqn:Hv'; [exfalso|done].
  assert (start_succeeds codecID env = true) as Hok; [|congruence].
  clear Hfail.
  unfold try_open_session, open_session in Hrun.
  pose proof (set_options_extends filename crf preset env
                (set_context (Some (codec_context width height highFPS codecID env)) w))
    as [_ (_ & _ & _ & Hvo & _)].
  set (wo := set_options _ _ _ _ _) in *. clearbody wo.
  cbn [videoFile set_context] in Hvo.
  unfold start_succeeds.
  repeat case_match; simplify_eq;
    try (rewrite Cleanup_without_file in Hrun by fields; discriminate);
    try (apply Cleanup_Done in Hrun as (_ & _ & _ & _ & Hn & _); congruence);
    try (cbn in Hv'; congruence);
    env_facts;
    rewrite !andb_true_iff; repeat split;
    rewrite ?negb_true_iff, ?Z.leb_le, ?Z.eqb_eq; done.
Qed.

Lemma try_open_session_terminates
    (filename : string) (width height : Z) (_10bit highFPS : bool)
    (codecID : Codec) (crf : Z) (preset : Preset)
    (env : TaskEnv) (w : WorkerState) :
  start_terminates codecID env = true →
  try_open_session filename width height _10bit highFPS codecID crf preset env w
  = Fails Terminated.
Proof.
  unfold start_terminates. rewrite !andb_true_iff.
  intros ((((((Hc & Hfe) & Hac) & Hop) & Hfa) & Hgb) & Htb).
  env_facts. apply bool_decide_eq_false in Hc.
  unfold try_open_session, open_session.
  rewrite Hfe, Hac, Hop, Hfa, Htb. cbn [negb Z.eqb].
  assert ((frame_get_buffer env <? 0) = false) as -> by lia.
  by destruct codecID.
Qed.

(** X11.  A start request leaves a file open exactly when every one of its
    collaborator calls succeeds, the conversion of the file name
    included (a failure to set the quality or the preset is logged and
    does not count).  Then the file is the one named in the request,
    open, with the header written last, and the encoder context and the
    destination frame are the configured ones; this holds whether or
    not a file was open before, since that one is finished first.  When
    everything up to the conversion of the file name succeeds and the
    conversion throws, the exception leaves the worker's thread
    function. *)
Theorem start_request_opens_iff_all_succeed
    (filename : string) (width height : Z) (_10bit highFPS : bool)
    (codecID : Codec) (crf : Z) (preset : Preset) (matchedStop : bool)
    (env : TaskEnv) (w : WorkerState) :
  let ctx := codec_context width height highFPS codecID env in
  (start_succeeds codecID env = true →
   ∃ w',
     run_CStartVideoRecordRequest filename width height _10bit highFPS codecID crf
       preset matchedStop env w = Done w'
     ∧ videoFile w' = Some {| fmt_filename := filename; fmt_pb := true |}
     ∧ context w' = Some ctx
     ∧ dstFrame w' = Some (destination_frame _10bit ctx)
     ∧ [Clog ("Recording video " +:+ filename); EvOpenCodec ctx;
        EvAllocOutput filename; EvAvioOpen filename; EvWriteHeader]
       `suffix_of` trace w')
  ∧ (start_succeeds codecID env = false →
     ∀ w',
       run_CStartVideoRecordRequest filename width height _10bit highFPS codecID crf
         preset matchedStop env w = Done w' →
       videoFile w' = None)
  ∧ (start_terminates codecID env = true →
     run_CStartVideoRecordRequest filename width height _10bit highFPS codecID crf
       preset matchedStop env w = Fails Terminated).
Proof.
  intros ctx.
  destruct (start_request_prologue filename width height _10bit highFPS codecID crf
              preset matchedStop env w) as (w1 & Hv1 & ->).
  split; [|split].
  - intros Hok. by apply try_open_session_succeeds.
  - intros Hfail w' Hrun. by eapply try_open_session_fails.
  - apply try_open_session_terminates.
Qed.

Lemma start_request_opens_iff_all_succeed_witness :
  (∃ w',
     run_CStartVideoRecordRequest "b.mp4" 640 480 false false H264 (-1) Default false
       smooth (recording_worker 0 [] (vga_frame (Some 1%N))) = Done w'
     ∧ videoFile w' = Some {| fmt_filename := "b.mp4"; fmt_pb := true |})
  ∧ (∀ w',
       run_CStartVideoRecordRequest "b.mp4" 640 480 false false CodecOther (-1)
         Default false smooth (recording_worker 0 [] (vga_frame (Some 1%N))) = Done w' →
       videoFile w' = None)
  ∧ run_CStartVideoRecordRequest "b.mp4" 640 480 false false H264 (-1) Default false
      name_not_convertible (recording_worker 0 [] (vga_frame (Some 1%N)))
    = Fails Terminated.
Proof.
  split; [|split].
  - destruct (proj1 (start_request_opens_iff_all_succeed "b.mp4" 640 480 false false
                       H264 (-1) Default false smooth
                       (recording_worker 0 [] (vga_frame (Some 1%N)))) eq_refl)
      as (w' & H1 & H2 & _).
    exists w'. split; [exact H1|exact H2].
  - exact (proj1 (proj2 (start_request_opens_iff_all_succeed "b.mp4" 640 480 false
                           false CodecOther (-1) Default false smooth
                           (recording_worker 0 [] (vga_frame (Some 1%N))))) eq_refl).
  - exact (proj2 (proj2 (start_request_opens_iff_all_succeed "b.mp4" 640 480 false
                           false H264 (-1) Default false name_not_convertible
                           (recording_worker 0 [] (vga_frame (Some 1%N))))) eq_refl).
Defined.

(** X12.  A start request that gets an encoder context and then fails in
    [avcodec_open2], [av_frame_alloc], [av_frame_get_buffer] or (the
    file name having been converted) [avformat_alloc_output_context2]
    calls [Cleanup] before the output context exists, and [Cleanup]
    reads [videoFile->pb] through the null [videoFile]; this is so
    whether or not a file was open before. *)
Theorem start_request_early_failure_reads_null_videoFile
    (filename : string) (width height : Z) (_10bit highFPS : bool)
    (codecID : Codec) (crf : Z) (preset : Preset) (matchedStop : bool)
    (env : TaskEnv) (w : WorkerState) :
  start_fails_early codecID env = true →
  run_CStartVideoRecordRequest filename width height _10bit highFPS codecID crf
    preset matchedStop env w = Fails NullDereference.
Proof.
  unfold start_fails_early. rewrite !andb_true_iff.
  intros (((Hc & Hfe) & Hac) & Hearly). env_facts. apply bool_decide_eq_false in Hc.
  destruct (start_request_prologue filename width height _10bit highFPS codecID crf
              preset matchedStop env w) as (w1 & Hv1 & ->).
  unfold try_open_session, open_session.
  pose proof (set_options_extends filename crf preset env
                (set_context (Some (codec_context width height highFPS codecID env)) w1))
    as [_ (_ & _ & _ & Hvo & _)].
  set (wo := set_options _ _ _ _ _) in *. clearbody wo.
  cbn [videoFile set_context] in Hvo.
  rewrite Hfe, Hac.
  destruct codecID; [| |done];
    (destruct (avcodec_open2 env =? 0) eqn:E1; cbn [negb];
     [|apply Cleanup_without_file; fields]);
    (destruct (frame_alloc_null env) eqn:E2; [apply Cleanup_without_file; fields|]);
    (destruct (frame_get_buffer env <? 0) eqn:E3; [apply Cleanup_without_file; fields|]);
    (destruct (to_bytes_throws env) eqn:E5; [done|]);
    (destruct (alloc_output_context2 env <? 0) eqn:E4;
     [apply Cleanup_without_file; fields|]);
    done.
Qed.

Lemma start_request_early_failure_reads_null_videoFile_witness :
  run_CStartVideoRecordRequest "b.mp4" 640 480 false false H264 (-1) Default false
    codec_open_fails (recording_worker 0 [] (vga_frame (Some 1%N)))
  = Fails NullDereference.
Proof.
  exact (start_request_early_failure_reads_null_videoFile "b.mp4" 640 480 false false
           H264 (-1) Default false codec_open_fails
           (recording_worker 0 [] (vga_frame (Some 1%N))) eq_refl).
Defined.

(** ** The frame task *)

Lemma sent_frames_app (a b : list Event) :
  sent_frames (a ++ b) = sent_frames a ++ sent_frames b.
Proof.
  induction a as [|ev a IH]; [done|]. destruct ev; simpl; rewrite ?IH; done.
Qed.

Lemma sent_frames_written (n : nat) : sent_frames (replicate n EvWritePacket) = [].
Proof. induction n; done. Qed.

(** What one call of [Encode] adds to the trace. *)
Lemma Encode_sends (e : EncodeEnv) (w : WorkerState) (dst : AVFrame) :
  dstFrame w = Some dst →
  ∃ evs,
    trace (Encode e w).1 = trace w ++ evs
    ∧ sent_frames evs = [frm_pts dst]
    ∧ occurrences EvWriteTrailer evs = 0%nat
    ∧ (encode_succeeds e = false → ∃ line, last evs = Some (Cerr line)).
Proof.
  intros Hd.
  destruct (Encode_outcome e w) as (_ & _ & line & Ht).
  rewrite Hd in Ht. cbn [from_option] in Ht.
  eexists. split; [exact Ht|].
  split; [|split].
  - cbn [sent_frames]. rewrite sent_frames_app, sent_frames_written.
    by destruct (encode_succeeds e).
  - destruct (encode_succeeds e); count_occurrences.
  - intros ->. exists line. rewrite app_comm_cons. apply last_snoc.
Qed.

Lemma seqZ_step (p n : Z) : 0 ≤ n → seqZ p (1 + n) = p :: seqZ (p + 1) n.
Proof.
  intros Hn. rewrite seqZ_cons by lia. f_equal. f_equal. lia.
Qed.

Section FrameTask.
Context (srcFrame : nat) (env : TaskEnv).

(** The loop when every iteration succeeds. *)
Lemma encode_loop_all_succeed (k : nat) :
  ∀ (i : nat) (w : WorkerState) (dst : AVFrame) (fr : CFrame),
    dstFrame w = Some dst →
    frames w !! srcFrame = Some fr →
    frame_videoPendingFrames fr = Z.of_nat (S k) →
    (∀ j, (i ≤ j < i + S k)%nat →
          0 ≤ make_writable env j ∧ encode_succeeds (encode env j) = true) →
    ∃ w' evs,
      encode_loop (S k) i srcFrame env w = Done w'
      ∧ trace w' = trace w ++ evs
      ∧ sent_frames evs = seqZ (frm_pts dst) (Z.of_nat (S k))
      ∧ occurrences EvWriteTrailer evs = 0%nat
      ∧ dstFrame w' = Some (advance_pts (Z.of_nat (S k)) dst)
      ∧ frames w' = <[srcFrame := set_frame_pending 0 fr]> (frames w)
      ∧ videoFile w' = videoFile w ∧ context w' = context w ∧ cvtCtx w' = cvtCtx w.
Proof.
  induction k as [|k IH]; intros i w dst fr Hd Hf Hp Hok;
    cbn [encode_loop]; rewrite Hd; cbn [deref mbind outcome_bind];
    destruct (Hok i ltac:(lia)) as [Hmw Hen];
    (assert ((make_writable env i <? 0) = false) as -> by lia);
    destruct (Encode_outcome (encode env i) w)
      as ((Hc1 & Hs1 & Hd1 & Hv1 & Hf1) & Hok1 & _);
    destruct (Encode_sends (encode env i) w dst Hd) as (evs1 & Ht1 & Hsent1 & Hocc1 & _);
    destruct (Encode (encode env i) w) as [w1 ok]; cbn [fst snd] in *; subst ok;
    rewrite Hen; cbn [negb]; fields_cbn; rewrite Hf1, Hf;
    cbn [deref mbind outcome_bind]; rewrite Hp.
  - change (Z.of_nat 1 - 1 =? 0) with true. cbv iota.
    eexists _, evs1. split; [reflexivity|]. fields_cbn.
    split; [exact Ht1|]. split; [rewrite Hsent1; reflexivity|].
    split; [exact Hocc1|]. split; [reflexivity|]. split; [by rewrite ?Hf1|].
    split; [done|]. split; done.
  - destruct (Z.eqb_spec (Z.of_nat (S (S k)) - 1) 0) as [E|_]; [lia|].
    set (fr1 := set_frame_pending (Z.of_nat (S (S k)) - 1) fr).
    set (w3 := set_frames _ _).
    destruct (IH (S i) w3 (advance_pts 1 dst) fr1) as
      (w' & evs & Hrun & Ht & Hsent & Hocc & Hd' & Hf' & Hv' & Hc' & Hs').
    { reflexivity. }
    { subst w3. fields_cbn. apply lookup_insert_eq. }
    { subst fr1. cbn [frame_videoPendingFrames set_frame_pending]. lia. }
    { intros j Hj. apply Hok. lia. }
    exists w', (evs1 ++ evs). split; [exact Hrun|].
    split; [rewrite Ht; subst w3; fields_cbn; rewrite Ht1, <- app_assoc; reflexivity|].
    split.
    { rewrite sent_frames_app, Hsent1, Hsent.
      replace (Z.of_nat (S (S k))) with (1 + Z.of_nat (S k)) by lia.
      rewrite seqZ_step by lia. reflexivity. }
    split; [rewrite occurrences_app, Hocc1, Hocc; reflexivity|].
    split.
    { rewrite Hd'. unfold advance_pts. cbn. do 2 f_equal. lia. }
    split.
    { rewrite Hf'. subst w3 fr1. fields_cbn. rewrite insert_insert_eq, ?Hf1. reflexivity. }
    subst w3. cbn [videoFile context cvtCtx set_frames set_dstFrame] in Hv', Hc', Hs'.
    split; [congruence|]. split; congruence.
Qed.

(** The loop when iteration [i + j] is the first that fails. *)
Lemma encode_loop_fails_at (j : nat) :
  ∀ (i fuel : nat) (w : WorkerState) (dst : AVFrame) (fr : CFrame)
    (vf : AVFormatContext),
    (j < fuel)%nat →
    dstFrame w = Some dst →
    frames w !! srcFrame = Some fr →
    videoFile w = Some vf → fmt_pb vf = true →
    Z.of_nat j < frame_videoPendingFrames fr →
    (∀ t, (i ≤ t < i + j)%nat →
          0 ≤ make_writable env t ∧ encode_succeeds (encode env t) = true) →
    make_writable env (i + j) < 0 ∨ encode_succeeds (encode env (i + j)) = false →
    ∃ w' evs line,
      encode_loop fuel i srcFrame env w = Done w'
      ∧ trace w' = trace w ++ evs
      ∧ sent_frames evs
        = seqZ (frm_pts dst)
            (Z.of_nat j + (if make_writable env (i + j) <? 0 then 0 else 1))
      ∧ occurrences EvWriteTrailer evs = 0%nat
      ∧ [Cerr line; EvAvioClose; EvFreeOutput] `suffix_of` evs
      ∧ videoFile w' = None ∧ context w' = None ∧ dstFrame w' = None
      ∧ frames w' !! srcFrame
        = Some (set_frame_pending (frame_videoPendingFrames fr - Z.of_nat j) fr)
      ∧ cvtCtx w' = cvtCtx w.
Proof.
  induction j as [|j IH]; intros i fuel w dst fr vf Hfuel Hd Hf Hv Hpb Hp Hok Hbad;
    (destruct fuel as [|fuel]; [lia|]);
    cbn [encode_loop]; rewrite Hd; cbn [deref mbind outcome_bind].
  - rewrite Nat.add_0_r in *.
    assert (set_frame_pending (frame_videoPendingFrames fr - Z.of_nat 0) fr = fr) as ->.
    { destruct fr. unfold set_frame_pending. cbn. f_equal. lia. }
    destruct (Z.ltb_spec (make_writable env i) 0) as [Hmw|Hmw].
    + unfold Cleanup. fields_cbn. rewrite Hv, Hpb.
      eexists _, _, _. split; [reflexivity|]. fields_cbn.
      split; [rewrite <- !app_assoc; reflexivity|].
      split; [reflexivity|]. split; [reflexivity|].
      split; [by exists []|]. done.
    + destruct Hbad as [Hbad|Hbad]; [lia|].
      destruct (Encode_outcome (encode env i) w)
        as ((Hc1 & Hs1 & Hd1 & Hv1 & Hf1) & Hok1 & _).
      destruct (Encode_sends (encode env i) w dst Hd)
        as (evs1 & Ht1 & Hsent1 & Hocc1 & Hlast1).
      destruct (Hlast1 Hbad) as (line & Hlast).
      apply last_Some in Hlast as [evs0 ->].
      destruct (Encode (encode env i) w) as [w1 ok]; cbn [fst snd] in *; subst ok.
      rewrite Hbad. cbn [negb].
      unfold Cleanup. fields_cbn. rewrite Hv1, Hv, Hpb.
      eexists _, _, line. split; [reflexivity|]. fields_cbn.
      split; [rewrite Ht1, <- !app_assoc; reflexivity|].
      split; [rewrite app_assoc, sent_frames_app, Hsent1; reflexivity|].
      split; [rewrite app_assoc, occurrences_app, Hocc1; reflexivity|].
      split; [by eexists|].
      split; [done|]. split; [done|]. split; [done|]. split; [congruence|done].
  - destruct (Hok i ltac:(lia)) as [Hmw Hen].
    assert ((make_writable env i <? 0) = false) as -> by lia.
    destruct (Encode_outcome (encode env i) w)
      as ((Hc1 & Hs1 & Hd1 & Hv1 & Hf1) & Hok1 & _).
    destruct (Encode_sends (encode env i) w dst Hd) as (evs1 & Ht1 & Hsent1 & Hocc1 & _).
    destruct (Encode (encode env i) w) as [w1 ok]; cbn [fst snd] in *; subst ok.
    rewrite Hen. cbn [negb]. fields_cbn. rewrite Hf1, Hf.
    cbn [deref mbind outcome_bind].
    destruct (Z.eqb_spec (frame_videoPendingFrames fr - 1) 0) as [E|_]; [lia|].
    set (fr1 := set_frame_pending (frame_videoPendingFrames fr - 1) fr).
    set (w3 := set_frames _ _).
    replace (i + S j)%nat with (S i + j)%nat in * by lia.
    destruct (IH (S i) fuel w3 (advance_pts 1 dst) fr1 vf) as
      (w' & evs & line & Hrun & Ht & Hsent & Hocc & Hsuf & Hv' & Hc' & Hd' & Hf' & Hs').
    { lia. }
    { reflexivity. }
    { subst w3. fields_cbn. apply lookup_insert_eq. }
    { subst w3. fields_cbn. congruence. }
    { done. }
    { subst fr1. cbn [frame_videoPendingFrames set_frame_pending]. lia. }
    { intros t Ht. apply Hok. lia. }
    { exact Hbad. }
    exists w', (evs1 ++ evs), line. split; [exact Hrun|].
    split; [rewrite Ht; subst w3; fields_cbn; rewrite Ht1, <- app_assoc; reflexivity|].
    split.
    { rewrite sent_frames_app, Hsent1, Hsent.
      replace (Z.of_nat (S j) + (if make_writable env (S i + j) <? 0 then 0 else 1))
        with (1 + (Z.of_nat j + (if make_writable env (S i + j) <? 0 then 0 else 1)))
        by lia.
      rewrite seqZ_step by (destruct (_ <? _); lia). reflexivity. }
    split; [rewrite occurrences_app, Hocc1, Hocc; reflexivity|].
    split; [by apply suffix_app_r|].
    split; [done|]. split; [done|]. split; [done|].
    split.
    { rewrite Hf'. subst fr1. unfold set_frame_pending. cbn. do 2 f_equal. lia. }
    rewrite Hs'. subst w3. fields_cbn. congruence.
Qed.

(** What the frame task does before the loop, for a frame with pixels
    while a file is open and video frames are pending. *)
Lemma run_CFrameTask_video (fr : CFrame) (w : WorkerState)
    (vf : AVFormatContext) (ctx : AVCodecContext) (dst : AVFrame) (px : N) :
  frames w !! srcFrame = Some fr →
  pixels (frame_data fr) = Some px →
  videoFile w = Some vf → context w = Some ctx → dstFrame w = Some dst →
  frame_videoPendingFrames fr ≠ 0 →
  ∃ w1 sws,
    trace w1 = trace (save_screenshots env (frame_screenshotPaths fr) w)
    ∧ context w1 = Some ctx ∧ dstFrame w1 = Some dst ∧ videoFile w1 = Some vf
    ∧ cvtCtx w1 = cvtCtx w
    ∧ frames w1 = <[srcFrame := set_frame_paths [] fr]> (frames w)
    ∧ run_CFrameTask srcFrame env w
      = if bool_decide (format (frame_data fr) = R10G10B10A2) && convert_failed env
        then Cleanup (emit (Cerr "Fail to convert frame for video") w1)
        else if sws_getCachedContext_null env
             then Cleanup (emit (Cerr "Fail to convert frame for video")
                             (set_cvtCtx None w1))
             else encode_loop (Z.to_nat (frame_videoPendingFrames fr)) 0 srcFrame env
                    (set_cvtCtx (Some sws) w1).
Proof.
  intros Hf Hpx Hv Hc Hd Hp.
  unfold run_CFrameTask. rewrite Hf. cbn [deref mbind outcome_bind]. rewrite Hpx.
  pose proof (save_screenshots_extends env (frame_screenshotPaths fr) w)
    as [_ (Hc1 & Hs1 & Hd1 & Hv1 & Hf1)].
  set (ws := save_screenshots env (frame_screenshotPaths fr) w) in *.
  fields_cbn. rewrite Hv1, Hv.
  cbn [frame_videoPendingFrames set_frame_paths].
  destruct (Z.eqb_spec (frame_videoPendingFrames fr) 0) as [E|_]; [done|].
  cbn [negb]. unfold encode_video. fields_cbn. rewrite Hc1, Hc.
  cbn [deref mbind outcome_bind frame_data set_frame_paths frame_videoPendingFrames].
  eexists (set_frames (<[srcFrame := set_frame_paths [] fr]> (frames ws)) ws), _.
  fields_cbn.
  split; [done|]. split; [congruence|]. split; [congruence|]. split; [congruence|].
  split; [congruence|]. split; [by rewrite Hf1|].
  destruct (_ && _); [reflexivity|].
  destruct (sws_getCachedContext_null env); [reflexivity|].
  rewrite Hd1, Hd. reflexivity.
Qed.

End FrameTask.

(** X13.  A frame task that runs while a file is open, for a frame with
    pixels and [n > 0] pending video frames, sends the converted picture
    to the encoder [n] times when nothing fails, with consecutive time
    stamps that start at the time stamp of the destination frame; it
    leaves that time stamp advanced by [n], the frame's pending count at
    zero, and the file open. *)
Theorem frame_task_sends_pending_copies (srcFrame : nat) (env : TaskEnv)
    (fr : CFrame) (w : WorkerState)
    (vf : AVFormatContext) (ctx : AVCodecContext) (dst : AVFrame) (px : N) :
  frames w !! srcFrame = Some fr →
  pixels (frame_data fr) = Some px →
  videoFile w = Some vf → context w = Some ctx → dstFrame w = Some dst →
  0 < frame_videoPendingFrames fr →
  bool_decide (format (frame_data fr) = R10G10B10A2) && convert_failed env = false →
  sws_getCachedContext_null env = false →
  (∀ j, (j < Z.to_nat (frame_videoPendingFrames fr))%nat →
        0 ≤ make_writable env j ∧ encode_succeeds (encode env j) = true) →
  ∃ w' evs,
    run_CFrameTask srcFrame env w = Done w'
    ∧ trace w' = trace (save_screenshots env (frame_screenshotPaths fr) w) ++ evs
    ∧ sent_frames evs = seqZ (frm_pts dst) (frame_videoPendingFrames fr)
    ∧ occurrences EvWriteTrailer evs = 0%nat
    ∧ dstFrame w' = Some (advance_pts (frame_videoPendingFrames fr) dst)
    ∧ frames w' !! srcFrame = Some (set_frame_pending 0 (set_frame_paths [] fr))
    ∧ videoFile w' = Some vf ∧ context w' = Some ctx.
Proof.
  intros Hf Hpx Hv Hc Hd Hp Hconv Hsws Hok.
  destruct (run_CFrameTask_video srcFrame env fr w vf ctx dst px Hf Hpx Hv Hc Hd
              ltac:(lia)) as (w1 & sws & Ht1 & Hc1 & Hd1 & Hv1 & _ & Hf1 & ->).
  rewrite Hconv, Hsws.
  destruct (Z.to_nat (frame_videoPendingFrames fr)) as [|k] eqn:Ek; [lia|].
  destruct (encode_loop_all_succeed srcFrame env k 0 (set_cvtCtx (Some sws) w1) dst
              (set_frame_paths [] fr))
    as (w' & evs & Hrun & Ht & Hsent & Hocc & Hd' & Hf' & Hv' & Hc' & _).
  { exact Hd1. }
  { fields_cbn. rewrite Hf1. apply lookup_insert_eq. }
  { cbn [frame_videoPendingFrames set_frame_paths]. lia. }
  { intros j Hj. apply Hok. lia. }
  assert (Z.of_nat (S k) = frame_videoPendingFrames fr) as Ek' by lia.
  rewrite Ek' in *.
  exists w', evs. split; [exact Hrun|].
  split; [rewrite Ht; fields_cbn; by rewrite Ht1|].
  split; [exact Hsent|]. split; [exact Hocc|]. split; [exact Hd'|].
  split; [rewrite Hf'; apply lookup_insert_eq|].
  split; [rewrite Hv'; exact Hv1|rewrite Hc'; exact Hc1].
Qed.

Lemma frame_task_sends_pending_copies_witness :
  ∃ w' evs,
    run_CFrameTask 1 smooth (recording_worker 3 [] (vga_frame (Some 1%N))) = Done w'
    ∧ trace w' = evs
    ∧ sent_frames evs = [0; 1; 2]
    ∧ (frm_pts <$> dstFrame w') = Some 3.
Proof.
  destruct (frame_task_sends_pending_copies 1 smooth
              {| frame_screenshotPaths := []; frame_videoPendingFrames := 3;
                 frame_ready := true; frame_data := vga_frame (Some 1%N) |}
              (recording_worker 3 [] (vga_frame (Some 1%N)))
              {| fmt_filename := "a.mp4"; fmt_pb := true |}
              (codec_context 640 480 false H264 smooth)
              (destination_frame false (codec_context 640 480 false H264 smooth))
              1%N eq_refl eq_refl eq_refl eq_refl eq_refl ltac:(reflexivity)
              eq_refl eq_refl
              ltac:(intros j _; split; [cbn; lia|reflexivity]))
    as (w' & evs & Hrun & Htr & Hsent & _ & Hd & _).
  exists w', evs. split; [exact Hrun|]. split; [exact Htr|].
  split; [exact Hsent|]. rewrite Hd. reflexivity.
Defined.

(** X14.  When the conversion of the picture fails (the 10-bit source cannot
    be converted, or no scaler is obtained), the frame task sends nothing
    to the encoder: it writes one error line, closes the file and frees
    the output context without writing a trailer, and releases the
    encoder context and the destination frame. *)
Theorem frame_task_conversion_failure_closes_file (srcFrame : nat) (env : TaskEnv)
    (fr : CFrame) (w : WorkerState)
    (vf : AVFormatContext) (ctx : AVCodecContext) (dst : AVFrame) (px : N) :
  frames w !! srcFrame = Some fr →
  pixels (frame_data fr) = Some px →
  videoFile w = Some vf → fmt_pb vf = true →
  context w = Some ctx → dstFrame w = Some dst →
  frame_videoPendingFrames fr ≠ 0 →
  bool_decide (format (frame_data fr) = R10G10B10A2) && convert_failed env
  || sws_getCachedContext_null env = true →
  ∃ w',
    run_CFrameTask srcFrame env w = Done w'
    ∧ trace w' = trace (save_screenshots env (frame_screenshotPaths fr) w)
                 ++ [Cerr "Fail to convert frame for video"; EvAvioClose; EvFreeOutput]
    ∧ videoFile w' = None ∧ context w' = None ∧ dstFrame w' = None
    ∧ frames w' !! srcFrame = Some (set_frame_paths [] fr).
Proof.
  intros Hf Hpx Hv Hpb Hc Hd Hp Hbad.
  destruct (run_CFrameTask_video srcFrame env fr w vf ctx dst px Hf Hpx Hv Hc Hd Hp)
    as (w1 & sws & Ht1 & Hc1 & Hd1 & Hv1 & _ & Hf1 & ->).
  destruct (_ && _); [|cbn in Hbad; rewrite Hbad];
    unfold Cleanup; fields_cbn; rewrite Hv1, Hpb;
    (eexists; split; [reflexivity|]); fields_cbn;
    (split; [rewrite Ht1, <- !app_assoc; reflexivity|]);
    rewrite Hf1, lookup_insert_eq; done.
Qed.

Lemma frame_task_conversion_failure_closes_file_witness :
  let env := {| find_encoder_null := false; alloc_context3_null := false;
                default_thread_count := 1; hardware_concurrency := 8;
                opt_set_crf := 0; opt_set_preset := 0; avcodec_open2 := 0;
                frame_alloc_null := false; frame_get_buffer := 0;
                to_bytes_throws := false;
                alloc_output_context2 := 0; new_stream_null := false;
                parameters_from_context := 0; avio_open := 0; write_header := 0;
                write_trailer := 0; avio_closep := 0;
                encode := encode smooth; path_extension := path_extension smooth;
                save := save smooth; convert_failed := false;
                sws_getCachedContext_null := true; make_writable := λ _, 0 |} in
  ∃ w',
    run_CFrameTask 1 env (recording_worker 3 [] (vga_frame (Some 1%N))) = Done w'
    ∧ trace w' = [Cerr "Fail to convert frame for video"; EvAvioClose; EvFreeOutput]
    ∧ videoFile w' = None.
Proof.
  intros env.
  destruct (frame_task_conversion_failure_closes_file 1 env
              {| frame_screenshotPaths := []; frame_videoPendingFrames := 3;
                 frame_ready := true; frame_data := vga_frame (Some 1%N) |}
              (recording_worker 3 [] (vga_frame (Some 1%N)))
              {| fmt_filename := "a.mp4"; fmt_pb := true |}
              (codec_context 640 480 false H264 smooth)
              (destination_frame false (codec_context 640 480 false H264 smooth))
              1%N eq_refl eq_refl eq_refl eq_refl eq_refl eq_refl
              ltac:(discriminate) eq_refl)
    as (w' & Hrun & Htr & Hv & _).
  exists w'. split; [exact Hrun|]. split; [exact Htr|exact Hv].
Defined.

(** X15.  When the picture is converted and the first [j] copies are encoded
    but preparing or encoding the next one fails, the frame task stops
    there: the copies sent have consecutive time stamps, the last thing
    written is an error line followed by the close of the file and the
    release of the output context, no trailer is written, the encoder
    context and the destination frame are released, and the pending
    count of the frame stays at what was left. *)
Theorem frame_task_encode_failure_closes_file (srcFrame : nat) (env : TaskEnv)
    (fr : CFrame) (w : WorkerState)
    (vf : AVFormatContext) (ctx : AVCodecContext) (dst : AVFrame) (px : N) (j : nat) :
  frames w !! srcFrame = Some fr →
  pixels (frame_data fr) = Some px →
  videoFile w = Some vf → fmt_pb vf = true →
  context w = Some ctx → dstFrame w = Some dst →
  Z.of_nat j < frame_videoPendingFrames fr →
  bool_decide (format (frame_data fr) = R10G10B10A2) && convert_failed env = false →
  sws_getCachedContext_null env = false →
  (∀ t, (t < j)%nat → 0 ≤ make_writable env t ∧ encode_succeeds (encode env t) = true) →
  make_writable env j < 0 ∨ encode_succeeds (encode env j) = false →
  ∃ w' evs line,
    run_CFrameTask srcFrame env w = Done w'
    ∧ trace w' = trace (save_screenshots env (frame_screenshotPaths fr) w) ++ evs
    ∧ sent_frames evs
      = seqZ (frm_pts dst) (Z.of_nat j + (if make_writable env j <? 0 then 0 else 1))
    ∧ occurrences EvWriteTrailer evs = 0%nat
    ∧ [Cerr line; EvAvioClose; EvFreeOutput] `suffix_of` evs
    ∧ videoFile w' = None ∧ context w' = None ∧ dstFrame w' = None
    ∧ frames w' !! srcFrame
      = Some (set_frame_pending (frame_videoPendingFrames fr - Z.of_nat j)
                (set_frame_paths [] fr)).
Proof.
  intros Hf Hpx Hv Hpb Hc Hd Hp Hconv Hsws Hok Hbad.
  destruct (run_CFrameTask_video srcFrame env fr w vf ctx dst px Hf Hpx Hv Hc Hd
              ltac:(lia)) as (w1 & sws & Ht1 & Hc1 & Hd1 & Hv1 & _ & Hf1 & ->).
  rewrite Hconv, Hsws.
  destruct (encode_loop_fails_at srcFrame env j 0
              (Z.to_nat (frame_videoPendingFrames fr)) (set_cvtCtx (Some sws) w1) dst
              (set_frame_paths [] fr) vf)
    as (w' & evs & line & Hrun & Ht & Hsent & Hocc & Hsuf & Hv' & Hc' & Hd' & Hf' & _).
  { lia. }
  { exact Hd1. }
  { fields_cbn. rewrite Hf1. apply lookup_insert_eq. }
  { exact Hv1. }
  { exact Hpb. }
  { cbn [frame_videoPendingFrames set_frame_paths]. lia. }
  { intros t Ht. apply Hok. lia. }
  { exact Hbad. }
  exists w', evs, line. split; [exact Hrun|].
  split; [rewrite Ht; fields_cbn; by rewrite Ht1|].
  split; [exact Hsent|]. split; [exact Hocc|]. split; [exact Hsuf|].
  split; [exact Hv'|]. split; [exact Hc'|]. split; [exact Hd'|exact Hf'].
Qed.

Lemma frame_task_encode_failure_closes_file_witness :
  ∃ w' evs,
    run_CFrameTask 1 second_write_fails (recording_worker 3 [] (vga_frame (Some 1%N)))
    = Done w'
    ∧ trace w' = evs
    ∧ sent_frames evs = [0; 1]
    ∧ [Cerr "Fail to write video data to file"; EvAvioClose; EvFreeOutput]
      `suffix_of` evs
    ∧ videoFile w' = None
    ∧ (frame_videoPendingFrames <$> frames w' !! 1%nat) = Some 2.
Proof.
  destruct (frame_task_encode_failure_closes_file 1 second_write_fails
              {| frame_screenshotPaths := []; frame_videoPendingFrames := 3;
                 frame_ready := true; frame_data := vga_frame (Some 1%N) |}
              (recording_worker 3 [] (vga_frame (Some 1%N)))
              {| fmt_filename := "a.mp4"; fmt_pb := true |}
              (codec_context 640 480 false H264 smooth)
              (destination_frame false (codec_context 640 480 false H264 smooth))
              1%N 1 eq_refl eq_refl eq_refl eq_refl eq_refl eq_refl
              ltac:(reflexivity) eq_refl eq_refl
              ltac:(intros [|t] Ht; [split; [cbn; lia|reflexivity]|lia])
              ltac:(right; reflexivity))
    as (w' & evs & line & Hrun & Htr & Hsent & _ & Hsuf & Hv & _ & _ & Hf).
  exists w', evs. split; [exact Hrun|]. split; [exact Htr|].
  split; [exact Hsent|]. split; [|split; [exact Hv|rewrite Hf; reflexivity]].
  vm_compute in Hrun. injection Hrun as <-. cbn in Htr. subst evs.
  by exists [EvSendFrame 0; EvWritePacket; EvSendFrame 1; EvWritePacket; EvWritePacket].
Defined.

(** ** Error *)

Lemma Error_cases (st : Status) (errorMsgPrefix : string) (r : CVideoRecorder) :
  match taskQueue r with
  | _ :: _ => Error st errorMsgPrefix r = Fails Waiting
  | [] =>
      ∃ r' line,
        Error st errorMsgPrefix r = Done r'
        ∧ taskQueue r' = [] ∧ executed r' = executed r
        ∧ submitted r' = submitted r ∧ finish r' = finish r
        ∧ match st, videoFile (worker r) with
          | CLEAN, Some vf =>
              trace (worker r')
              = trace (worker r)
                ++ Cerr line :: (if fmt_pb vf then [EvAvioClose] else []) ++ [EvFreeOutput]
              ∧ context (worker r') = None ∧ dstFrame (worker r') = None
              ∧ videoFile (worker r') = None
              ∧ cvtCtx (worker r') = cvtCtx (worker r)
              ∧ frames (worker r') = frames (worker r)
          | _, _ => worker r' = emit (Cerr line) (worker r)
          end
  end.
Proof.
  unfold Error. destruct (taskQueue r) eqn:Hq; [|done].
  destruct st.
  - eexists _, _. split; [reflexivity|]. cbn. rewrite Hq. done.
  - eexists _, _. split; [reflexivity|]. cbn. rewrite Hq. done.
  - fields_cbn. destruct (videoFile (worker r)) as [vf|] eqn:Hv.
    + unfold Cleanup. fields_cbn. rewrite Hv. cbn [mbind outcome_bind].
      eexists _, _. split; [reflexivity|]. cbn.
      destruct (fmt_pb vf); cbn; rewrite <- !app_assoc; done.
    + eexists _, _. split; [reflexivity|]. cbn. rewrite Hq. done.
Qed.

(** X16.  [Error] goes on only when the queue is empty.  Then it writes its
    line and, unless it is called under [CLEAN] while an output context
    exists, changes nothing else; under [CLEAN] with an output context it
    closes the file (if its [pb] is open) and frees the output context
    without writing a trailer, and releases the encoder context and the
    destination frame. *)
Theorem Error_outcome (st : Status) (errorMsgPrefix : string) (r : CVideoRecorder) :
  match taskQueue r with
  | _ :: _ => Error st errorMsgPrefix r = Fails Waiting
  | [] =>
      ∃ r' line,
        Error st errorMsgPrefix r = Done r'
        ∧ taskQueue r' = [] ∧ executed r' = executed r
        ∧ submitted r' = submitted r ∧ finish r' = finish r
        ∧ match st, videoFile (worker r) with
          | CLEAN, Some vf =>
              trace (worker r')
              = trace (worker r)
                ++ Cerr line :: (if fmt_pb vf then [EvAvioClose] else []) ++ [EvFreeOutput]
              ∧ context (worker r') = None ∧ dstFrame (worker r') = None
              ∧ videoFile (worker r') = None
              ∧ cvtCtx (worker r') = cvtCtx (worker r)
              ∧ frames (worker r') = frames (worker r)
          | _, _ => worker r' = emit (Cerr line) (worker r)
          end
  end.
Proof. apply Error_cases. Qed.

(** * The worker's state and trace over whole runs *)

Lemma protocol_app (p p1 : Phase) (a b : list Event) :
  protocol p a = Some p1 → protocol p (a ++ b) = protocol p1 b.
Proof.
  revert p. induction a as [|ev a IH]; intros p; simpl.
  - intros; simplify_eq; done.
  - destruct (protocol_step p ev); [apply IH|done].
Qed.

Lemma protocol_app_None (p : Phase) (a b : list Event) :
  protocol p a = None → protocol p (a ++ b) = None.
Proof.
  revert p. induction a as [|ev a IH]; intros p; simpl; [done|].
  destruct (protocol_step p ev); [apply IH|done].
Qed.

Lemma protocol_prefix (p q : Phase) (tr pre : list Event) :
  protocol p tr = Some q → pre `prefix_of` tr → is_Some (protocol p pre).
Proof.
  intros Htr [k ->]. destruct (protocol p pre) eqn:E; [by eexists|].
  by rewrite (protocol_app_None _ _ _ E) in Htr.
Qed.

Lemma protocol_written (n : Z) (k : nat) (l : list Event) :
  protocol (Recording n) (replicate k EvWritePacket ++ l) = protocol (Recording n) l.
Proof. induction k as [|k IH]; [done|]. exact IH. Qed.

Lemma moves_refl (p : Phase) (w : WorkerState) : moves p w w p.
Proof. exists []. by rewrite app_nil_r. Qed.

Lemma moves_trans (p1 p2 p3 : Phase) (w1 w2 w3 : WorkerState) :
  moves p1 w1 w2 p2 → moves p2 w2 w3 p3 → moves p1 w1 w3 p3.
Proof.
  intros (a & Ha & Pa) (b & Hb & Pb). exists (a ++ b).
  rewrite Hb, Ha, app_assoc, (protocol_app _ _ _ _ Pa). done.
Qed.

Lemma moves_emit (ev : Event) (p p1 p2 : Phase) (w0 w : WorkerState) :
  moves p w0 w p1 → protocol_step p1 ev = Some p2 → moves p w0 (emit ev w) p2.
Proof.
  intros H Hstep. eapply moves_trans; [exact H|].
  exists [ev]. split; [done|]. simpl. by rewrite Hstep.
Qed.

Lemma moves_fields (p p1 : Phase) (w0 w w' : WorkerState) :
  trace w' = trace w → moves p w0 w p1 → moves p w0 w' p1.
Proof. intros Ht (a & Ha & Pa). exists a. by rewrite Ht. Qed.

Lemma moves_set_context (c : option AVCodecContext) (p p1 : Phase) (w0 w : WorkerState) :
  moves p w0 w p1 → moves p w0 (set_context c w) p1.
Proof. apply moves_fields. reflexivity. Qed.

Lemma moves_set_cvtCtx (c : option SwsContext) (p p1 : Phase) (w0 w : WorkerState) :
  moves p w0 w p1 → moves p w0 (set_cvtCtx c w) p1.
Proof. apply moves_fields. reflexivity. Qed.

Lemma moves_set_dstFrame (d : option AVFrame) (p p1 : Phase) (w0 w : WorkerState) :
  moves p w0 w p1 → moves p w0 (set_dstFrame d w) p1.
Proof. apply moves_fields. reflexivity. Qed.

Lemma moves_set_videoFile (v : option AVFormatContext) (p p1 : Phase)
    (w0 w : WorkerState) :
  moves p w0 w p1 → moves p w0 (set_videoFile v w) p1.
Proof. apply moves_fields. reflexivity. Qed.

Lemma moves_set_frames (m : gmap nat CFrame) (p p1 : Phase) (w0 w : WorkerState) :
  moves p w0 w p1 → moves p w0 (set_frames m w) p1.
Proof. apply moves_fields. reflexivity. Qed.

(** Follow the events that a piece of code adds, innermost first. *)
Ltac walk :=
  lazymatch goal with
  | |- moves _ _ (emit _ _) _ => eapply moves_emit; [walk|reflexivity]
  | |- moves _ _ (set_context _ _) _ => apply moves_set_context; walk
  | |- moves _ _ (set_cvtCtx _ _) _ => apply moves_set_cvtCtx; walk
  | |- moves _ _ (set_dstFrame _ _) _ => apply moves_set_dstFrame; walk
  | |- moves _ _ (set_videoFile _ _) _ => apply moves_set_videoFile; walk
  | |- moves _ _ (set_frames _ _) _ => apply moves_set_frames; walk
  | |- moves _ ?w ?w _ => apply moves_refl
  | |- _ => first [ eassumption | (eapply moves_trans; [|eassumption]; walk) ]
  end.

(** ** Single functions *)

Lemma only_logs_coherent (w w' : WorkerState) :
  only_logs w w' → coherent w → coherent w'.
Proof. intros (Hc & _ & Hd & Hv & _). unfold coherent. by rewrite Hc, Hd, Hv. Qed.

Lemma only_logs_phase (w w' : WorkerState) : only_logs w w' → phase_of w' = phase_of w.
Proof. intros (_ & _ & Hd & Hv & _). unfold phase_of. by rewrite Hd, Hv. Qed.

Lemma Encode_moves (e : EncodeEnv) (w : WorkerState) (dst : AVFrame) :
  dstFrame w = Some dst →
  moves (Recording (frm_pts dst)) w (Encode e w).1 (Recording (frm_pts dst + 1)).
Proof.
  intros Hd. destruct (Encode_outcome e w) as (_ & _ & line & Ht).
  eexists. split; [exact Ht|]. rewrite Hd. cbn [from_option protocol protocol_step].
  rewrite bool_decide_eq_true_2 by done. rewrite protocol_written.
  by destruct (encode_succeeds e).
Qed.

Lemma set_options_moves (filename : string) (crf : Z) (preset : Preset)
    (env : TaskEnv) (p : Phase) (w : WorkerState) :
  moves p w (set_options filename crf preset env w) p.
Proof.
  unfold set_options.
  set (w1 := if crf =? -1 then w else _).
  assert (moves p w w1 p) as H1.
  { subst w1. destruct (crf =? -1); [|destruct (opt_set_crf env <? 0)]; walk. }
  clearbody w1.
  destruct preset as [|name|]; simpl; [done| |];
    [destruct (opt_set_preset env <? 0)|]; walk.
Qed.

Lemma save_screenshots_moves (env : TaskEnv) (paths : list string) (p : Phase)
    (w : WorkerState) :
  moves p w (save_screenshots env paths w) p.
Proof.
  revert w. induction paths as [|path paths IH]; intros w; simpl; [apply moves_refl|].
  eapply moves_trans; [|apply IH].
  unfold save_screenshot. destruct (path_extension env path) as [ext|]; [|walk].
  destruct (GetScreenshotCodec _) as [codec fallback].
  destruct fallback, (save env path); walk.
Qed.

(** How [Cleanup] ends when it does not read through a null pointer. *)
Lemma Cleanup_inv (w w' : WorkerState) :
  Cleanup w = Done w' →
  ∃ vf, videoFile w = Some vf
        ∧ w' = emit EvFreeOutput
                 (set_videoFile None
                    (if fmt_pb vf
                     then emit EvAvioClose (set_dstFrame None (set_context None w))
                     else set_dstFrame None (set_context None w))).
Proof.
  unfold Cleanup. fields_cbn. destruct (videoFile w) as [vf|]; [|done].
  intros; simplify_eq. by exists vf.
Qed.

Ltac fields_cbn_in H :=
  cbn [videoFile context dstFrame frames cvtCtx trace
       emit set_context set_cvtCtx set_dstFrame set_videoFile set_frames] in H.

Ltac after_Cleanup H :=
  let vf := fresh "vf" in
  let Hvf := fresh "Hvf" in
  apply Cleanup_inv in H as (vf & Hvf & ->);
  fields_cbn_in Hvf; rewrite ?videoFile_set_options in Hvf; fields_cbn_in Hvf.

Lemma coherent_closed (w : WorkerState) :
  videoFile w = None → context w = None → dstFrame w = None → coherent w.
Proof. unfold coherent. by intros -> -> ->. Qed.

Lemma coherent_open (w : WorkerState) (vf : AVFormatContext)
    (ctx : AVCodecContext) (dst : AVFrame) :
  videoFile w = Some vf → fmt_pb vf = true →
  context w = Some ctx → dstFrame w = Some dst →
  ctx_pix_fmt ctx = AV_PIX_FMT_YUV420P →
  frm_width dst = ctx_width ctx → frm_height dst = ctx_height ctx →
  0 ≤ frm_pts dst →
  coherent w.
Proof. unfold coherent. intros -> ? -> -> ????. split; [done|]. by eexists _, _. Qed.

Lemma coherent_open_inv (w : WorkerState) (vf : AVFormatContext) :
  coherent w → videoFile w = Some vf →
  fmt_pb vf = true
  ∧ ∃ ctx dst,
      context w = Some ctx ∧ dstFrame w = Some dst
      ∧ ctx_pix_fmt ctx = AV_PIX_FMT_YUV420P
      ∧ frm_width dst = ctx_width ctx ∧ frm_height dst = ctx_height ctx
      ∧ 0 ≤ frm_pts dst.
Proof. unfold coherent. intros H Hv. by rewrite Hv in H. Qed.

Lemma coherent_closed_inv (w : WorkerState) :
  coherent w → videoFile w = None → context w = None ∧ dstFrame w = None.
Proof. unfold coherent. intros H Hv. by rewrite Hv in H. Qed.

(** ** The stop request *)

Lemma run_CStopVideoRecordRequest_steady (m : bool) (env : TaskEnv)
    (w w' : WorkerState) :
  coherent w →
  run_CStopVideoRecordRequest m env w = Done w' →
  coherent w' ∧ moves (phase_of w) w w' NoFile
  ∧ videoFile w' = None ∧ cvtCtx w' = cvtCtx w.
Proof.
  intros Hco. destruct (videoFile w) as [vf|] eqn:Hv.
  2:{ rewrite run_CStopVideoRecordRequest_without_file by done.
      intros; simplify_eq. unfold phase_of. rewrite Hv.
      destruct m; (split; [|split; [walk|done]]);
        (eapply only_logs_coherent; [|exact Hco]); done. }
  destruct (coherent_open_inv _ _ Hco Hv) as (Hpb & ctx & dst & Hc & Hd & _).
  unfold phase_of. rewrite Hv, Hd. cbn [from_option].
  unfold run_CStopVideoRecordRequest.
  set (w0 := if m then w else emit _ w).
  assert (moves (Recording (frm_pts dst)) w w0 (Recording (frm_pts dst))
          ∧ only_logs w w0) as [H0 L0].
  { subst w0. destruct m; (split; [walk|done]). }
  clearbody w0. destruct L0 as (_ & Hs0 & Hd0 & Hv0 & _). rewrite Hv0, Hv.
  pose proof (Encode_moves (encode env 0%nat) w0 dst ltac:(congruence)) as H1.
  pose proof (Encode_extends (encode env 0%nat) w0) as [_ (_ & Hs1 & _ & Hv1 & _)].
  destruct (Encode _ w0) as [w1 ok]. cbn [fst snd] in *.
  destruct (write_trailer env <? 0), (avio_closep env <? 0);
    unfold Cleanup; fields_cbn; cbn [mbind outcome_bind];
    intros; simplify_eq; fields_cbn;
    (split; [by apply coherent_closed|]);
    (split; [|split; [done|congruence]]);
    destruct ok; walk.
Qed.

(** ** The start request *)

Lemma open_session_steady
    (filename : string) (width height : Z) (_10bit highFPS : bool)
    (codecID : Codec) (crf : Z) (preset : Preset)
    (env : TaskEnv) (w w' : WorkerState) :
  videoFile w = None → dstFrame w = None →
  open_session filename width height _10bit highFPS codecID crf preset env w = Done w' →
  coherent w' ∧ moves NoFile w w' (phase_of w') ∧ cvtCtx w' = cvtCtx w.
Proof.
  intros Hv Hd. unfold open_session.
  pose proof (set_options_moves filename crf preset env NoFile
                (set_context (Some (codec_context width height highFPS codecID env)) w))
    as Hmo.
  pose proof (set_options_extends filename crf preset env
                (set_context (Some (codec_context width height highFPS codecID env)) w))
    as [_ (Hco & Hso & Hdo & Hvo & _)].
  set (wo := set_options _ _ _ _ _) in *.
  assert (moves NoFile w wo NoFile) as Hwo by walk.
  cbn [videoFile context dstFrame cvtCtx set_context] in Hco, Hso, Hdo, Hvo.
  clearbody wo. clear Hmo.
  repeat case_match; intros Hrun; simplify_eq;
    try (rewrite Cleanup_without_file in Hrun by fields; discriminate);
    try (after_Cleanup Hrun; simplify_eq; cbn [fmt_pb]);
    unfold phase_of; fields_cbn; rewrite ?Hv;
    cbn [from_option destination_frame frm_pts];
    (split; [first [ by apply coherent_closed
                   | eapply coherent_open; fields_cbn; done ]|]);
    (split; [walk|congruence]).
Qed.

Lemma try_open_session_steady
    (filename : string) (width height : Z) (_10bit highFPS : bool)
    (codecID : Codec) (crf : Z) (preset : Preset)
    (env : TaskEnv) (w w' : WorkerState) :
  coherent w → videoFile w = None →
  try_open_session filename width height _10bit highFPS codecID crf preset env w
  = Done w' →
  coherent w' ∧ moves NoFile w w' (phase_of w') ∧ cvtCtx w' = cvtCtx w.
Proof.
  intros Hco Hv. destruct (coherent_closed_inv _ Hco Hv) as [Hc Hd].
  unfold try_open_session.
  destruct codecID; try destruct (find_encoder_null env);
    try (apply open_session_steady; done);
    intros; simplify_eq; unfold phase_of; fields_cbn; rewrite Hv;
    (split; [by apply coherent_closed|]); (split; [walk|done]).
Qed.

Lemma run_CStartVideoRecordRequest_steady
    (filename : string) (width height : Z) (_10bit highFPS : bool)
    (codecID : Codec) (crf : Z) (preset : Preset) (matchedStop : bool)
    (env : TaskEnv) (w w' : WorkerState) :
  coherent w →
  run_CStartVideoRecordRequest filename width height _10bit highFPS codecID crf
    preset matchedStop env w = Done w' →
  coherent w' ∧ moves (phase_of w) w w' (phase_of w') ∧ cvtCtx w' = cvtCtx w.
Proof.
  intros Hco. unfold run_CStartVideoRecordRequest.
  pose proof (warn_unmatched_start_extends matchedStop w) as [_ L0].
  assert (moves (phase_of w) w (warn_unmatched_start matchedStop w) (phase_of w)) as H0.
  { unfold warn_unmatched_start. destruct matchedStop; walk. }
  pose proof (only_logs_coherent _ _ L0 Hco) as Hco0.
  pose proof (only_logs_phase _ _ L0) as Hph0.
  destruct L0 as (_ & Hs0 & _ & _ & _).
  set (w0 := warn_unmatched_start matchedStop w) in *. clearbody w0.
  destruct (videoFile w0) as [vf|] eqn:Hv.
  - destruct (run_CStopVideoRecordRequest true env w0) as [w1|] eqn:Hs; [|done].
    apply run_CStopVideoRecordRequest_steady in Hs as (Hco1 & H1 & Hv1 & Hs1); [|done].
    cbn [mbind outcome_bind]. intros Ho.
    apply try_open_session_steady in Ho as (Hco2 & H2 & Hs2); [|done..].
    rewrite Hph0 in H1. split; [done|]. split; [walk|congruence].
  - cbn [mbind outcome_bind]. intros Ho.
    apply try_open_session_steady in Ho as (Hco2 & H2 & Hs2); [|done..].
    assert (phase_of w0 = NoFile) as Hn by (unfold phase_of; by rewrite Hv).
    rewrite <- Hph0, Hn in *. split; [done|]. split; [walk|congruence].
Qed.

(** ** The frame task *)

Lemma phase_of_open (w : WorkerState) (vf : AVFormatContext) (dst : AVFrame) :
  videoFile w = Some vf → dstFrame w = Some dst → phase_of w = Recording (frm_pts dst).
Proof. unfold phase_of. by intros -> ->. Qed.

Lemma phase_of_closed (w : WorkerState) : videoFile w = None → phase_of w = NoFile.
Proof. unfold phase_of. by intros ->. Qed.

Lemma encode_loop_steady (srcFrame : nat) (env : TaskEnv) (fuel : nat) :
  ∀ (i : nat) (w w' : WorkerState),
    coherent w → videoFile w ≠ None →
    encode_loop fuel i srcFrame env w = Done w' →
    coherent w' ∧ moves (phase_of w) w w' (phase_of w') ∧ cvtCtx w' = cvtCtx w.
Proof.
  induction fuel as [|fuel IH]; intros i w w' Hco Hvn; [done|].
  destruct (videoFile w) as [vf|] eqn:Hv; [clear Hvn|done].
  destruct (coherent_open_inv _ _ Hco Hv)
    as (Hpb & ctx & dst & Hc & Hd & Hpix & Hwd & Hht & Hpts).
  rewrite (phase_of_open w vf dst Hv Hd).
  cbn [encode_loop]. rewrite Hd. cbn [deref mbind outcome_bind].
  destruct (make_writable env i <? 0).
  { intros Hrun. after_Cleanup Hrun. rewrite Hv in Hvf. injection Hvf as <-.
    rewrite Hpb. rewrite phase_of_closed by done.
    split; [by apply coherent_closed|]. split; [walk|done]. }
  pose proof (Encode_moves (encode env i) w dst Hd) as H1.
  pose proof (Encode_extends (encode env i) w) as [_ (Hc1 & Hs1 & Hd1 & Hv1 & Hf1)].
  destruct (Encode _ w) as [w1 ok]. cbn [fst snd] in *.
  destruct ok; cbn [negb].
  2:{ intros Hrun. after_Cleanup Hrun. rewrite Hv1, Hv in Hvf. injection Hvf as <-.
      rewrite Hpb. rewrite phase_of_closed by done.
      split; [by apply coherent_closed|]. split; [walk|done]. }
  fields_cbn. destruct (frames w1 !! srcFrame) as [fr|]; [|done].
  cbn [deref mbind outcome_bind].
  set (dst1 := {| frm_format := frm_format dst; frm_width := frm_width dst;
                  frm_height := frm_height dst; frm_pts := frm_pts dst + 1 |}).
  set (w3 := set_frames _ _).
  assert (coherent w3) as Hco3.
  { apply (coherent_open w3 vf ctx dst1); subst w3 dst1; fields_cbn;
      cbn [frm_width frm_height frm_pts]; try congruence; lia. }
  assert (moves (Recording (frm_pts dst)) w w3 (Recording (frm_pts dst + 1))) as H3.
  { subst w3. walk. }
  assert (phase_of w3 = Recording (frm_pts dst + 1)) as Hph3.
  { apply (phase_of_open w3 vf dst1); subst w3; fields_cbn; congruence. }
  assert (cvtCtx w3 = cvtCtx w) as Hs3 by (subst w3; fields_cbn; congruence).
  assert (videoFile w3 ≠ None) as Hv3 by (subst w3; fields_cbn; congruence).
  clearbody w3.
  destruct (_ =? 0).
  - intros; simplify_eq. rewrite Hph3. done.
  - intros Hrun. apply IH in Hrun as (Hco' & H' & Hs'); [|done..].
    rewrite Hph3 in H'. split; [done|]. split; [walk|congruence].
Qed.

Lemma encode_video_steady (srcFrame : nat) (fr : CFrame) (env : TaskEnv)
    (w w' : WorkerState) :
  coherent w → scales_from_BGRA w → videoFile w ≠ None →
  encode_video srcFrame fr env w = Done w' →
  coherent w' ∧ scales_from_BGRA w' ∧ moves (phase_of w) w w' (phase_of w').
Proof.
  intros Hco Hsc Hvn.
  destruct (videoFile w) as [vf|] eqn:Hv; [clear Hvn|done].
  destruct (coherent_open_inv _ _ Hco Hv)
    as (Hpb & ctx & dst & Hc & Hd & Hpix & Hwd & Hht & Hpts).
  unfold encode_video. rewrite Hc. cbn [deref mbind outcome_bind].
  rewrite Hpix.
  destruct (_ && _).
  { intros Hrun. after_Cleanup Hrun. rewrite Hv in Hvf. injection Hvf as <-.
    rewrite Hpb, (phase_of_open w vf dst Hv Hd), phase_of_closed by done.
    split; [by apply coherent_closed|]. split; [exact Hsc|walk]. }
  destruct (sws_getCachedContext_null env).
  { intros Hrun. after_Cleanup Hrun. rewrite Hv in Hvf. injection Hvf as <-.
    rewrite Hpb, (phase_of_open w vf dst Hv Hd), phase_of_closed by done.
    split; [by apply coherent_closed|]. split; [done|walk]. }
  set (w1 := set_cvtCtx _ w).
  assert (coherent w1) as Hco1.
  { apply (coherent_open w1 vf ctx dst); done. }
  assert (scales_from_BGRA w1) as Hsc1.
  { intros sws Hs. subst w1. cbn in Hs. injection Hs as <-. cbn.
    by destruct (format (frame_data fr)). }
  assert (moves (phase_of w) w w1 (phase_of w1)) as H1 by (subst w1; walk).
  assert (videoFile w1 ≠ None) as Hv1 by (subst w1; fields_cbn; congruence).
  assert (dstFrame w1 = Some dst) as Hd1 by done.
  clearbody w1. rewrite Hd1. cbn [deref mbind outcome_bind].
  intros Hrun. apply encode_loop_steady in Hrun as (Hco' & H' & Hs'); [|done..].
  split; [done|]. split; [|walk].
  intros sws. rewrite Hs'. apply Hsc1.
Qed.

Lemma run_CFrameTask_steady (srcFrame : nat) (env : TaskEnv) (w w' : WorkerState) :
  coherent w → scales_from_BGRA w →
  run_CFrameTask srcFrame env w = Done w' →
  coherent w' ∧ scales_from_BGRA w' ∧ moves (phase_of w) w w' (phase_of w')
  ∧ (videoFile w = None → videoFile w' = None).
Proof.
  intros Hco Hsc. unfold run_CFrameTask.
  destruct (frames w !! srcFrame) as [fr|]; [|done].
  cbn [deref mbind outcome_bind].
  destruct (pixels (frame_data fr)).
  2:{ intros; simplify_eq. split; [exact Hco|]. split; [exact Hsc|].
      split; [|done]. change (phase_of (emit invalid_frame_line w)) with (phase_of w).
      walk. }
  pose proof (save_screenshots_moves env (frame_screenshotPaths fr) (phase_of w) w) as H1.
  pose proof (save_screenshots_extends env (frame_screenshotPaths fr) w) as [_ L1].
  set (ws := save_screenshots env (frame_screenshotPaths fr) w) in *. clearbody ws.
  set (w1 := set_frames _ ws).
  assert (only_logs_but_frames : context w1 = context w ∧ cvtCtx w1 = cvtCtx w
                                 ∧ dstFrame w1 = dstFrame w ∧ videoFile w1 = videoFile w).
  { destruct L1 as (?&?&?&?&?). subst w1. fields_cbn. done. }
  destruct only_logs_but_frames as (Hc1 & Hs1 & Hd1 & Hv1).
  assert (coherent w1) as Hco1 by (unfold coherent in *; by rewrite Hc1, Hd1, Hv1).
  assert (scales_from_BGRA w1) as Hsc1 by (unfold scales_from_BGRA; by rewrite Hs1).
  assert (phase_of w1 = phase_of w) as Hph1 by (unfold phase_of; by rewrite Hd1, Hv1).
  assert (moves (phase_of w) w w1 (phase_of w)) as H2 by (subst w1; walk).
  clearbody w1. rewrite <- Hv1.
  destruct (videoFile w1) as [vf|] eqn:Hv.
  2:{ intros; simplify_eq. rewrite Hph1. done. }
  destruct (negb _).
  2:{ intros; simplify_eq. rewrite Hph1. done. }
  intros Hrun. apply encode_video_steady in Hrun as (Hco' & Hsc' & H'); [|done..|congruence].
  rewrite Hph1 in H'. split; [done|]. split; [done|]. split; [walk|done].
Qed.

(** ** Tasks, Error, steps and runs *)

Lemma run_task_steady (t : ITask) (env : TaskEnv) (w w' : WorkerState) :
  coherent w → scales_from_BGRA w →
  run_task t env w = Done w' →
  coherent w' ∧ scales_from_BGRA w' ∧ moves (phase_of w) w w' (phase_of w').
Proof.
  intros Hco Hsc. destruct t; cbn [run_task]; intros Hrun.
  - apply run_CFrameTask_steady in Hrun as (? & ? & ? & _); done.
  - apply run_CStartVideoRecordRequest_steady in Hrun as (? & ? & Hs); [|done].
    split; [done|]. split; [|done]. unfold scales_from_BGRA. by rewrite Hs.
  - apply run_CStopVideoRecordRequest_steady in Hrun as (? & ? & Hv & Hs); [|done].
    rewrite (phase_of_closed w') by done.
    split; [done|]. split; [|done]. unfold scales_from_BGRA. by rewrite Hs.
Qed.

Lemma Error_steady (st : Status) (errorMsgPrefix : string) (r r' : CVideoRecorder) :
  coherent (worker r) → scales_from_BGRA (worker r) →
  Error st errorMsgPrefix r = Done r' →
  coherent (worker r') ∧ scales_from_BGRA (worker r')
  ∧ moves (phase_of (worker r)) (worker r) (worker r') (phase_of (worker r')).
Proof.
  intros Hco Hsc Hrun. pose proof (Error_cases st errorMsgPrefix r) as Hout.
  destruct (taskQueue r); [|congruence].
  destruct Hout as (r1 & line & Hrun1 & _ & _ & _ & _ & Hw).
  rewrite Hrun in Hrun1. injection Hrun1 as <-.
  assert (worker r' = emit (Cerr line) (worker r) →
          coherent (worker r') ∧ scales_from_BGRA (worker r')
          ∧ moves (phase_of (worker r)) (worker r) (worker r') (phase_of (worker r')))
    as Hlog.
  { intros ->. split; [exact Hco|]. split; [exact Hsc|].
    change (phase_of (emit (Cerr line) (worker r))) with (phase_of (worker r)). walk. }
  destruct st; [by apply Hlog..|].
  destruct (videoFile (worker r)) as [vf|] eqn:Hv; [|by apply Hlog].
  destruct Hw as (Ht & Hc' & Hd' & Hv' & Hs' & _).
  destruct (coherent_open_inv _ _ Hco Hv) as (Hpb & ctx & dst & _ & Hd & _).
  rewrite Hpb in Ht.
  rewrite (phase_of_open _ vf dst Hv Hd), (phase_of_closed _ Hv').
  split; [by apply coherent_closed|]. split; [unfold scales_from_BGRA; by rewrite Hs'|].
  eexists. split; [exact Ht|]. reflexivity.
Qed.

Lemma step_steady (l : Label) (r r' : CVideoRecorder) :
  coherent (worker r) → scales_from_BGRA (worker r) →
  step l r = Done r' →
  coherent (worker r') ∧ scales_from_BGRA (worker r')
  ∧ moves (phase_of (worker r)) (worker r) (worker r') (phase_of (worker r')).
Proof.
  intros Hco Hsc.
  assert (∀ m, coherent (set_frames m (worker r))
               ∧ scales_from_BGRA (set_frames m (worker r))
               ∧ moves (phase_of (worker r)) (worker r) (set_frames m (worker r))
                   (phase_of (set_frames m (worker r)))) as Hframes.
  { intros m. split; [exact Hco|]. split; [exact Hsc|].
    change (phase_of (set_frames m (worker r))) with (phase_of (worker r)). walk. }
  assert (coherent (worker r) ∧ scales_from_BGRA (worker r)
          ∧ moves (phase_of (worker r)) (worker r) (worker r) (phase_of (worker r)))
    as Hsame by (split; [done|]; split; [done|apply moves_refl]).
  destruct l as [c|f|f|env]; cbn [step].
  - destruct c; cbn [apply_cmd]; intros Hrun.
    + simplify_eq. exact Hsame.
    + simplify_eq. exact Hsame.
    + simplify_eq. apply Hframes.
    + simplify_eq. exact Hsame.
    + by eapply Error_steady.
  - intros; simplify_eq. apply Hframes.
  - intros; simplify_eq. exact Hsame.
  - intros Hrun.
    apply Process_cases in Hrun as [->|(k & t & rest & w' & _ & _ & _ & Hr & ->)];
      [exact Hsame|].
    by apply (run_task_steady t env).
Qed.

Lemma run_steady (ls : list Label) :
  ∀ r r' : CVideoRecorder,
    coherent (worker r) → scales_from_BGRA (worker r) →
    run ls r = Done r' →
    coherent (worker r') ∧ scales_from_BGRA (worker r')
    ∧ moves (phase_of (worker r)) (worker r) (worker r') (phase_of (worker r')).
Proof.
  induction ls as [|l ls IH]; intros r r' Hco Hsc; cbn [run].
  - intros; simplify_eq. split; [done|]. split; [done|apply moves_refl].
  - destruct (step l r) as [r1|] eqn:Hs; [|done]. cbn [mbind outcome_bind].
    intros Hrun. apply step_steady in Hs as (Hco1 & Hsc1 & H1); [|done..].
    apply IH in Hrun as (Hco' & Hsc' & H'); [|done..].
    split; [done|]. split; [done|]. by eapply moves_trans.
Qed.

Lemma new_worker_steady : coherent new_worker ∧ scales_from_BGRA new_worker.
Proof. split; [by apply coherent_closed|]. intros sws Hs. discriminate Hs. Qed.

(** ** The same at the fine grain *)

Lemma on_shared_Done (f : CVideoRecorder → outcome CVideoRecorder) (b b' : Live) :
  on_shared f b = Done b' →
  ∃ r, f (shared b) = Done r ∧ b' = {| shared := r; running := running b |}.
Proof.
  unfold on_shared. destruct (f (shared b)) as [r|]; [|done].
  cbn [mbind outcome_bind]. intros; simplify_eq. by exists r.
Qed.

Lemma Process_pop_cases (b b' : Live) :
  Process_pop b = Done b' →
  b' = b
  ∨ ∃ k t rest,
      running b = None ∧ finish (shared b) = false
      ∧ taskQueue (shared b) = (k, t) :: rest
      ∧ b' = {| shared := set_taskQueue rest (shared b); running := Some (k, t) |}.
Proof.
  unfold Process_pop. destruct (running b) eqn:Hr; [intros; simplify_eq; by left|].
  destruct (finish (shared b)) eqn:Hf; [intros; simplify_eq; by left|].
  destruct (taskQueue (shared b)) as [|[k t] rest] eqn:Hq; [intros; simplify_eq; by left|].
  destruct (task_ready t _) as [[]|]; cbn [mbind outcome_bind]; intros; simplify_eq;
    [right|by left].
  exists k, t, rest. done.
Qed.

Lemma Process_invoke_cases (env : TaskEnv) (b b' : Live) :
  Process_invoke env b = Done b' →
  (running b = None ∧ b' = b)
  ∨ ∃ k t w,
      running b = Some (k, t)
      ∧ run_task t env (worker (shared b)) = Done w
      ∧ b' = {| shared := {| worker := w; taskQueue := taskQueue (shared b);
                             finish := finish (shared b);
                             submitted := submitted (shared b);
                             executed := executed (shared b) ++ [(k, t)] |};
                running := None |}.
Proof.
  unfold Process_invoke. destruct (running b) as [[k t]|] eqn:Hr;
    [|intros; simplify_eq; by left].
  destruct (run_task t env _) as [w|] eqn:Hrun; cbn [mbind outcome_bind];
    intros; simplify_eq.
  right. exists k, t, w. done.
Qed.

(** An iteration of [Process] is its two halves, one after the other. *)
Lemma Process_pop_invoke (env : TaskEnv) (r : CVideoRecorder) :
  (b ← Process_pop (idle r); Process_invoke env b) = (r' ← Process env r; Done (idle r')).
Proof.
  unfold Process_pop, Process, idle. cbn [running shared].
  destruct (finish r) eqn:Hf; [done|].
  destruct (taskQueue r) as [|[k t] rest]; [done|].
  destruct (task_ready t (worker r)) as [[]|]; cbn [mbind outcome_bind]; [|done..].
  unfold Process_invoke.
  cbn [running shared set_taskQueue worker taskQueue finish submitted executed].
  destruct (run_task t env (worker r)); cbn [mbind outcome_bind]; [|done].
  by rewrite Hf.
Qed.

Lemma acts_app (l1 l2 : list Act) (b : Live) :
  acts (l1 ++ l2) b = b1 ← acts l1 b; acts l2 b1.
Proof.
  revert b. induction l1 as [|a l1 IH]; intros b; cbn; [done|].
  destruct (act a b); cbn; [apply IH|done].
Qed.

(** Every interleaving at the coarse grain is one at the fine grain. *)
Lemma run_fine (ls : list Label) :
  ∀ r r' : CVideoRecorder, run ls r = Done r' → acts (fine ls) (idle r) = Done (idle r').
Proof.
  induction ls as [|l ls IH]; intros r r'; cbn [run]; [by intros; simplify_eq|].
  destruct (step l r) as [r1|] eqn:Hs; [|done]. cbn [mbind outcome_bind].
  intros Hrun. unfold fine. cbn [mbind list_bind mapM]. change (ls ≫= as_acts) with (fine ls).
  rewrite acts_app.
  assert (acts (as_acts l) (idle r) = Done (idle r1)) as ->; [|by apply IH].
  destruct l as [c|f|f|env]; cbn [as_acts acts act step] in *.
  - unfold on_shared, idle. cbn [shared running]. rewrite Hs. done.
  - unfold on_shared, idle. cbn [shared running]. by simplify_eq.
  - unfold on_shared, idle. cbn [shared running]. by simplify_eq.
  - pose proof (Process_pop_invoke env r) as Hpi. rewrite Hs in Hpi.
    cbn [mbind outcome_bind] in Hpi.
    destruct (Process_pop (idle r)) as [b|]; [|done]. cbn [mbind outcome_bind] in *.
    rewrite Hpi. done.
Qed.

Lemma act_steady (a : Act) (b b' : Live) :
  coherent (worker (shared b)) → scales_from_BGRA (worker (shared b)) →
  act a b = Done b' →
  coherent (worker (shared b')) ∧ scales_from_BGRA (worker (shared b'))
  ∧ moves (phase_of (worker (shared b))) (worker (shared b)) (worker (shared b'))
      (phase_of (worker (shared b'))).
Proof.
  intros Hco Hsc.
  assert (coherent (worker (shared b)) ∧ scales_from_BGRA (worker (shared b))
          ∧ moves (phase_of (worker (shared b))) (worker (shared b)) (worker (shared b))
              (phase_of (worker (shared b))))
    as Hsame by (split; [done|]; split; [done|apply moves_refl]).
  destruct a as [c|f|f| |env]; cbn [act]; intros Hrun.
  - apply on_shared_Done in Hrun as (r & Hr & ->). cbn [shared].
    by apply (step_steady (Caller c)).
  - apply on_shared_Done in Hrun as (r & Hr & ->). cbn [shared].
    by apply (step_steady (FrameReady f)).
  - apply on_shared_Done in Hrun as (r & Hr & ->). cbn [shared].
    by apply (step_steady (FrameCancel f)).
  - apply Process_pop_cases in Hrun as [->|(k & t & rest & _ & _ & _ & ->)]; done.
  - apply Process_invoke_cases in Hrun as [[_ ->]|(k & t & w & _ & Hr & ->)]; [done|].
    cbn [shared worker]. by apply (run_task_steady t env).
Qed.

Lemma acts_steady (l : list Act) :
  ∀ b b' : Live,
    coherent (worker (shared b)) → scales_from_BGRA (worker (shared b)) →
    acts l b = Done b' →
    coherent (worker (shared b')) ∧ scales_from_BGRA (worker (shared b'))
    ∧ moves (phase_of (worker (shared b))) (worker (shared b)) (worker (shared b'))
        (phase_of (worker (shared b'))).
Proof.
  induction l as [|a l IH]; intros b b' Hco Hsc; cbn [acts].
  - intros; simplify_eq. split; [done|]. split; [done|apply moves_refl].
  - destruct (act a b) as [b1|] eqn:Hs; [|done]. cbn [mbind outcome_bind].
    intros Hrun. apply act_steady in Hs as (Hco1 & Hsc1 & H1); [|done..].
    apply IH in Hrun as (Hco' & Hsc' & H'); [|done..].
    split; [done|]. split; [done|]. by eapply moves_trans.
Qed.

(** Log lines do not matter to the protocol. *)
Lemma protocol_calls_made (tr : list Event) (p : Phase) :
  protocol p (calls_made tr) = protocol p tr.
Proof.
  revert p. unfold calls_made.
  induction tr as [|ev tr IH]; intros p; [done|].
  rewrite filter_cons. destruct (decide (is_log ev = false)) as [Hev|Hev].
  - cbn [protocol]. destruct (protocol_step p ev); [apply IH|done].
  - rewrite IH. cbn [protocol]. by destruct ev.
Qed.

(** X17.  The tasks of the worker allocate and release the encoder
    context, the destination frame and the output file together.  On
    every interleaving of the callers, the producers and the worker in
    which [Error] is not called under [CLEAN] (it would release them on
    the calling thread, whatever the worker is doing), before and after
    every task there is neither context nor frame while no file is
    open, and while one is open it has been opened successfully ([pb]
    is set), the context has the pixel format YUV420P, and the frame has
    the context's width and height and a time stamp that is not
    negative. *)
Theorem session_resources_exist_together (l : list Act) (b : Live) :
  Forall (λ a, act_cleans a = false) l →
  acts l (idle new_recorder) = Done b →
  coherent (worker (shared b)).
Proof.
  intros _ Hrun.
  by apply acts_steady in Hrun as (? & _); [|apply new_worker_steady..].
Qed.

Lemma session_resources_exist_together_witness :
  let l := fine (firstn 14 three_samples)
           ++ [Pops; Calls (ErrorCall OK "Fail to sample frame")] in
  ∃ b, acts l (idle new_recorder) = Done b
       ∧ running b = Some (2%nat, CFrameTask 2)
       ∧ fmt_filename <$> videoFile (worker (shared b)) = Some "a.mp4"
       ∧ coherent (worker (shared b)).
Proof.
  intros l. eexists. split; [vm_compute; reflexivity|]. split; [reflexivity|].
  split; [reflexivity|].
  apply (session_resources_exist_together l).
  - apply (bool_decide_unpack _). vm_compute. exact I.
  - vm_compute. reflexivity.
Defined.

(** X18.  The calls that the worker makes to the encoder and the output
    file follow the protocol of the output file, on every interleaving
    in which [Error] is not called under [CLEAN], and so does every
    initial part of them: the codec is opened only while no file exists;
    a file is allocated, opened and given its header in this order;
    frames are sent and packets written only after the header and
    before the trailer or the close; the time stamps of the frames sent
    in a session are 0, 1, 2, ... without a gap; a file is closed at most
    once, after at most one trailer, and freed after it was closed or
    before it was ever opened.  Between tasks the protocol is in the
    phase that the worker's fields stand for. *)
Theorem worker_follows_protocol (l : list Act) (b : Live) :
  Forall (λ a, act_cleans a = false) l →
  acts l (idle new_recorder) = Done b →
  protocol NoFile (calls_made (trace (worker (shared b))))
  = Some (phase_of (worker (shared b)))
  ∧ ∀ pre, pre `prefix_of` calls_made (trace (worker (shared b))) →
           is_Some (protocol NoFile pre).
Proof.
  intros _ Hrun.
  apply acts_steady in Hrun as (_ & _ & evs & Ht & Hp); [|apply new_worker_steady..].
  cbn in Ht.
  assert (protocol NoFile (calls_made (trace (worker (shared b))))
          = Some (phase_of (worker (shared b)))) as H.
  { rewrite protocol_calls_made, Ht. exact Hp. }
  split; [exact H|]. intros pre. by eapply protocol_prefix.
Qed.

Lemma worker_follows_protocol_witness :
  ∃ b, acts (fine three_samples) (idle new_recorder) = Done b
       ∧ sent_frames (trace (worker (shared b))) = [0; 1; 2; 3; 4; 5]
       ∧ protocol NoFile (calls_made (trace (worker (shared b)))) = Some NoFile.
Proof.
  eexists. split; [vm_compute; reflexivity|]. split; [reflexivity|].
  apply (worker_follows_protocol (fine three_samples)).
  - apply (bool_decide_unpack _). vm_compute. exact I.
  - vm_compute. reflexivity.
Defined.

(** X19.  The scaler is only ever asked to convert from BGRA.  The encoder
    context always has the pixel format YUV420P, also for a session that
    was started as 10-bit, so a source frame in the format R10G10B10A2 is
    always reduced to B8G8R8A8 first and the conversion through RGBA64 is
    never chosen. *)
Theorem scaler_always_converts_from_BGRA (ls : list Label) (r : CVideoRecorder)
    (sws : SwsContext) :
  run ls new_recorder = Done r →
  cvtCtx (worker r) = Some sws →
  sws_srcFormat sws = AV_PIX_FMT_BGRA.
Proof.
  intros Hrun. apply run_steady in Hrun as (_ & Hsc & _); [|apply new_worker_steady..].
  apply Hsc.
Qed.

Lemma scaler_always_converts_from_BGRA_witness :
  let deep := {| format := R10G10B10A2; width := 640; height := 480; stride := 2560;
                 pixels := Some 1%N |} in
  let ls := [Caller (PushBack (CStartVideoRecordRequest "a.mp4" 640 480 true false
                                 H264 (-1) Default true));
             WorkerTurn smooth;
             Caller (NewFrame 1 {| frame_screenshotPaths := [];
                                   frame_videoPendingFrames := 1;
                                   frame_ready := true; frame_data := deep |});
             Caller (PushBack (CFrameTask 1));
             WorkerTurn smooth] in
  ∃ r sws,
    run ls new_recorder = Done r
    ∧ frm_format <$> dstFrame (worker r) = Some AV_PIX_FMT_YUV420P10
    ∧ cvtCtx (worker r) = Some sws
    ∧ sws_srcFormat sws = AV_PIX_FMT_BGRA.
Proof.
  intros deep ls. eexists _, _.
  split; [vm_compute; reflexivity|]. split; [reflexivity|]. split; [reflexivity|].
  apply (scaler_always_converts_from_BGRA ls _ _ ltac:(vm_compute; reflexivity)).
  reflexivity.
Defined.

(** * Stopping, destroying, and a frame that is never made ready *)

Lemma may_be_open_mono (b : bool) (q : list ITask) :
  may_be_open true q = false → may_be_open b q = false.
Proof.
  revert b. induction q as [|t q IH]; intros b; cbn.
  - done.
  - destruct t; auto.
Qed.

Lemma may_be_open_app (b : bool) (q1 q2 : list ITask) :
  may_be_open b (q1 ++ q2) = may_be_open (may_be_open b q1) q2.
Proof.
  revert b. induction q1 as [|t q1 IH]; intros b; cbn; [done|]. destruct t; apply IH.
Qed.

Lemma may_be_open_le (b b' : bool) (q : list ITask) :
  (b = false → b' = false) → may_be_open b q = false → may_be_open b' q = false.
Proof.
  intros Hle. destruct b.
  - apply may_be_open_mono.
  - by rewrite Hle.
Qed.

Lemma find_if_spec {A} (pred : A → bool) (l : list A) :
  find_if pred l = length l
  ∨ ∃ l1 x l2, l = l1 ++ x :: l2 ∧ Forall (λ y, pred y = false) l1 ∧ pred x = true.
Proof.
  induction l as [|x l IH]; [by left|]. cbn. destruct (pred x) eqn:Hx.
  - right. exists [], x, l. done.
  - destruct IH as [->|(l1 & y & l2 & -> & Hl1 & Hy)]; [by left|].
    right. exists (x :: l1), y, l2. split; [done|]. split; [|done]. by constructor.
Qed.

Lemma Cancel_queue_inv (this : nat) (q : list (nat * ITask)) :
  Cancel_queue this q = q
  ∨ ∃ q1 t q2, q = q1 ++ t :: q2 ∧ cancel_pred this t = true
               ∧ Cancel_queue this q = q1 ++ q2.
Proof.
  destruct (find_if_spec (cancel_pred this) q) as [Hn|(q1 & t & q2 & -> & H1 & Ht)].
  - left. unfold Cancel_queue. by rewrite bool_decide_eq_true_2.
  - right. exists q1, t, q2. split; [done|]. split; [done|]. by apply Cancel_queue_found.
Qed.

Lemma may_be_open_Cancel (this : nat) (b : bool) (q : list (nat * ITask)) :
  may_be_open b (Cancel_queue this q).*2 = may_be_open b q.*2.
Proof.
  destruct (Cancel_queue_inv this q) as [->|(q1 & [k t] & q2 & -> & Ht & ->)]; [done|].
  rewrite !fmap_app, !may_be_open_app. cbn.
  unfold cancel_pred in Ht. cbn in Ht. by destruct t.
Qed.

Lemma run_CFrameTask_opens_nothing (srcFrame : nat) (env : TaskEnv) (w w' : WorkerState) :
  run_CFrameTask srcFrame env w = Done w' → videoFile w = None → videoFile w' = None.
Proof.
  unfold run_CFrameTask. destruct (frames w !! srcFrame) as [fr|]; [|done].
  cbn [deref mbind outcome_bind]. intros Hrun Hv.
  destruct (pixels (frame_data fr)); [|by simplify_eq].
  pose proof (save_screenshots_extends env (frame_screenshotPaths fr) w)
    as [_ (_ & _ & _ & Hv1 & _)].
  revert Hrun. fields_cbn. rewrite Hv1, Hv. intros; simplify_eq. fields_cbn. congruence.
Qed.

Lemma session_open_false (w : WorkerState) : videoFile w = None → session_open w = false.
Proof. unfold session_open. by intros ->. Qed.

(** A task leaves no more open than it stands for. *)
Lemma run_task_may_be_open (t : ITask) (env : TaskEnv) (w w' : WorkerState)
    (q : list ITask) :
  run_task t env w = Done w' →
  may_be_open (session_open w) (t :: q) = false →
  may_be_open (session_open w') q = false.
Proof.
  destruct t; cbn [run_task may_be_open]; intros Hr.
  - intros Hb. destruct (session_open w) eqn:Hso.
    + by apply may_be_open_mono.
    + rewrite session_open_false; [done|].
      eapply run_CFrameTask_opens_nothing; [done|].
      unfold session_open in Hso. by destruct (videoFile w).
  - apply may_be_open_mono.
  - apply run_CStopVideoRecordRequest_extends in Hr as (_ & Hv & _).
    by rewrite session_open_false.
Qed.

(** [Error] leaves the queue empty and opens no file. *)
Lemma Error_opens_nothing (st : Status) (errorMsgPrefix : string)
    (r r' : CVideoRecorder) :
  Error st errorMsgPrefix r = Done r' →
  taskQueue r = [] ∧ taskQueue r' = []
  ∧ (session_open (worker r) = false → session_open (worker r') = false).
Proof.
  intros Hrun. pose proof (Error_cases st errorMsgPrefix r) as Hout.
  destruct (taskQueue r) eqn:Hq; [|congruence].
  destruct Hout as (r1 & line & Hrun1 & Hq' & _ & _ & _ & Hw).
  rewrite Hrun in Hrun1. injection Hrun1 as <-.
  split; [done|]. split; [done|].
  destruct st; [cbn in Hw; by rewrite Hw..|].
  destruct (videoFile (worker r)) as [vf|] eqn:Hv.
  - destruct Hw as (_ & _ & _ & Hv' & _). intros _. by apply session_open_false.
  - by rewrite Hw.
Qed.

(** A step leaves no more to record than the caller has asked for. *)
Lemma act_may_record (a : Act) (b b' : Live) :
  act a b = Done b' →
  requested_by (may_record b) a = false → may_record b' = false.
Proof.
  unfold may_record. destruct a as [c|f|f| |env]; cbn [act requested_by]; intros Hrun.
  - apply on_shared_Done in Hrun as (r & Hr & ->). cbn [shared in_flight running].
    destruct c; cbn [apply_cmd requested] in *; simplify_eq; try done.
    + unfold in_flight. cbn. rewrite fmap_app, app_assoc, !may_be_open_app. cbn.
      by destruct t.
    + apply Error_opens_nothing in Hr as (Hq & Hq' & Hopen).
      rewrite Hq, Hq'. cbn [fmap list_fmap]. rewrite !app_nil_r.
      apply may_be_open_le. exact Hopen.
  - apply on_shared_Done in Hrun as (r & Hr & ->). by simplify_eq.
  - apply on_shared_Done in Hrun as (r & Hr & ->). simplify_eq.
    cbn [shared in_flight running Cancel set_taskQueue worker taskQueue].
    by rewrite !may_be_open_app, may_be_open_Cancel.
  - apply Process_pop_cases in Hrun as [->|(k & t & rest & Hn & _ & Hq & ->)]; [done|].
    unfold in_flight. rewrite Hn, Hq. done.
  - apply Process_invoke_cases in Hrun as [[_ ->]|(k & t & w & Hn & Hr & ->)]; [done|].
    unfold in_flight. rewrite Hn. cbn [shared running worker taskQueue app].
    by apply (run_task_may_be_open t env).
Qed.

Lemma requested_by_mono (l : list Act) (b : bool) :
  foldl requested_by true l = false → foldl requested_by b l = false.
Proof.
  revert b. induction l as [|a l IH]; intros b; cbn; [done|].
  destruct a as [[]| | | |]; cbn; auto.
  destruct t; auto.
Qed.

Lemma acts_may_record (l : list Act) :
  ∀ b b' : Live,
    acts l b = Done b' →
    foldl requested_by (may_record b) l = false → may_record b' = false.
Proof.
  induction l as [|a l IH]; intros b b'; cbn [acts foldl].
  - intros; simplify_eq. done.
  - destruct (act a b) as [b1|] eqn:Hs; [|done]. cbn [mbind outcome_bind].
    intros Hrun Hb. apply (IH b1); [done|].
    destruct (requested_by (may_record b) a) eqn:Ha.
    + by apply requested_by_mono.
    + by rewrite (act_may_record _ _ _ Hs Ha).
Qed.

Lemma no_start_requested (l : list Act) :
  Forall (λ a, pushes_start a = false) l → foldl requested_by false l = false.
Proof.
  induction 1 as [|a l Ha _ IH]; [done|]. cbn.
  destruct a as [[]| | | |]; cbn; try done.
  by destruct t.
Qed.

(** X20.  Once a stop request has been queued and no start request after
    it, the recorder has no file open as soon as its queue is empty and
    the worker has returned from the task it took last, whatever its
    state was before and whatever the worker, the producers and the
    other calls do in between, [Error] under [CLEAN] apart.  An empty
    queue alone is not enough: the stop request, or a task before it,
    may still be running. *)
Theorem stop_request_leaves_no_file (l : list Act) (matchedStart : bool)
    (b0 b : Live) :
  acts (Calls (PushBack (CStopVideoRecordRequest matchedStart)) :: l) b0 = Done b →
  Forall (λ a, pushes_start a = false) l →
  Forall (λ a, act_cleans a = false) l →
  taskQueue (shared b) = [] →
  running b = None →
  videoFile (worker (shared b)) = None.
Proof.
  intros Hrun Hno _ Hq Hidle.
  apply acts_may_record in Hrun.
  - unfold may_record, session_open, in_flight in Hrun.
    rewrite Hq, Hidle in Hrun. cbn in Hrun.
    by destruct (videoFile (worker (shared b))).
  - cbn. by apply no_start_requested.
Qed.

Lemma stop_request_leaves_no_file_witness :
  let l := fine [Caller (NewFrame 2 {| frame_screenshotPaths := ["shot.png"];
                                       frame_videoPendingFrames := 0;
                                       frame_ready := true;
                                       frame_data := vga_frame (Some 1%N) |});
                 Caller (PushBack (CFrameTask 2));
                 WorkerTurn smooth; WorkerTurn smooth] in
  ∃ b0 b1 b,
    acts (fine (firstn 12 three_samples)) (idle new_recorder) = Done b0
    ∧ acts [Calls (PushBack (CStopVideoRecordRequest true)); Pops] b0 = Done b1
    ∧ taskQueue (shared b1) = []
    ∧ fmt_filename <$> videoFile (worker (shared b1)) = Some "a.mp4"
    ∧ acts (Calls (PushBack (CStopVideoRecordRequest true)) :: l) b0 = Done b
    ∧ saved_paths (trace (worker (shared b))) = ["shot.png"]
    ∧ videoFile (worker (shared b)) = None.
Proof.
  intros l. eexists _, _, _.
  match goal with
  | |- _ = Done ?b0 ∧ _ ∧ _ ∧ _ ∧ _ = Done ?b ∧ _ => pose (B0 := b0); pose (B := b)
  end.
  split; [vm_compute; reflexivity|].
  split; [vm_compute; reflexivity|].
  split; [reflexivity|]. split; [reflexivity|].
  split; [vm_compute; reflexivity|].
  split; [reflexivity|].
  apply (stop_request_leaves_no_file l true B0 B).
  - vm_compute. reflexivity.
  - apply (bool_decide_unpack _). vm_compute. exact I.
  - apply (bool_decide_unpack _). vm_compute. exact I.
  - reflexivity.
  - reflexivity.
Defined.
(** ** The destructor *)

Lemma requested_mono (k : list Cmd) (b : bool) :
  foldl requested true k = false → foldl requested b k = false.
Proof.
  revert b. induction k as [|c k IH]; intros b; cbn; [done|].
  destruct c; cbn; auto.
  destruct t; auto.
Qed.

Lemma requested_by_caller_cmds (l : list Act) (b : bool) :
  foldl requested_by b l = foldl requested b (caller_cmds l).
Proof.
  revert b. induction l as [|a l IH]; intros b; [done|].
  destruct a; cbn; apply IH.
Qed.

(** What has been pushed bounds what has been requested. *)
Lemma requested_pushed (k : list Cmd) (b : bool) :
  may_be_open b (pushed k) = false → foldl requested b k = false.
Proof.
  revert b. induction k as [|c k IH]; intros b; cbn; [done|].
  destruct c as [| | |t|st ?]; cbn; auto.
  destruct t; cbn; auto.
Qed.

Lemma mode_stopped_closes (ts : list ITask) (m : RecordMode) (b : bool) :
  foldl mode_after m ts = STOPPED → (m = STOPPED → b = false) →
  may_be_open b ts = false.
Proof.
  revert m b. induction ts as [|t ts IH]; intros m b; cbn.
  - auto.
  - destruct t as [f|? ? ? ? hf ? ? ? ?|?]; cbn; intros Hm Hb.
    + by apply (IH m).
    + apply (IH _ _ Hm). by destruct hf.
    + by apply (IH _ _ Hm).
Qed.

Lemma call_status (tps : Z) (c : Call) (s s' : CallerState) (cmds : list Cmd) :
  call tps c s = Returned (s', cmds) → status s' = status s.
Proof.
  destruct c; cbn [call]; intros Hc.
  - by apply SampleFrame_frame in Hc as (_ & ? & _).
  - by apply StartRecord_outcome in Hc as [(_ & e & _ & ->)|(_ & ->)].
  - by apply StopRecord_outcome in Hc as [(_ & ->)|(_ & -> & _)].
  - by apply Screenshot_outcome in Hc as [_ [-> | ->]].
Qed.

Lemma calls_status (tps : Z) (cs : list Call) :
  ∀ (s s' : CallerState) (cmds : list Cmd),
    calls tps cs s = Returned (s', cmds) → status s' = status s.
Proof.
  induction cs as [|c cs IH]; intros s s' cmds; cbn [calls].
  - intros; by simplify_eq.
  - destruct (call tps c s) as [[s1 c1]| |] eqn:Hc; [|done..].
    destruct (calls tps cs s1) as [[s2 c2]| |] eqn:Hcs; [|done..].
    intros; simplify_eq. apply call_status in Hc. apply IH in Hcs. congruence.
Qed.

(** With an empty queue, a step of the worker or of a producer leaves it
    empty, leaves [finish] as it is, and takes no task. *)
Lemma act_idle (a : Act) (b b' : Live) :
  from_caller a = false →
  act a b = Done b' →
  taskQueue (shared b) = [] →
  taskQueue (shared b') = [] ∧ finish (shared b') = finish (shared b)
  ∧ (running b = None → running b' = None).
Proof.
  destruct a as [c|f|f| |env]; [done|..]; intros _; cbn [act].
  - intros Hrun. apply on_shared_Done in Hrun as (r & Hr & ->). by simplify_eq.
  - intros Hrun Hq. apply on_shared_Done in Hrun as (r & Hr & ->). simplify_eq.
    cbn. by rewrite Hq.
  - intros Hrun Hq.
    apply Process_pop_cases in Hrun as [->|(k & t & rest & _ & _ & Hq' & _)]; [done|].
    congruence.
  - intros Hrun Hq.
    by apply Process_invoke_cases in Hrun as [[_ ->]|(k & t & w & Hn & Hr & ->)].
Qed.

Lemma moment_may_record (m : Moment) (b b' : Live) :
  no_call m = true →
  match m with Closes (Stopping _) => False | _ => True end →
  moment m b = Done b' →
  may_record b = false → may_record b' = false.
Proof.
  destruct m as [c|a]; cbn [moment no_call].
  - intros _ Hc. destruct c; cbn [apply_closing]; try done.
    + destruct (taskQueue (shared b)); intros; by simplify_eq.
    + intros Hrun. apply on_shared_Done in Hrun as (r & Hr & ->). by simplify_eq.
    + intros Hrun. apply on_shared_Done in Hrun as (r & Hr & ->). by simplify_eq.
    + destruct (running b); [done|]. destruct (finish (shared b)); intros; by simplify_eq.
  - intros Ha _ Hs Hb. apply negb_true_iff in Ha.
    apply (act_may_record _ _ _ Hs). by destruct a.
Qed.

(** The end of the destructor: [finish] is set and the worker joined,
    which has returned from the task it took last. *)
Lemma shutdown_idle (ms : list Moment) :
  ∀ b b' : Live,
    Forall (λ m, no_call m = true) ms →
    Forall (λ c, c = SetFinish ∨ c = Join) (closings ms) →
    SetFinish ∈ closings ms ∨ finish (shared b) = true →
    Join ∈ closings ms ∨ running b = None →
    taskQueue (shared b) = [] → may_record b = false →
    shutdown ms b = Done b' →
    finish (shared b') = true ∧ taskQueue (shared b') = [] ∧ running b' = None
    ∧ may_record b' = false.
Proof.
  induction ms as [|m ms IH]; intros b b' Hno Hcl Hfin Hjoin Hq Hv; cbn [shutdown].
  - intros; simplify_eq.
    destruct Hfin as [Hin|Hf]; [by apply elem_of_nil in Hin|].
    destruct Hjoin as [Hin|Hj]; [by apply elem_of_nil in Hin|done].
  - apply Forall_cons in Hno as [Hm Hno].
    destruct (moment m b) as [b1|] eqn:Hs; [|done]. cbn [mbind outcome_bind].
    intros Hrun. destruct m as [c|a]; cbn [closings omap] in *.
    + apply Forall_cons in Hcl as [Hc Hcl].
      pose proof (moment_may_record (Closes c) b b1 Hm) as Hv1.
      destruct Hc as [-> | ->]; specialize (Hv1 I Hs Hv);
        cbn [moment apply_closing] in Hs.
      * apply on_shared_Done in Hs as (r & Hr & ->). simplify_eq.
        apply (IH _ _ Hno Hcl) in Hrun; [done|by right| |done..].
        destruct Hjoin as [Hin|Hj]; [|by right].
        apply elem_of_cons in Hin as [?|Hin]; [done|by left].
      * destruct (running b) eqn:Hr; [done|].
        destruct (finish (shared b)) eqn:Hf; [|done]. simplify_eq.
        apply (IH _ _ Hno Hcl) in Hrun; [done|by right|by right|done..].
    + pose proof (moment_may_record (Meanwhile a) b b1 Hm I Hs Hv) as Hv1.
      cbn in Hm. apply negb_true_iff in Hm. cbn [moment] in Hs.
      destruct (act_idle _ _ _ Hm Hs Hq) as (Hq1 & Hf1 & Hr1).
      apply (IH _ _ Hno Hcl) in Hrun; [done| | |done..].
      * destruct Hfin as [Hin|Hfin]; [by left|right; congruence].
      * destruct Hjoin as [Hin|Hj]; [by left|right; auto].
Qed.

(** The destructor from the point where its effects are
    [pre ++ (Stopping <$> k) ++ [AwaitEmptyQueue; SetFinish; Join]]. *)
Lemma shutdown_finishes (ms : list Moment) :
  ∀ (b b' : Live) (pre : list Closing) (k : list Cmd),
    Forall (λ m, no_call m = true) ms →
    closings ms = pre ++ (Stopping <$> k) ++ [AwaitEmptyQueue; SetFinish; Join] →
    Forall (λ c, c = AwaitEmptyQueue ∨ c = WarnDestroying) pre →
    (pre = [] → foldl requested (may_record b) k = false) →
    (∀ o, pre ≠ [] → foldl requested o k = false) →
    shutdown ms b = Done b' →
    finish (shared b') = true ∧ taskQueue (shared b') = [] ∧ running b' = None
    ∧ may_record b' = false.
Proof.
  induction ms as [|m ms IH]; intros b b' pre k Hno Hcl Hpre Hk Hany; cbn [shutdown].
  - cbn in Hcl. by destruct pre, k.
  - apply Forall_cons in Hno as [Hm Hno].
    destruct (moment m b) as [b1|] eqn:Hs; [|done]. cbn [mbind outcome_bind].
    intros Hrun. destruct m as [c|a]; cbn [closings omap] in Hcl.
    2:{ apply (IH b1 b' pre k); try done.
        intros Hp. specialize (Hk Hp).
        destruct (may_record b) eqn:Hb.
        - by apply requested_mono.
        - by rewrite (moment_may_record _ _ _ Hm I Hs Hb). }
    destruct pre as [|c0 pre].
    + destruct k as [|c1 k]; cbn in Hcl; injection Hcl as -> Hcl;
        change (omap _ ms) with (closings ms) in Hcl.
      * (* the wait before finish is set *)
        specialize (Hk eq_refl). cbn in Hk.
        pose proof (moment_may_record _ _ _ Hm I Hs Hk) as Hk1.
        cbn [moment apply_closing] in Hs.
        destruct (taskQueue (shared b)) eqn:Hq; [|done]. simplify_eq.
        apply (shutdown_idle ms b1 b'); try done.
        -- rewrite Hcl. constructor; [by left|]. constructor; [by right|]. constructor.
        -- left. rewrite Hcl. apply list_elem_of_here.
        -- left. rewrite Hcl. apply list_elem_of_further, list_elem_of_here.
      * (* an effect of StopRecord *)
        cbn [moment apply_closing] in Hs.
        apply (IH b1 b' [] k); try done.
        intros _. specialize (Hk eq_refl). cbn in Hk.
        destruct (requested (may_record b) c1) eqn:Hb.
        -- by apply requested_mono.
        -- by rewrite (act_may_record (Calls c1) b b1 Hs Hb).
    + cbn in Hcl. injection Hcl as -> Hcl.
      change (omap _ ms) with (closings ms) in Hcl.
      apply Forall_cons in Hpre as [Hc0 Hpre].
      apply (IH b1 b' pre k); try done.
      * intros _. apply Hany. done.
      * intros o _. apply Hany. done.
Qed.

(** [StopRecord] queues a stop request unless it ends in [Error] under
    [CLEAN]. *)
Lemma StopRecord_requested (env : list Env) (s s' : CallerState) (cmds : list Cmd)
    (o : bool) :
  status s = OK →
  StopRecord env s = Returned (s', cmds) →
  Forall (λ c, cleans c = false) cmds →
  foldl requested o cmds = false.
Proof.
  intros Hst Hstop Hclean.
  apply StopRecord_outcome in Hstop as [(Hp & _)|(_ & _ & Hin)].
  - apply requested_pushed. by rewrite Hp.
  - rewrite Forall_forall in Hclean. by apply Hclean in Hin.
Qed.

(** X21.  Destroying the recorder leaves no file open, [Error] under
    [CLEAN] apart.  After any sequence of calls, interleaved in any way
    with the worker and the producers, the worker possibly in the middle
    of a task, the destructor, if it returns, has set [finish] and joined
    the worker with the queue empty and the output file closed and freed,
    provided that neither the calls nor the destructor's [StopRecord]
    ended in [Error] under [CLEAN]: a session that is still recorded is
    stopped by the request that [StopRecord] queues, and one that was
    stopped has been finished by the time the worker is joined.  ([Error]
    under [CLEAN] releases what it finds once the queue is empty, which
    can be before a start request in flight has opened its file.) *)
Theorem destructor_leaves_no_file (tps : Z) (cs : list Call)
    (s s' : CallerState) (cmds : list Cmd) (l : list Act) (b b' : Live)
    (d : ClosingEnv) (env : list Env) (closing : list Closing) (ms : list Moment) :
  calls tps cs new_caller = Returned (s, cmds) →
  caller_cmds l = cmds →
  acts l (idle new_recorder) = Done b →
  CVideoRecorder_dtor d env s = Returned (s', closing) →
  closings ms = closing →
  Forall (λ m, no_call m = true) ms →
  Forall (λ c, cleans c = false) cmds →
  Forall (λ c, closing_cleans c = false) closing →
  shutdown ms b = Done b' →
  finish (shared b') = true ∧ taskQueue (shared b') = [] ∧ running b' = None
  ∧ videoFile (worker (shared b')) = None.
Proof.
  intros Hcalls Hl Hrun Hdtor Hms Hno _ Hclean Hshut.
  pose proof (calls_status tps cs _ _ _ Hcalls) as Hst. cbn in Hst.
  pose proof (calls_flags tps cs _ _ _ Hcalls) as [Hmode _]. cbn in Hmode.
  assert (recordMode s = STOPPED → may_record b = false) as Hstopped.
  { intros Hm. apply (acts_may_record l _ _ Hrun).
    rewrite requested_by_caller_cmds, Hl. apply requested_pushed.
    apply (mode_stopped_closes _ STOPPED); [congruence|done]. }
  assert (finish (shared b') = true ∧ taskQueue (shared b') = [] ∧ running b' = None
          ∧ may_record b' = false) as (Hf & Hq & Hr & Hb).
  2:{ repeat split; try done.
      unfold may_record, in_flight, session_open in Hb. rewrite Hq, Hr in Hb.
      cbn in Hb. by destruct (videoFile (worker (shared b'))). }
  unfold CVideoRecorder_dtor in Hdtor.
  destruct (bool_decide_reflect (recordMode s = STOPPED)) as [Hm|Hm].
  - destruct (_ || _); [done|]. simplify_eq.
    apply (shutdown_finishes ms b b' [] []); try done.
    intros _. cbn. by apply Hstopped.
  - destruct (first_lock_throws d); [done|].
    destruct (StopRecord env s) as [[s1 k]| |] eqn:Hstop; [|done..].
    destruct (_ || _); [done|]. simplify_eq.
    apply (shutdown_finishes ms b b' [AwaitEmptyQueue; WarnDestroying] k); try done.
    + constructor; [by left|]. constructor; [by right|]. constructor.
    + intros o _. eapply StopRecord_requested; [done..|].
      match goal with H : _ = closings ms |- _ => rewrite <- H in Hclean end.
      apply Forall_cons in Hclean as [_ Hclean].
      apply Forall_cons in Hclean as [_ Hclean].
      apply Forall_app in Hclean as [Hclean _].
      by apply Forall_fmap in Hclean.
Qed.

Lemma destructor_leaves_no_file_witness :
  let quiet := {| first_lock_throws := false; second_lock_throws := false;
                  join_throws := false |} in
  let cs := [CallStartRecord [calm 0 0 (vga_frame None)] "a.mp4" 640 480 false false
               H264 (-1) Default;
             CallSampleFrame [calm 0 1 (vga_frame (Some 1%N))]] in
  ∃ s cmds b s' closing b',
    calls 1000000000 cs new_caller = Returned (s, cmds)
    ∧ acts ((Calls <$> cmds) ++ [Pops; Invokes smooth; MakesReady 1; Pops])
        (idle new_recorder) = Done b
    ∧ snd <$> running b = Some (CFrameTask 1)
    ∧ fmt_filename <$> videoFile (worker (shared b)) = Some "a.mp4"
    ∧ CVideoRecorder_dtor quiet [calm 0 0 (vga_frame None)] s = Returned (s', closing)
    ∧ shutdown ((Closes <$> take 4 closing)
                ++ [Meanwhile (Invokes smooth); Meanwhile Pops]
                ++ (Closes <$> take 2 (drop 4 closing))
                ++ [Meanwhile (Invokes smooth)]
                ++ (Closes <$> drop 6 closing)) b
      = Done b'
    ∧ sent_frames (trace (worker (shared b'))) = [0; 1]
    ∧ finish (shared b') = true ∧ taskQueue (shared b') = [] ∧ running b' = None
    ∧ videoFile (worker (shared b')) = None.
Proof.
  intros quiet cs. eexists _, _, _, _, _, _.
  match goal with
  | |- _ = Returned (?s, ?k) ∧ acts ?l _ = Done ?b ∧ _ ∧ _
       ∧ _ = Returned (?s', ?closing) ∧ shutdown ?ms _ = Done ?b' ∧ _ =>
      pose (S0 := s); pose (K := k); pose (L := l); pose (B := b);
      pose (S1 := s'); pose (CL := closing); pose (MS := ms); pose (B1 := b')
  end.
  split; [vm_compute; reflexivity|].
  split; [vm_compute; reflexivity|].
  split; [reflexivity|].
  split; [reflexivity|].
  split; [vm_compute; reflexivity|].
  split; [vm_compute; reflexivity|].
  split; [reflexivity|].
  apply (destructor_leaves_no_file 1000000000 cs S0 S1 K L B B1 quiet
           [calm 0 0 (vga_frame None)] CL MS).
  - vm_compute. reflexivity.
  - vm_compute. reflexivity.
  - vm_compute. reflexivity.
  - vm_compute. reflexivity.
  - vm_compute. reflexivity.
  - vm_compute. repeat constructor.
  - vm_compute. repeat constructor.
  - vm_compute. repeat constructor.
  - vm_compute. reflexivity.
Defined.

(** ** A frame that is never made ready *)




